(** * market-factor-sim: the CSE price pipeline, embedded and verified

    A shallow embedding of the batch scripts under [scripts/]:

    - [scripts/cse/prepare_and_ingest.py]  (classifier and normalizer),
    - [scripts/select_tickers.py]          (ticker selector),
    - [scripts/assemble_prices.py]         (assembler).

    Python objects are modelled as data: a [str] is its list of code
    points, the result of [json.loads] is a tree of Python values, a
    [float] is the IEEE value it denotes ([spec_float]), a [date] is its
    day number relative to 1970-01-01.  Exceptions are explicit: a
    computation that may raise returns [exc].  The functions of the Python
    and pandas libraries whose text is not part of the repository
    ([json.loads], [int] on a [str], ...) are the fields of the class
    [PyLib]; every statement below holds for every such library, and the
    instance [ref_lib] is used to run the scripts on concrete inputs.

    The file system is POSIX ([os.sep] is the slash). *)

From Stdlib Require Import ZArith NArith List Bool Lia.
From Stdlib Require Import Permutation Sorted.
From Stdlib Require String Ascii DecimalString.
From Stdlib Require Import Floats.SpecFloat.
Import ListNotations.
Import String.StringSyntax.
Open Scope Z_scope.
Open Scope string_scope.
Open Scope list_scope.

Set Warnings "-register-all".

(* ================================================================= *)
(** * Part I: definitions *)
(* ================================================================= *)

(** ** Python values and built-ins *)

Module Py.

(** A Python [str]: the sequence of its code points. *)
Definition pystr := list N.

(** The [str] written by an ASCII literal. *)
Definition py (s : String.string) : pystr :=
  map Ascii.N_of_ascii (String.list_ascii_of_string s).

(** The double quote, and a literal between double quotes (for JSON text). *)
Definition dquote : pystr := [34%N].
Definition quoted (s : String.string) : pystr := dquote ++ py s ++ dquote.

Fixpoint str_eqb (a b : pystr) : bool :=
  match a, b with
  | [], [] => true
  | x :: a', y :: b' => N.eqb x y && str_eqb a' b'
  | _, _ => false
  end.

(** [a <= b] on [str]: lexicographic on code points. *)
Fixpoint str_leb (a b : pystr) : bool :=
  match a, b with
  | [], _ => true
  | _ :: _, [] => false
  | x :: a', y :: b' =>
      if N.ltb x y then true else if N.ltb y x then false else str_leb a' b'
  end.

Definition is_empty {A} (l : list A) : bool :=
  match l with [] => true | _ :: _ => false end.

(** [c.isspace()]: the code points Python's [str.strip()] removes. *)
Definition isspace (c : N) : bool :=
  ((9 <=? c) && (c <=? 13) || (28 <=? c) && (c <=? 32)
   || (c =? 133) || (c =? 160) || (c =? 5760)
   || (8192 <=? c) && (c <=? 8202)
   || (c =? 8232) || (c =? 8233) || (c =? 8239) || (c =? 8287)
   || (c =? 12288))%N.

Fixpoint dropwhile {A} (p : A -> bool) (l : list A) : list A :=
  match l with
  | [] => []
  | x :: r => if p x then dropwhile p r else l
  end.

(** [s.strip()] *)
Definition strip (s : pystr) : pystr :=
  rev (dropwhile isspace (rev (dropwhile isspace s))).

(** [c in s] for a one-character [c]. *)
Definition contains (c : N) (s : pystr) : bool := existsb (N.eqb c) s.

Fixpoint find_from (c : N) (s : pystr) (i : Z) : Z :=
  match s with
  | [] => -1
  | x :: r => if N.eqb x c then i else find_from c r (i + 1)
  end.

(** [s.find(c)]: the lowest index of [c], or [-1]. *)
Definition find (c : N) (s : pystr) : Z := find_from c s 0.

Fixpoint rfind_from (c : N) (s : pystr) (i last : Z) : Z :=
  match s with
  | [] => last
  | x :: r => rfind_from c r (i + 1) (if N.eqb x c then i else last)
  end.

(** [s.rfind(c)]: the highest index of [c], or [-1]. *)
Definition rfind (c : N) (s : pystr) : Z := rfind_from c s 0 (-1).

(** [l[s:e]] with Python's treatment of negative and overlong bounds. *)
Definition slice {A} (l : list A) (s e : Z) : list A :=
  let n := Z.of_nat (length l) in
  let clamp i := if i <? 0 then Z.max 0 (i + n) else Z.min i n in
  firstn (Z.to_nat (clamp e - clamp s)) (skipn (Z.to_nat (clamp s)) l).

Definition lbracket : N := 91%N.
Definition rbracket : N := 93%N.
Definition backslash : N := 92%N.
Definition slash : N := 47%N.
Definition dot : N := 46%N.

(** [s.replace(a, b)] for one-character [a] and [b]. *)
Definition replace (a b : N) (s : pystr) : pystr :=
  map (fun c => if N.eqb c a then b else c) s.

(** [s.lower()] on the ASCII letters.  The scripts only compare a lowered
    string, or its end, with [".json"], [".txt"] and ["yes"]; no code point
    outside ASCII lowers to a character of these, so the comparisons see
    what Python sees. *)
Definition lower (s : pystr) : pystr :=
  map (fun c => if ((65 <=? c) && (c <=? 90))%N then (c + 32)%N else c) s.

Definition endswith (s suffix : pystr) : bool :=
  str_eqb (skipn (length s - length suffix)%nat s) suffix
  && Nat.leb (length suffix) (length s).

(** [os.path.splitext(fn)[0]] for a file name (no separator in it): the
    name up to its last dot, unless that dot is one of the leading dots. *)
Definition splitext_root (fn : pystr) : pystr :=
  let i := rfind dot fn in
  if i <? 0 then fn
  else if is_empty (dropwhile (N.eqb dot) (slice fn 0 i)) then fn
  else slice fn 0 i.

(** [os.path.join(dirpath, fn)], paths written relative to the raw root:
    the root itself is the empty path. *)
Definition path_join (dirpath fn : pystr) : pystr :=
  if is_empty dirpath then fn else dirpath ++ [slash] ++ fn.

(** [str(n)] for an [int]. *)
Definition str_of_int (n : Z) : pystr := py (DecimalString.NilZero.string_of_int (Z.to_int n)).

(** Exceptions, and computations that may raise. *)
Inductive exn := OSError | ValueError | TypeError | SystemExit (msg : pystr).

Inductive exc (A : Type) := Ok (a : A) | Raise (e : exn).
Arguments Ok {A} a.
Arguments Raise {A} e.

Definition bind {A B} (m : exc A) (k : A -> exc B) : exc B :=
  match m with Ok a => k a | Raise e => Raise e end.

(** A Python [int] or [float]. *)
Inductive pynum := PInt (n : Z) | PFloat (f : spec_float).

(** The objects [json.loads] builds.  A [dict] keeps its items in insertion
    order; [json.loads] never repeats a key. *)
Inductive value :=
| VNone
| VBool (b : bool)
| VInt (n : Z)
| VFloat (f : spec_float)
| VStr (s : pystr)
| VList (items : list value)
| VDict (fields : list (pystr * value)).

(** [d.get(k)] *)
Fixpoint dict_get (d : list (pystr * value)) (k : pystr) : value :=
  match d with
  | [] => VNone
  | (k', v) :: r => if str_eqb k' k then v else dict_get r k
  end.

(** [d.values()] *)
Definition dict_values (d : list (pystr * value)) : list value := map snd d.

(** [bool(v)] *)
Definition truthy (v : value) : bool :=
  match v with
  | VNone => false
  | VBool b => b
  | VInt n => negb (n =? 0)
  | VFloat (S754_zero _) => false
  | VFloat _ => true
  | VStr s => negb (is_empty s)
  | VList l => negb (is_empty l)
  | VDict d => negb (is_empty d)
  end.

(** [a or b] *)
Definition py_or (a b : value) : value := if truthy a then a else b.

(** [int(f)] for a [float]: truncation towards zero; raises on [nan] and
    on the infinities. *)
Definition int_of_float (f : spec_float) : option Z :=
  match f with
  | S754_zero _ => Some 0
  | S754_infinity _ | S754_nan => None
  | S754_finite s m e =>
      let a := if 0 <=? e then Z.pos m * 2 ^ e else Z.pos m / 2 ^ (- e) in
      Some (if s then - a else a)
  end.

(** *** Dates *)

(** A [datetime.date], as its number of days since 1970-01-01. *)
Definition date := Z.

Definition MS_PER_DAY : Z := 86400000.
(** [0001-01-01T00:00:00] and [10000-01-01T00:00:00] in epoch milliseconds:
    [utcfromtimestamp] raises outside the years 1..9999. *)
Definition MS_MIN : Z := -62135596800000.
Definition MS_END : Z := 253402300800000.

(** [datetime.utcfromtimestamp(n/1000.0).date()] for an [int] [n]; [None]
    when it raises.  For the [n] in range, [n/1000.0] and the rounding of
    [utcfromtimestamp] to microseconds stay within the day of [n]. *)
Definition utc_date_of_ms (n : Z) : option date :=
  if (MS_MIN <=? n) && (n <? MS_END) then Some (n / MS_PER_DAY) else None.

(** The civil date (year, month, day) of a day number. *)
Definition civil_of_days (d : date) : Z * Z * Z :=
  let z := d + 719468 in
  let era := z / 146097 in
  let doe := z - era * 146097 in
  let yoe := (doe - doe / 1460 + doe / 36524 - doe / 146096) / 365 in
  let doy := doe - (365 * yoe + yoe / 4 - yoe / 100) in
  let mp := (5 * doy + 2) / 153 in
  let day := doy - (153 * mp + 2) / 5 + 1 in
  let m := if mp <? 10 then mp + 3 else mp - 9 in
  let y := yoe + era * 400 + (if m <=? 2 then 1 else 0) in
  (y, m, day).

Definition digit (n : Z) : N := (48 + Z.to_N (n mod 10))%N.
Definition pad2 (n : Z) : pystr := [digit (n / 10); digit n].
Definition pad4 (n : Z) : pystr := pad2 (n / 100) ++ pad2 n.

(** [d.isoformat()], for the years 1..9999. *)
Definition isoformat (d : date) : pystr :=
  let '(y, m, day) := civil_of_days d in
  pad4 y ++ py "-" ++ pad2 m ++ py "-" ++ pad2 day.

(** [min(l)] and [max(l)] of a non-empty list of dates. *)
Definition py_min (d0 : date) (l : list date) : date := fold_left Z.min l d0.
Definition py_max (d0 : date) (l : list date) : date := fold_left Z.max l d0.

(** *** Sorting *)

(** [sorted(l, key=...)] is stable: an element goes after the elements
    that are not above it. *)
Section Sorted.
Variable A : Type.
Variable leb : A -> A -> bool.

Fixpoint insert (x : A) (l : list A) : list A :=
  match l with
  | [] => [x]
  | y :: r => if leb y x then y :: insert x r else x :: l
  end.

Definition sorted (l : list A) : list A :=
  fold_left (fun acc x => insert x acc) l [].

End Sorted.
Arguments insert {A} leb x l.
Arguments sorted {A} leb l.

End Py.
Export Py.

(** ** The library functions the scripts call *)

Class PyLib := {
  (** [json.loads(text)]; [None] when it raises. *)
  json_loads : pystr -> option value;
  (** [int(s)] for a [str] [s]; [None] when it raises [ValueError]. *)
  int_of_str : pystr -> option Z;
  (** What [pandas.to_numeric(errors="coerce")] reads in a non-empty [str]
      cell; [None] when the text is no number (the cell becomes NaN). *)
  float_of_str : pystr -> option pynum;
  (** [.astype("Int64")] on a numeric cell; [None] when the cast raises. *)
  astype_Int64 : pynum -> option Z;
  (** [datetime.fromisoformat(s).date()]; [None] when it raises. *)
  date_fromisoformat : pystr -> option date;
  (** [json.loads("")] raises. *)
  json_loads_empty : json_loads [] = None
}.

(** ** [scripts/cse/prepare_and_ingest.py]: the classifier *)

Module PrepareAndIngest.

(** The status column of the manifest. *)
Inductive status :=
| unknown | empty_file | invalid_json | empty_array | has_data | error.

Definition status_str (s : status) : pystr :=
  match s with
  | unknown => py "unknown"
  | empty_file => py "empty_file"
  | invalid_json => py "invalid_json"
  | empty_array => py "empty_array"
  | has_data => py "has_data"
  | error => py "error"
  end.

(** The local variables [status], [recs], [start_date], [end_date] of one
    turn of the classifier's loop. *)
Record summary := {
  s_status : status;
  s_recs : Z;
  s_start_date : pystr;
  s_end_date : pystr
}.

(** The tuple appended to [rows]. *)
Record manifest_row := {
  ticker : pystr;
  relative_path : pystr;
  row_status : status;
  rows : Z;
  start_date : pystr;
  end_date : pystr;
  filesize_bytes : Z
}.

(** The raw store as the classifier meets it.  Paths are relative to [RAW]. *)
Record raw_store := {
  (** what [os.walk(RAW)] yields: each directory with its file names, in
      the order the operating system lists them *)
  walk : list (pystr * list pystr);
  (** [os.path.getsize(path)]; [None] when it raises [OSError] *)
  getsize : pystr -> option Z;
  (** [open(path, encoding="utf8", errors="ignore").read()]; [None] when
      opening or reading raises *)
  read_text : pystr -> option pystr
}.

Section Classifier.
Context {lib : PyLib}.

(** [int(v)]; [None] when it raises. *)
Definition int_of_value (v : value) : option Z :=
  match v with
  | VNone => None
  | VBool b => Some (if b then 1 else 0)
  | VInt n => Some n
  | VFloat f => int_of_float f
  | VStr s => int_of_str s
  | VList _ | VDict _ => None
  end.

(** [_ms_to_date_iso(ms)] (defined by the script, and not called by it). *)
Definition _ms_to_date_iso (ms : value) : pystr :=
  match int_of_value ms with
  | Some n => match utc_date_of_ms n with Some d => isoformat d | None => py "" end
  | None => py ""
  end.

(** [it.get("tradeDate") or it.get("d") or it.get("date")] *)
Definition trade_date_field (it : list (pystr * value)) : value :=
  py_or (py_or (dict_get it (py "tradeDate")) (dict_get it (py "d")))
        (dict_get it (py "date")).

(** [datetime.utcfromtimestamp(int(td)/1000.0).date()]; [None] when any
    step raises. *)
Definition date_of_value (td : value) : option date :=
  match int_of_value td with
  | Some n => utc_date_of_ms n
  | None => None
  end.

(** The loop over the records that fills [dates] (lines 72-82, and again
    96-104). *)
Fixpoint collect_dates (items : list value) (dates : list date) : list date :=
  match items with
  | [] => dates
  | VDict it :: rest =>
      match trade_date_field it with
      | VNone => collect_dates rest dates
      | td =>
          match date_of_value td with
          | Some d => collect_dates rest (dates ++ [d])
          | None => collect_dates rest dates
          end
      end
  | _ :: rest => collect_dates rest dates
  end.

(** The treatment of a record list [l]: [recs = len(l)], then the status
    and, for [has_data], the dates. *)
Definition summarize_list (l : list value) : summary :=
  let recs := Z.of_nat (length l) in
  if recs =? 0 then
    {| s_status := empty_array; s_recs := recs;
       s_start_date := py ""; s_end_date := py "" |}
  else
    match collect_dates l [] with
    | [] => {| s_status := has_data; s_recs := recs;
               s_start_date := py ""; s_end_date := py "" |}
    | d :: ds => {| s_status := has_data; s_recs := recs;
                    s_start_date := isoformat (py_min d ds);
                    s_end_date := isoformat (py_max d ds) |}
    end.

(** [for v in j.values(): if isinstance(v, list): ...; found = True; break] *)
Fixpoint scan_values (vs : list value) : option summary :=
  match vs with
  | [] => None
  | VList l :: _ => Some (summarize_list l)
  | _ :: rest => scan_values rest
  end.

Definition no_data (s : status) : summary :=
  {| s_status := s; s_recs := 0; s_start_date := py ""; s_end_date := py "" |}.

(** Lines 63-113: the shape of the parsed document [j]. *)
Definition analyse (j : value) : summary :=
  match j with
  | VNone => no_data invalid_json
  | VList l => summarize_list l
  | VDict d =>
      match scan_values (dict_values d) with
      | Some s => s
      | None => no_data invalid_json
      end
  | _ => no_data invalid_json
  end.

(** Lines 50-62: [json.loads(txt)], and when it raises, the text from the
    first [[] to the last []]; [j] is [None] when nothing parses. *)
Definition parse_or_salvage (txt : pystr) : value :=
  match json_loads txt with
  | Some j => j
  | None =>
      if contains lbracket txt && contains rbracket txt then
        let start := find lbracket txt in
        let end_ := rfind rbracket txt + 1 in
        match json_loads (slice txt start end_) with
        | Some j => j
        | None => VNone
        end
      else VNone
  end.

(** The body of the [try] (lines 41-113): [content] is what reading the
    file gives, asked for only when the size is not 0. *)
Definition classify_body (size : Z) (content : option pystr) : exc summary :=
  if size =? 0 then Ok (no_data empty_file)
  else
    match content with
    | None => Raise OSError
    | Some raw =>
        let txt := strip raw in
        if is_empty txt then Ok (no_data empty_file)
        else Ok (analyse (parse_or_salvage txt))
    end.

(** The [try] with its handler (lines 40-115). *)
Definition classify_content (size : Z) (content : option pystr) : summary :=
  match classify_body size content with
  | Ok s => s
  | Raise _ => no_data error
  end.

(** [fn.lower().endswith((".json", ".txt"))] *)
Definition wanted (fn : pystr) : bool :=
  endswith (lower fn) (py ".json") || endswith (lower fn) (py ".txt").

(** One turn of the inner loop for a wanted file (lines 33-117).  The size
    is read before the [try]. *)
Definition classify_file (st : raw_store) (dirpath fn : pystr) : exc manifest_row :=
  let full := path_join dirpath fn in
  let rel := replace backslash slash full in
  match getsize st full with
  | None => Raise OSError
  | Some size =>
      let s := classify_content size (read_text st full) in
      Ok {| ticker := splitext_root fn; relative_path := rel;
            row_status := s_status s; rows := s_recs s;
            start_date := s_start_date s; end_date := s_end_date s;
            filesize_bytes := size |}
  end.

(** [for fn in sorted(files): ...], with [rows] as accumulator. *)
Fixpoint classify_files (st : raw_store) (dirpath : pystr) (files : list pystr)
    (acc : list manifest_row) : exc (list manifest_row) :=
  match files with
  | [] => Ok acc
  | fn :: rest =>
      if wanted fn then
        bind (classify_file st dirpath fn)
             (fun r => classify_files st dirpath rest (acc ++ [r]))
      else classify_files st dirpath rest acc
  end.

(** [for dirpath, _, files in os.walk(RAW): ...] *)
Fixpoint classify_dirs (st : raw_store) (dirs : list (pystr * list pystr))
    (acc : list manifest_row) : exc (list manifest_row) :=
  match dirs with
  | [] => Ok acc
  | (dirpath, files) :: rest =>
      bind (classify_files st dirpath (sorted str_leb files) acc)
           (fun acc' => classify_dirs st rest acc')
  end.

(** *** The manifest file *)

(** [csv.writer]'s default dialect: a field is quoted when it holds the
    delimiter, the quote or a line break, its quotes doubled. *)
Definition csv_special (c : N) : bool :=
  (N.eqb c 44 || N.eqb c 34 || N.eqb c 13 || N.eqb c 10)%N.

Definition csv_field (f : pystr) : pystr :=
  if existsb csv_special f then
    dquote ++ flat_map (fun c => if N.eqb c 34 then dquote ++ dquote else [c]) f ++ dquote
  else f.

Fixpoint csv_join (fs : list pystr) : pystr :=
  match fs with
  | [] => []
  | [f] => csv_field f
  | f :: r => csv_field f ++ [44%N] ++ csv_join r
  end.

(** [w.writerow(fields)] *)
Definition csv_line (fs : list pystr) : pystr := csv_join fs ++ [13%N; 10%N].

Definition manifest_header : list pystr :=
  [py "ticker"; py "relative_path"; py "status"; py "rows";
   py "start_date"; py "end_date"; py "filesize_bytes"].

Definition row_fields (r : manifest_row) : list pystr :=
  [ticker r; relative_path r; status_str (row_status r); str_of_int (rows r);
   start_date r; end_date r; str_of_int (filesize_bytes r)].

(** The text written to [MANIFEST] (lines 119-122). *)
Definition manifest_text (rs : list manifest_row) : pystr :=
  csv_line manifest_header ++ flat_map (fun r => csv_line (row_fields r)) rs.

(** [classify_and_summarize()]: the rows it returns and the manifest it
    writes, or the exception that ends the run before anything is written. *)
Definition classify_and_summarize (st : raw_store) : exc (list manifest_row * pystr) :=
  bind (classify_dirs st (walk st) [])
       (fun rs => Ok (rs, manifest_text rs)).

End Classifier.

(** ** [scripts/cse/prepare_and_ingest.py]: the normalizer *)

(** A row of the manifest as [csv.DictReader] hands it over: the text of
    each column. *)
Record manifest_entry := {
  m_ticker : pystr;
  m_relative_path : pystr;
  m_status : pystr;
  m_rows : pystr;
  m_start_date : pystr;
  m_end_date : pystr
}.

(** What [DictReader] reads back from a row the classifier wrote. *)
Definition entry_of_row (r : manifest_row) : manifest_entry :=
  {| m_ticker := ticker r; m_relative_path := relative_path r;
     m_status := status_str (row_status r); m_rows := str_of_int (rows r);
     m_start_date := start_date r; m_end_date := end_date r |}.

(** The dict appended to [rows] for one record (lines 178-188). *)
Record raw_row := {
  r_ticker : pystr;
  r_trade_date : pystr;
  r_open : value;
  r_high : value;
  r_low : value;
  r_close : value;
  r_turnover : value;
  r_share_volume : value;
  r_trade_volume : value
}.

(** A row of the canonical CSV: the cells after coercion.  An empty cell
    (NaN, [<NA>]) is [None].  A numeric cell holds the number as the raw
    document gave it; pandas may store it in the column's type (an [int]
    beside floats becomes the nearest [float]). *)
Record price_row := {
  p_ticker : pystr;
  p_trade_date : pystr;
  p_open : option pynum;
  p_high : option pynum;
  p_low : option pynum;
  p_close : option pynum;
  p_turnover : option pynum;
  p_share_volume : option Z;
  p_trade_volume : option Z
}.

(** What the normalizer prints. *)
Inductive message :=
| SKIP_could_not_parse (raw_path : pystr)
| SKIP_no_record_list (raw_path : pystr)
| NO_ROWS (ticker : pystr)
| WROTE_normalized (outpath : pystr) (n : nat).

(** The variables that outlive a turn of the normalizer's loop, and its
    effects: [content] ([None] while unbound), the files written under
    [NORMAL] (latest first), and the printed lines (latest first). *)
Record norm_state := {
  content : option pystr;
  written : list (pystr * list price_row);
  printed : list message
}.

Section Normalizer.
Context {lib : PyLib}.

(** Lines 165-169. *)
Definition trade_date_of (it : list (pystr * value)) : pystr :=
  let td := trade_date_field it in
  if truthy td then
    match date_of_value td with
    | Some d => isoformat d
    | None => py ""
    end
  else py "".

(** Line 174: [it.get("close") if it.get("close") is not None else
    (it.get("v") or None)]. *)
Definition close_of (it : list (pystr * value)) : value :=
  match dict_get it (py "close") with
  | VNone => py_or (dict_get it (py "v")) VNone
  | c => c
  end.

Definition build_row (ticker : pystr) (it : list (pystr * value)) : raw_row :=
  {| r_ticker := ticker;
     r_trade_date := trade_date_of it;
     r_open := dict_get it (py "open");
     r_high := dict_get it (py "high");
     r_low := dict_get it (py "low");
     r_close := close_of it;
     r_turnover := dict_get it (py "turnover");
     r_share_volume := py_or (dict_get it (py "shareVolume")) (dict_get it (py "shareVolume"));
     r_trade_volume := py_or (dict_get it (py "tradeVolume")) (dict_get it (py "tradeVolume")) |}.

(** Lines 161-188: one row per record that is a dict. *)
Fixpoint build_rows (ticker : pystr) (records : list value) : list raw_row :=
  match records with
  | [] => []
  | VDict it :: rest => build_row ticker it :: build_rows ticker rest
  | _ :: rest => build_rows ticker rest
  end.

(** [Series.isnull()] on a cell. *)
Definition isnull (v : value) : bool :=
  match v with
  | VNone => true
  | VFloat S754_nan => true
  | _ => false
  end.

(** Lines 194-195. *)
Definition drop_invalid (df : list raw_row) : list raw_row :=
  filter (fun r => negb (isnull (r_close r)))
         (filter (fun r => negb (str_eqb (r_trade_date r) (py ""))) df).

(** [pd.to_numeric(column, errors="coerce")] on a cell.  (A column of
    booleans only is kept as booleans by pandas; beside other values they
    count as 1 and 0.) *)
Definition to_numeric (v : value) : option pynum :=
  match v with
  | VNone => None
  | VBool b => Some (PInt (if b then 1 else 0))
  | VInt n => Some (PInt n)
  | VFloat S754_nan => None
  | VFloat f => Some (PFloat f)
  | VStr s => if is_empty s then None else float_of_str s
  | VList _ | VDict _ => None
  end.

(** [pd.to_numeric(column, errors="coerce").astype("Int64")] on a cell. *)
Definition to_Int64 (v : value) : exc (option Z) :=
  match to_numeric v with
  | None => Ok None
  | Some x =>
      match astype_Int64 x with
      | Some n => Ok (Some n)
      | None => Raise TypeError
      end
  end.

(** Lines 197-200 on one row. *)
Definition coerce_row (r : raw_row) : exc price_row :=
  bind (to_Int64 (r_share_volume r)) (fun sv =>
  bind (to_Int64 (r_trade_volume r)) (fun tv =>
  Ok {| p_ticker := r_ticker r;
        p_trade_date := r_trade_date r;
        p_open := to_numeric (r_open r);
        p_high := to_numeric (r_high r);
        p_low := to_numeric (r_low r);
        p_close := to_numeric (r_close r);
        p_turnover := to_numeric (r_turnover r);
        p_share_volume := sv;
        p_trade_volume := tv |})).

Fixpoint coerce_rows (df : list raw_row) : exc (list price_row) :=
  match df with
  | [] => Ok []
  | r :: rest =>
      bind (coerce_row r) (fun p =>
      bind (coerce_rows rest) (fun ps => Ok (p :: ps)))
  end.

(** [df.sort_values("trade_date")].  (pandas fixes no order among rows of
    one date; nothing below depends on it.) *)
Definition sort_by_trade_date (df : list price_row) : list price_row :=
  sorted (fun a b => str_leb (p_trade_date a) (p_trade_date b)) df.

(** Lines 161-201 for one record list: [None] when [rows] is empty and
    nothing is written, else the rows of the CSV. *)
Definition normalize_records (ticker : pystr) (records : list value)
    : exc (option (list price_row)) :=
  let rows := build_rows ticker records in
  if is_empty rows then Ok None
  else
    bind (coerce_rows (drop_invalid rows))
         (fun df => Ok (Some (sort_by_trade_date df))).

(** Lines 150-157: the record list of a parsed document. *)
Fixpoint first_list (vs : list value) : option (list value) :=
  match vs with
  | [] => None
  | VList l :: _ => Some l
  | _ :: rest => first_list rest
  end.

Definition records_of (j : value) : option (list value) :=
  match j with
  | VList l => Some l
  | VDict d => first_list (dict_values d)
  | _ => None
  end.

(** Lines 139-146 on a text [c]: [json.loads(c)], and when it raises, the
    text from the first [[] to one past the last []], as [find] and [rfind]
    give them. *)
Definition salvage (c : pystr) : option value :=
  let s := find lbracket c in
  let e := rfind rbracket c + 1 in
  json_loads (slice c s e).

Definition parse_content (c : pystr) : option value :=
  match json_loads c with
  | Some j => Some j
  | None => salvage c
  end.

(** Lines 136-148: the parsed document, and [content] afterwards.  When
    opening the file raises, [content] keeps what an earlier turn left in
    it (or is unbound), and the handler works on that. *)
Definition load_document (st : norm_state) (read : option pystr)
    : option value * option pystr :=
  match read with
  | Some c => (parse_content c, Some c)
  | None =>
      match content st with
      | Some c0 => (salvage c0, Some c0)
      | None => (None, None)
      end
  end.

Definition outpath_of (ticker : pystr) : pystr := ticker ++ py ".csv".

Definition say (m : message) (st : norm_state) (c : option pystr) : norm_state :=
  {| content := c; written := written st; printed := m :: printed st |}.

(** One turn of the loop (lines 131-204): the state afterwards, and the
    exception that ends the run, if one is raised. *)
Definition normalize_entry (read_text : pystr -> option pystr)
    (st : norm_state) (r : manifest_entry) : norm_state * option exn :=
  if negb (str_eqb (m_status r) (py "has_data")) then (st, None)
  else
    let raw_path := replace slash slash (m_relative_path r) in
    let ticker := m_ticker r in
    match load_document st (read_text raw_path) with
    | (None, c) => (say (SKIP_could_not_parse raw_path) st c, None)
    | (Some j, c) =>
        match records_of j with
        | None => (say (SKIP_no_record_list raw_path) st c, None)
        | Some records =>
            match normalize_records ticker records with
            | Ok None => (say (NO_ROWS ticker) st c, None)
            | Ok (Some df) =>
                ({| content := c;
                    written := (outpath_of ticker, df) :: written st;
                    printed := WROTE_normalized (outpath_of ticker) (length df)
                               :: printed st |}, None)
            | Raise e =>
                ({| content := c; written := written st; printed := printed st |},
                 Some e)
            end
        end
    end.

(** [normalize_has_data()]: the loop over the manifest. *)
Fixpoint normalize_loop (read_text : pystr -> option pystr)
    (st : norm_state) (manifest : list manifest_entry) : norm_state * option exn :=
  match manifest with
  | [] => (st, None)
  | r :: rest =>
      match normalize_entry read_text st r with
      | (st', None) => normalize_loop read_text st' rest
      | (st', Some e) => (st', Some e)
      end
  end.

Definition initial_state : norm_state :=
  {| content := None; written := []; printed := [] |}.

Definition normalize_has_data (read_text : pystr -> option pystr)
    (manifest : list manifest_entry) : norm_state * option exn :=
  normalize_loop read_text initial_state manifest.

(** The file at [path] under [NORMAL] after the run, if there is one. *)
Fixpoint lookup_file (path : pystr) (files : list (pystr * list price_row))
    : option (list price_row) :=
  match files with
  | [] => None
  | (p, rows) :: rest => if str_eqb p path then Some rows else lookup_file path rest
  end.

(** The script run as a program (lines 206-209): the classifier, then the
    normalizer on the manifest just written.  The normalizer reads the
    manifest back through [csv.DictReader]; a field without a line break in
    it is read back as it was written. *)
Definition run_script (st : raw_store)
    : exc (list manifest_row * (norm_state * option exn)) :=
  bind (classify_and_summarize st) (fun out =>
    Ok (fst out,
        normalize_has_data (read_text st) (map entry_of_row (fst out)))).

End Normalizer.

End PrepareAndIngest.

(** ** [scripts/select_tickers.py] *)

Module SelectTickers.
Import PrepareAndIngest.

(** A row of [tickers_used.csv]. *)
Record selection := {
  sel_ticker : pystr;
  sel_relative_path : pystr;
  sel_rows : Z;
  sel_start_date : pystr;
  sel_end_date : pystr;
  sel_include : pystr
}.

Section Selector.
Context {lib : PyLib}.

(** [parse_date(s)] *)
Definition parse_date (s : pystr) : option date :=
  if is_empty s then None else date_fromisoformat s.

(** [int(r.get("rows") or 0)] *)
Definition rows_count_of (r : manifest_entry) : exc Z :=
  if is_empty (m_rows r) then Ok 0
  else match int_of_str (m_rows r) with
       | Some n => Ok n
       | None => Raise ValueError
       end.

(** Lines 42-51: [include], through its three conditional assignments.  A
    [date] is always true; [max_missing_days] is true when it is an [int]
    other than 0. *)
Definition decide_include (min_rows : Z) (min_start : option date)
    (max_missing_days : option Z) (rows_count : Z) (sd ed : option date) : bool :=
  let include := true in
  let include := if rows_count <? min_rows then false else include in
  let include :=
    match min_start with
    | Some ms =>
        match sd with
        | None => false
        | Some d => if ms <? d then false else include
        end
    | None => include
    end in
  match max_missing_days, sd, ed with
  | Some n, Some s, Some e =>
      if n =? 0 then include
      else if (e - s) <? n then false else include
  | _, _, _ => include
  end.

Definition iso_or_empty (d : option date) : pystr :=
  match d with Some x => isoformat x | None => py "" end.

(** Lines 35-59: the dict appended for one [has_data] row. *)
Definition select_entry (min_rows : Z) (min_start : option date)
    (max_missing_days : option Z) (r : manifest_entry) : exc selection :=
  bind (rows_count_of r) (fun rows_count =>
    let sd := parse_date (m_start_date r) in
    let ed := parse_date (m_end_date r) in
    let include := decide_include min_rows min_start max_missing_days rows_count sd ed in
    Ok {| sel_ticker := m_ticker r;
          sel_relative_path := m_relative_path r;
          sel_rows := rows_count;
          sel_start_date := iso_or_empty sd;
          sel_end_date := iso_or_empty ed;
          sel_include := if include then py "yes" else py "no" |}).

(** The loop over the manifest (lines 34-59). *)
Fixpoint select_entries (min_rows : Z) (min_start : option date)
    (max_missing_days : option Z) (manifest : list manifest_entry)
    : exc (list selection) :=
  match manifest with
  | [] => Ok []
  | r :: rest =>
      if negb (str_eqb (m_status r) (py "has_data")) then
        select_entries min_rows min_start max_missing_days rest
      else
        bind (select_entry min_rows min_start max_missing_days r) (fun x =>
        bind (select_entries min_rows min_start max_missing_days rest) (fun xs =>
        Ok (x :: xs)))
  end.

(** The sort key [(-int(x["rows"]), x["ticker"])], compared as tuples. *)
Definition key_leb (a b : selection) : bool :=
  if - sel_rows a <? - sel_rows b then true
  else if - sel_rows b <? - sel_rows a then false
  else str_leb (sel_ticker a) (sel_ticker b).

(** [main(min_rows, min_start, max_missing_days)]: the rows written to
    [tickers_used.csv], in order.  [manifest] is [None] when the manifest
    file does not exist. *)
Definition main (min_rows : Z) (min_start : option date)
    (max_missing_days : option Z) (manifest : option (list manifest_entry))
    : exc (list selection) :=
  match manifest with
  | None => Raise (SystemExit (py "Manifest not found"))
  | Some entries =>
      bind (select_entries min_rows min_start max_missing_days entries)
           (fun rows => Ok (sorted key_leb rows))
  end.

End Selector.

End SelectTickers.

(** ** [scripts/assemble_prices.py] *)

Module AssemblePrices.

(** A table, cell by cell as the CSV text has it: the column names and the
    rows, each with one cell per column.  An empty cell is the empty text. *)
Record frame := {
  columns : list pystr;
  data : list (list pystr)
}.

(** A path under [NORMAL]: no file, a file [pd.read_csv] cannot read (no
    header line), or a table. *)
Inductive csv_file := Missing | Unreadable | Table (f : frame).

Inductive warning := file_not_found (ticker : pystr).

Definition canonical_columns : list pystr :=
  [py "ticker"; py "trade_date"; py "open"; py "high"; py "low"; py "close";
   py "turnover"; py "share_volume"; py "trade_volume"].

Fixpoint index_of (c : pystr) (cols : list pystr) : option nat :=
  match cols with
  | [] => None
  | x :: r => if str_eqb x c then Some O
              else match index_of c r with Some i => Some (S i) | None => None end
  end.

Definition has_column (c : pystr) (f : frame) : bool :=
  match index_of c (columns f) with Some _ => true | None => false end.

(** The cell of [row] under column [c] ([""] when the frame has no such
    column). *)
Definition cell (f : frame) (row : list pystr) (c : pystr) : pystr :=
  match index_of c (columns f) with
  | Some i => nth i row (py "")
  | None => py ""
  end.

Fixpoint set_nth (i : nat) (v : pystr) (row : list pystr) : list pystr :=
  match i, row with
  | _, [] => []
  | O, _ :: r => v :: r
  | S j, x :: r => x :: set_nth j v r
  end.

(** [df[c] = v] for a scalar [v]. *)
Definition set_column (c v : pystr) (f : frame) : frame :=
  match index_of c (columns f) with
  | Some i => {| columns := columns f; data := map (set_nth i v) (data f) |}
  | None => {| columns := columns f ++ [c]; data := map (fun row => row ++ [v]) (data f) |}
  end.

(** [df[cols]] *)
Definition select_columns (cols : list pystr) (f : frame) : frame :=
  {| columns := cols; data := map (fun row => map (cell f row) cols) (data f) |}.

(** [pd.read_csv(path, parse_dates=["trade_date"])]: raises when there is
    nothing to parse or no [trade_date] column. *)
Definition read_csv (file : csv_file) : exc frame :=
  match file with
  | Table f => if has_column (py "trade_date") f then Ok f else Raise ValueError
  | _ => Raise ValueError
  end.

(** Lines 20-29: the part a ticker's table contributes. *)
Definition part_of (ticker : pystr) (df : frame) : frame :=
  let df := set_column (py "ticker") ticker df in
  let existing_cols := filter (fun c => has_column c df) canonical_columns in
  select_columns existing_cols df.

(** The loop of [assemble] (lines 15-29): the parts and the warnings
    printed, latest last. *)
Fixpoint collect_parts (normal : pystr -> csv_file) (tickers : list pystr)
    (parts : list frame) (warnings : list warning)
    : exc (list frame) * list warning :=
  match tickers with
  | [] => (Ok parts, warnings)
  | ticker :: rest =>
      match normal (ticker ++ py ".csv") with
      | Missing => collect_parts normal rest parts (warnings ++ [file_not_found ticker])
      | file =>
          match read_csv file with
          | Ok df => collect_parts normal rest (parts ++ [part_of ticker df]) warnings
          | Raise e => (Raise e, warnings)
          end
      end
  end.

Fixpoint union_columns (seen : list pystr) (cols : list pystr) : list pystr :=
  match cols with
  | [] => seen
  | c :: r =>
      match index_of c seen with
      | Some _ => union_columns seen r
      | None => union_columns (seen ++ [c]) r
      end
  end.

(** [pd.concat(parts, ignore_index=True)] *)
Definition concat (parts : list frame) : frame :=
  let cols := fold_left (fun seen f => union_columns seen (columns f)) parts [] in
  {| columns := cols;
     data := flat_map (fun f => map (fun row => map (cell f row) cols) (data f)) parts |}.

Section Assembler.
Context {lib : PyLib}.

(** [pd.to_datetime(cell).date()] on one cell: an empty cell stays empty
    (NaT), a text that is no date raises. *)
Definition to_date_cell (c : pystr) : exc pystr :=
  if is_empty c then Ok c
  else match date_fromisoformat c with
       | Some d => Ok (isoformat d)
       | None => Raise ValueError
       end.

Fixpoint map_exc {A B} (f : A -> exc B) (l : list A) : exc (list B) :=
  match l with
  | [] => Ok []
  | x :: r => bind (f x) (fun y => bind (map_exc f r) (fun ys => Ok (y :: ys)))
  end.

(** [all_df["trade_date"] = pd.to_datetime(all_df["trade_date"]).dt.date] *)
Definition normalize_trade_date (f : frame) : exc frame :=
  match index_of (py "trade_date") (columns f) with
  | None => Raise ValueError
  | Some i =>
      bind (map_exc (fun row =>
              bind (to_date_cell (nth i row (py ""))) (fun d => Ok (set_nth i d row)))
            (data f))
           (fun rows => Ok {| columns := columns f; data := rows |})
  end.

(** The order of [sort_values(["ticker","trade_date"])]: empty dates last.
    The dates are ISO texts here, ordered as the days they name. *)
Definition panel_leb (f : frame) (a b : list pystr) : bool :=
  let ta := cell f a (py "ticker") in
  let tb := cell f b (py "ticker") in
  let da := cell f a (py "trade_date") in
  let db := cell f b (py "trade_date") in
  if negb (str_leb tb ta) then true
  else if negb (str_leb ta tb) then false
  else if is_empty db then true
  else if is_empty da then false
  else str_leb da db.

Definition sort_panel (f : frame) : frame :=
  {| columns := columns f; data := sorted (panel_leb f) (data f) |}.

(** [assemble(tickers)]: the warnings printed, and the table written to
    [prices_long.parquet] or the exception that ends the run. *)
Definition assemble (normal : pystr -> csv_file) (tickers : list pystr)
    : exc frame * list warning :=
  match collect_parts normal tickers [] [] with
  | (Raise e, ws) => (Raise e, ws)
  | (Ok parts, ws) =>
      if is_empty parts then (Raise (SystemExit (py "No data assembled")), ws)
      else
        (bind (normalize_trade_date (concat parts)) (fun all_df =>
           Ok (sort_panel all_df)), ws)
  end.

End Assembler.

(** [load_selected_tickers()]: the tickers whose [include] reads yes, as
    texts (pandas reads a ticker column of numerals only as numbers). *)
Definition load_selected_tickers (rows : list SelectTickers.selection) : list pystr :=
  map SelectTickers.sel_ticker
      (filter (fun r => str_eqb (lower (SelectTickers.sel_include r)) (py "yes")) rows).

(** The number of data rows a ticker's file holds. *)
Definition rows_yielded (normal : pystr -> csv_file) (ticker : pystr) : nat :=
  match normal (ticker ++ py ".csv") with
  | Table f => length (data f)
  | _ => O
  end.

End AssemblePrices.

(** ** A reference library, and the documents of the examples *)

Module Ref.
Import PrepareAndIngest.

Definition day_ms (d : Z) : Z := d * MS_PER_DAY.

(** [[{"tradeDate": 0, "d": 86400000}, {"date": 0}]] *)
Definition doc_epoch_text : pystr :=
  py "[{" ++ quoted "tradeDate" ++ py ": 0, " ++ quoted "d" ++ py ": 86400000}, {"
  ++ quoted "date" ++ py ": 0}]".
Definition doc_epoch : value :=
  VList [VDict [(py "tradeDate", VInt 0); (py "d", VInt 86400000)];
         VDict [(py "date", VInt 0)]].

(** [[{"tradeDate": 1514764800000, "close": 12.5}, {"d": 1514851200000,
    "close": 0}, {"date": "n/a", "close": 3}]]: 2018-01-01, 2018-01-02 and
    a record without a date. *)
Definition twelve_and_a_half : spec_float := S754_finite false 25 (-1).
Definition doc_prices_text : pystr :=
  py "[{" ++ quoted "tradeDate" ++ py ": 1514764800000, " ++ quoted "close"
  ++ py ": 12.5}, {" ++ quoted "d" ++ py ": 1514851200000, " ++ quoted "close"
  ++ py ": 0}, {" ++ quoted "date" ++ py ": " ++ quoted "n/a" ++ py ", "
  ++ quoted "close" ++ py ": 3}]".
Definition doc_prices : value :=
  VList [VDict [(py "tradeDate", VInt 1514764800000); (py "close", VFloat twelve_and_a_half)];
         VDict [(py "d", VInt 1514851200000); (py "close", VInt 0)];
         VDict [(py "date", VStr (py "n/a")); (py "close", VInt 3)]].

(** [[{"tradeDate": 86400000, "close": "N/A"}]] *)
Definition doc_text_close_text : pystr :=
  py "[{" ++ quoted "tradeDate" ++ py ": 86400000, " ++ quoted "close" ++ py ": "
  ++ quoted "N/A" ++ py "}]".
Definition doc_text_close : value :=
  VList [VDict [(py "tradeDate", VInt 86400000); (py "close", VStr (py "N/A"))]].

(** [[{"close": 5}]]: a record with no date. *)
Definition doc_undated_text : pystr :=
  py "[{" ++ quoted "close" ++ py ": 5}]".
Definition doc_undated : value := VList [VDict [(py "close", VInt 5)]].

(** [[1, 2]]: records that are no dicts. *)
Definition doc_numbers_text : pystr := py "[1, 2]".
Definition doc_numbers : value := VList [VInt 1; VInt 2].

(** [<html>[]</html>]: an empty array inside markup. *)
Definition doc_html_text : pystr := py "<html>[]</html>".

(** What [json.loads] returns on the documents above; it raises on the
    other texts the examples hand to it. *)
Definition documents : list (pystr * value) :=
  [(doc_epoch_text, doc_epoch); (doc_prices_text, doc_prices);
   (doc_text_close_text, doc_text_close); (doc_undated_text, doc_undated);
   (doc_numbers_text, doc_numbers); (py "[]", VList [])].

Fixpoint lookup (t : pystr) (table : list (pystr * value)) : option value :=
  match table with
  | [] => None
  | (k, v) :: r => if str_eqb k t then Some v else lookup t r
  end.

Definition loads (t : pystr) : option value := lookup t documents.

(** Plain decimal digits, as [int] and [pandas.to_numeric] read them. *)
Fixpoint digits_value (s : pystr) (acc : Z) : option Z :=
  match s with
  | [] => Some acc
  | c :: r =>
      if ((48 <=? c) && (c <=? 57))%N
      then digits_value r (10 * acc + (Z.of_N c - 48))
      else None
  end.

Definition digits (s : pystr) : option Z :=
  match s with [] => None | _ => digits_value s 0 end.

Definition number_of_text (s : pystr) : option pynum :=
  match digits s with Some n => Some (PInt n) | None => None end.

(** A whole number goes to [Int64] as it is; a float with a fraction does
    not. *)
Definition to_int64 (x : pynum) : option Z :=
  match x with
  | PInt n => Some n
  | PFloat (S754_zero _) => Some 0
  | PFloat (S754_finite s m e) =>
      if 0 <=? e then int_of_float (S754_finite s m e) else None
  | PFloat _ => None
  end.

(** The day number of a civil date. *)
Definition days_of_civil (y m d : Z) : date :=
  let y' := if m <=? 2 then y - 1 else y in
  let era := y' / 400 in
  let yoe := y' - era * 400 in
  let mp := if 2 <? m then m - 3 else m + 9 in
  let doy := (153 * mp + 2) / 5 + d - 1 in
  let doe := yoe * 365 + yoe / 4 - yoe / 100 + doy in
  era * 146097 + doe - 719468.

(** [YYYY-MM-DD], accepted when it is the ISO text of the day it names. *)
Definition fromisoformat (s : pystr) : option date :=
  match digits (slice s 0 4), digits (slice s 5 7), digits (slice s 8 10) with
  | Some y, Some m, Some d =>
      let day := days_of_civil y m d in
      if str_eqb (isoformat day) s then Some day else None
  | _, _, _ => None
  end.

Definition ref_lib : PyLib :=
  {| json_loads := loads;
     int_of_str := digits;
     float_of_str := number_of_text;
     astype_Int64 := to_int64;
     date_fromisoformat := fromisoformat;
     json_loads_empty := eq_refl |}.

(** *** Stores *)

(** A store: its listing, and for each path the size and the text
    ([None] where asking raises; a path that is not in the table cannot
    be asked for its size). *)
Definition file_table := list (pystr * (option Z * option pystr)).

Fixpoint file_entry (p : pystr) (t : file_table) : option (option Z * option pystr) :=
  match t with
  | [] => None
  | (k, e) :: r => if str_eqb k p then Some e else file_entry p r
  end.

Definition store_of (listing : list (pystr * list pystr)) (t : file_table) : raw_store :=
  {| walk := listing;
     getsize := fun p => match file_entry p t with Some (sz, _) => sz | None => None end;
     read_text := fun p => match file_entry p t with Some (_, txt) => txt | None => None end |}.

Definition whole (text : pystr) : option Z * option pystr :=
  (Some (Z.of_nat (length text)), Some text).

Definition demo_files : file_table :=
  [(py "prices.json", whole doc_prices_text);
   (py "epoch.json", whole doc_epoch_text);
   (py "page.txt", whole doc_html_text);
   (py "empty.json", whole []);
   (py "locked.json", (Some 120, None));
   (py "old/undated.json", whole doc_undated_text);
   (py "old/close.json", whole doc_text_close_text);
   (py "old/numbers.json", whole doc_numbers_text)].

Definition demo_store : raw_store :=
  store_of
    [(py "", [py "prices.json"; py "page.txt"; py "notes.md"; py "epoch.json";
              py "locked.json"; py "empty.json"]);
     (py "old", [py "undated.json"; py "numbers.json"; py "close.json"])]
    demo_files.


(** A store with a name whose size cannot be asked for (a link to nothing). *)
Definition broken_store : raw_store :=
  store_of [(py "", [py "gone.json"; py "prices.json"])]
           [(py "prices.json", whole doc_prices_text)].


Definition entry (ticker path status nrows sd ed : String.string) : manifest_entry :=
  {| m_ticker := py ticker; m_relative_path := py path; m_status := py status;
     m_rows := py nrows; m_start_date := py sd; m_end_date := py ed |}.

(** A manifest for the selector. *)
Definition demo_manifest : list manifest_entry :=
  [entry "AAA" "AAA.json" "has_data" "150" "2017-05-01" "2020-01-31";
   entry "BBB" "BBB.json" "has_data" "99" "2016-01-04" "2020-01-31";
   entry "CCC" "CCC.json" "empty_array" "0" "" "";
   entry "DDD" "DDD.json" "has_data" "150" "2019-03-01" "2020-01-31";
   entry "ABC" "ABC.json" "has_data" "150" "" ""].

(** [NORMAL] with one file, [AAA.csv], that holds the header line only. *)
Definition normal_header_only (path : pystr) : AssemblePrices.csv_file :=
  if str_eqb path (py "AAA.csv")
  then AssemblePrices.Table
         {| AssemblePrices.columns := AssemblePrices.canonical_columns;
            AssemblePrices.data := [] |}
  else AssemblePrices.Missing.

(** A manifest whose second entry names a file that is not in the demo
    store. *)
Definition manifest_with_ghost : list manifest_entry :=
  [entry "prices" "prices.json" "has_data" "3" "2018-01-01" "2018-01-02";
   entry "ghost" "ghost.json" "has_data" "7" "" ""].

(** A manifest with a row count that is no number, in a [has_data] entry. *)
Definition manifest_bad_rows : list manifest_entry :=
  [entry "AAA" "AAA.json" "has_data" "150" "2017-05-01" "2020-01-31";
   entry "BBB" "BBB.json" "has_data" "many" "2016-01-04" "2020-01-31"].

(** Two canonical files: [AAA.csv] with its own ticker column and two
    rows, [BBB.csv] without a ticker column and with one row; [CCC.csv]
    has no [trade_date] column. *)
Definition frame_AAA : AssemblePrices.frame :=
  {| AssemblePrices.columns := [py "ticker"; py "trade_date"; py "close"];
     AssemblePrices.data := [[py "XXX"; py "2018-01-02"; py "11.0"];
                             [py "XXX"; py "2018-01-01"; py "10.0"]] |}.
Definition frame_BBB : AssemblePrices.frame :=
  {| AssemblePrices.columns := [py "trade_date"; py "close"];
     AssemblePrices.data := [[py "2018-01-01"; py "5.5"]] |}.
Definition frame_CCC : AssemblePrices.frame :=
  {| AssemblePrices.columns := [py "ticker"; py "close"];
     AssemblePrices.data := [[py "CCC"; py "1.0"]] |}.

Definition normal_demo (path : pystr) : AssemblePrices.csv_file :=
  if str_eqb path (py "AAA.csv") then AssemblePrices.Table frame_AAA
  else if str_eqb path (py "BBB.csv") then AssemblePrices.Table frame_BBB
  else if str_eqb path (py "CCC.csv") then AssemblePrices.Table frame_CCC
  else AssemblePrices.Missing.

End Ref.

(** ** The statements of the specification, in its own words *)

Module Claims.
Import PrepareAndIngest.

Section ClassifierClaims.
Context {lib : PyLib}.

(** Whitespace-only content. *)
Definition whitespace_only (s : pystr) : Prop :=
  Forall (fun c => isspace c = true) s.

(** The substring between the first [[] and the last []] of a text (both
    included): there is one when the first [[] stands before the last []]. *)
Inductive bracket_substring (txt : pystr) : pystr -> Prop :=
| bracket_substring_intro pre mid post :
    txt = pre ++ lbracket :: mid ++ rbracket :: post ->
    ~ In lbracket pre ->
    ~ In rbracket post ->
    bracket_substring txt (lbracket :: mid ++ [rbracket]).

(** The content parses as JSON: directly, or, when direct parsing fails,
    through its bracket substring. *)
Inductive parses (txt : pystr) : value -> Prop :=
| parses_directly j :
    json_loads txt = Some j -> parses txt j
| parses_bracket_substring sub j :
    json_loads txt = None ->
    bracket_substring txt sub ->
    json_loads sub = Some j ->
    parses txt j.

Definition is_list (v : value) : Prop := exists l, v = VList l.

(** The first list-valued field of a dict, in insertion order. *)
Inductive first_list_field (d : list (pystr * value)) : list value -> Prop :=
| first_list_field_intro pre k l post :
    d = pre ++ (k, VList l) :: post ->
    Forall (fun kv => ~ is_list (snd kv)) pre ->
    first_list_field d l.

Inductive list_status : list value -> status -> Prop :=
| list_of_length_0 : list_status [] empty_array
| list_non_empty x l : list_status (x :: l) has_data.

(** Shape analysis of a parsed value. *)
Inductive shape_status : value -> status -> Prop :=
| shape_list l st :
    list_status l st -> shape_status (VList l) st
| shape_dict_with_list d l st :
    first_list_field d l -> list_status l st -> shape_status (VDict d) st
| shape_dict_without_list d :
    Forall (fun kv => ~ is_list (snd kv)) d ->
    shape_status (VDict d) invalid_json
| shape_other j :
    (forall l, j <> VList l) -> (forall d, j <> VDict d) ->
    shape_status j invalid_json.

(** The decision tree of the classifier for a file of [size] bytes whose
    text is [content].  The text that is parsed is the stripped one. *)
Inductive decision_tree (size : Z) (content : pystr) : status -> Prop :=
| tree_empty_file :
    size = 0 \/ whitespace_only content ->
    decision_tree size content empty_file
| tree_parsed j st :
    size <> 0 -> ~ whitespace_only content ->
    parses (strip content) j ->
    shape_status j st ->
    decision_tree size content st
| tree_unparsed :
    size <> 0 -> ~ whitespace_only content ->
    (forall j, ~ parses (strip content) j) ->
    decision_tree size content invalid_json.

(** *** Manifest dates *)

(** The trade-date field of a record, read from the aliases [tradeDate],
    [d], [date] in that priority order: the value under the first alias
    the record has a value for. *)
Definition alias_value (it : list (pystr * value)) : value :=
  match dict_get it (py "tradeDate") with
  | VNone =>
      match dict_get it (py "d") with
      | VNone => dict_get it (py "date")
      | v => v
      end
  | v => v
  end.

(** The calendar dates obtained from the records that are mappings, the
    field interpreted as epoch milliseconds; a record whose value is
    missing or unparseable is skipped. *)
Fixpoint stated_dates (records : list value) : list date :=
  match records with
  | [] => []
  | VDict it :: rest =>
      match date_of_value (alias_value it) with
      | Some d => d :: stated_dates rest
      | None => stated_dates rest
      end
  | _ :: rest => stated_dates rest
  end.

(** The ISO text of the minimum (maximum) of the dates, empty when there
    is none. *)
Definition iso_min (ds : list date) : pystr :=
  match ds with
  | [] => py ""
  | d :: r => isoformat (fold_right Z.min d r)
  end.

Definition iso_max (ds : list date) : pystr :=
  match ds with
  | [] => py ""
  | d :: r => isoformat (fold_right Z.max d r)
  end.

(** C3 as the specification states it. *)
Definition C3_as_stated (size : Z) (content : pystr) : Prop :=
  s_status (classify_content size (Some content)) = has_data ->
  exists records,
    records_of (parse_or_salvage (strip content)) = Some records /\
    s_start_date (classify_content size (Some content)) = iso_min (stated_dates records) /\
    s_end_date (classify_content size (Some content)) = iso_max (stated_dates records).

(** What the classifier reads in a record: the value under [tradeDate]
    when that value is true (not 0, not empty, not false, not null), else
    the value under [d] when that one is true, else whatever stands under
    [date]. *)
Inductive field_read (it : list (pystr * value)) : value -> Prop :=
| read_tradeDate :
    truthy (dict_get it (py "tradeDate")) = true ->
    field_read it (dict_get it (py "tradeDate"))
| read_d :
    truthy (dict_get it (py "tradeDate")) = false ->
    truthy (dict_get it (py "d")) = true ->
    field_read it (dict_get it (py "d"))
| read_date :
    truthy (dict_get it (py "tradeDate")) = false ->
    truthy (dict_get it (py "d")) = false ->
    field_read it (dict_get it (py "date")).

(** The record [rec] is a mapping whose field, read this way, is the
    epoch-millisecond time of a moment of day [d]. *)
Definition record_date (rec : value) (d : date) : Prop :=
  exists it v, rec = VDict it /\ field_read it v /\ date_of_value v = Some d.

(** *** Exceptions while classifying *)

(** The files the classifier processes, in its order: for each directory
    of the walk, the wanted names in sorted order. *)
Definition files_of_dir (d : pystr * list pystr) : list (pystr * pystr) :=
  map (fun fn => (fst d, fn)) (filter wanted (sorted str_leb (snd d))).

Definition scanned (st : raw_store) : list (pystr * pystr) :=
  flat_map files_of_dir (walk st).

(** A step of the processing of a file raises: asking for its size, or
    (the size is not 0) reading it. *)
Definition raises_during (st : raw_store) (dirpath fn : pystr) : Prop :=
  getsize st (path_join dirpath fn) = None \/
  (exists size, getsize st (path_join dirpath fn) = Some size /\ size <> 0 /\
                read_text st (path_join dirpath fn) = None).

Definition manifest_path (dirpath fn : pystr) : pystr :=
  replace backslash slash (path_join dirpath fn).

(** What the manifest says of a processed file: its path, and [error] when
    reading it raised. *)
Definition row_for (st : raw_store) (p : pystr * pystr) (r : manifest_row) : Prop :=
  relative_path r = manifest_path (fst p) (snd p) /\
  (forall size, getsize st (path_join (fst p) (snd p)) = Some size ->
                size <> 0 ->
                read_text st (path_join (fst p) (snd p)) = None ->
                row_status r = error).

(** C4 as the specification states it: the file gets status [error] in
    the manifest and the run is not aborted. *)
Definition C4_as_stated (st : raw_store) : Prop :=
  forall dirpath fn,
    In (dirpath, fn) (scanned st) ->
    raises_during st dirpath fn ->
    exists rows text,
      classify_and_summarize st = Ok (rows, text) /\
      exists r, In r rows /\ relative_path r = manifest_path dirpath fn /\
                row_status r = error.

(** *** One store, listed twice *)



End ClassifierClaims.

Section NormalizerClaims.
Context {lib : PyLib}.

(** The record list of the raw file a manifest entry names. *)
Definition source_records (read_text : pystr -> option pystr)
    (r : manifest_entry) : option (list value) :=
  match read_text (m_relative_path r) with
  | Some c =>
      match parse_content c with
      | Some j => records_of j
      | None => None
      end
  | None => None
  end.

(** A row fails row filtering: empty [trade_date] or null [close]. *)
Definition fails_filtering (row : raw_row) : Prop :=
  r_trade_date row = py "" \/ isnull (r_close row) = true.

(** C1 as the specification states it, for the file written in one turn
    of the normalizer. *)
Definition C1_as_stated (read_text : pystr -> option pystr)
    (st : norm_state) (r : manifest_entry) : Prop :=
  m_status r = py "has_data" ->
  forall records df,
    source_records read_text r = Some records ->
    written (fst (normalize_entry read_text st r))
      = (outpath_of (m_ticker r), df) :: written st ->
    Forall (fun p => p_trade_date p <> py "" /\ p_close p <> None /\
                     In (p_trade_date p) (map isoformat (collect_dates records [])))
           df.

(** A JSON number (not NaN). *)
Definition is_number (v : value) : Prop :=
  (exists n, v = VInt n) \/ (exists f, v = VFloat f /\ f <> S754_nan).

(** A row that survived the filters, as the normalizer writes it: its
    trade date is not empty and is a date the classifier extracts from the
    records; it comes from a record whose close is not null, and its close
    cell is the coercion of that value, not null when the value is a
    number. *)
Definition survivor (records : list value) (p : price_row) : Prop :=
  p_trade_date p <> py "" /\
  In (p_trade_date p) (map isoformat (collect_dates records [])) /\
  exists it, In (VDict it) records /\
             isnull (close_of it) = false /\
             p_close p = to_numeric (close_of it) /\
             (is_number (close_of it) -> p_close p <> None).

(** C5 as the specification states it. *)
Definition C5_as_stated (read_text : pystr -> option pystr)
    (st : norm_state) (r : manifest_entry) : Prop :=
  m_status r = py "has_data" ->
  forall records,
    source_records read_text r = Some records ->
    Forall fails_filtering (build_rows (m_ticker r) records) ->
    written (fst (normalize_entry read_text st r)) = written st /\
    printed (fst (normalize_entry read_text st r)) = NO_ROWS (m_ticker r) :: printed st /\
    snd (normalize_entry read_text st r) = None.

End NormalizerClaims.

Section SelectorClaims.
Context {lib : PyLib}.
Import SelectTickers.






End SelectorClaims.

Section AssemblerClaims.
Context {lib : PyLib}.
Import AssemblePrices.

(** C7 as the specification states it: the run ends with a failure exactly
    when no ticker yielded a row. *)
Definition C7_as_stated (normal : pystr -> csv_file) (tickers : list pystr) : Prop :=
  (exists e, fst (assemble normal tickers) = Raise e) <->
  (forall t, In t tickers -> rows_yielded normal t = O).

Definition is_missing (normal : pystr -> csv_file) (t : pystr) : bool :=
  match normal (t ++ py ".csv") with Missing => true | _ => false end.

End AssemblerClaims.

End Claims.

(** ** Further properties of the scripts: their vocabulary *)

Module Properties.
Import PrepareAndIngest.

(** What every row of the manifest keeps: the status is never the initial
    [unknown]; the row count and the dates are filled in only for
    [has_data], whose row count is positive; the two dates are empty
    together. *)
Definition summary_invariant (st : status) (n : Z) (sd ed : pystr) : Prop :=
  st <> unknown /\
  (st <> has_data -> n = 0 /\ sd = py "" /\ ed = py "") /\
  (st = has_data -> 0 < n) /\
  (sd = py "" <-> ed = py "").

Definition row_invariant (r : manifest_row) : Prop :=
  summary_invariant (row_status r) (rows r) (start_date r) (end_date r).

(** A file under [NORMAL] belongs to a [has_data] entry of the manifest:
    it is named after the entry's ticker, and its rows carry that ticker. *)
Definition written_for (manifest : list manifest_entry)
    (w : pystr * list price_row) : Prop :=
  exists r, In r manifest /\ m_status r = py "has_data" /\
            fst w = outpath_of (m_ticker r) /\
            Forall (fun p => p_ticker p = m_ticker r) (snd w).

(** Ascending trade dates. *)
Definition by_trade_date (a b : price_row) : Prop :=
  str_leb (p_trade_date a) (p_trade_date b) = true.

(** A text with a character that is no dot. *)
Definition has_other_than_dot (s : pystr) : Prop :=
  exists c, In c s /\ c <> dot.

(** A table whose rows have one cell for each column. *)
Definition rectangular (f : AssemblePrices.frame) : Prop :=
  Forall (fun row => length row = length (AssemblePrices.columns f))
         (AssemblePrices.data f).

(** A file of [NORMAL] that is there and that [pd.read_csv] refuses. *)
Definition refused (file : AssemblePrices.csv_file) : Prop :=
  file = AssemblePrices.Unreadable \/
  exists f, file = AssemblePrices.Table f /\
            AssemblePrices.has_column (py "trade_date") f = false.

(** The rows a list of tickers yields, a ticker counted as often as it is
    listed. *)
Definition total_rows (normal : pystr -> AssemblePrices.csv_file)
    (tickers : list pystr) : nat :=
  fold_right (fun t n => (AssemblePrices.rows_yielded normal t + n)%nat) O tickers.

(** Thresholds of the selector that ask for no more than others: no start
    threshold, or a later one; no span threshold, or a smaller one that is
    not negative. *)
Definition looser_start (ms' ms : option date) : Prop :=
  ms' = None \/ exists a b, ms = Some a /\ ms' = Some b /\ a <= b.

Definition looser_span (mm' mm : option Z) : Prop :=
  mm' = None \/ exists a b, mm = Some a /\ mm' = Some b /\ 0 <= b <= a.

(** The [has_data] entry of a manifest whose row count [int] refuses. *)
Definition unreadable_rows {lib : PyLib} (r : manifest_entry) : Prop :=
  m_status r = py "has_data" /\ is_empty (m_rows r) = false /\
  int_of_str (m_rows r) = None.

(** The entry passes the thresholds of the selector. *)
Definition passes {lib : PyLib} (min_rows : Z) (min_start : option date)
    (max_missing_days : option Z) (r : manifest_entry) : Prop :=
  m_status r = py "has_data" /\
  exists n, SelectTickers.rows_count_of r = Ok n /\
    SelectTickers.decide_include min_rows min_start max_missing_days n
      (SelectTickers.parse_date (m_start_date r))
      (SelectTickers.parse_date (m_end_date r)) = true.

(** The data rows of a list of tables. *)
Definition rows_in (parts : list AssemblePrices.frame) : nat :=
  list_sum (map (fun f => length (AssemblePrices.data f)) parts).

(** A part made from the file of one of the tickers. *)
Definition made_from (normal : pystr -> AssemblePrices.csv_file)
    (tickers : list pystr) (part : AssemblePrices.frame) : Prop :=
  exists t f, In t tickers /\ normal (t ++ py ".csv") = AssemblePrices.Table f /\
              part = AssemblePrices.part_of t f.

(** The files of the tickers are tables with one cell for each column. *)
Definition rectangular_files (normal : pystr -> AssemblePrices.csv_file)
    (tickers : list pystr) : Prop :=
  forall t f, In t tickers -> normal (t ++ py ".csv") = AssemblePrices.Table f ->
              rectangular f.

End Properties.

(* ================================================================= *)
(** * Part II: lemmas and theorems *)
(* ================================================================= *)

(** ** Facts about the Python built-ins *)

Module PyFacts.

Lemma str_eqb_eq (a b : pystr) : str_eqb a b = true <-> a = b.
Proof.
  revert b; induction a as [|x a IH]; intros [|y b]; simpl;
    split; try congruence; try discriminate.
  - intros H. apply andb_true_iff in H as [H1 H2].
    apply N.eqb_eq in H1. apply IH in H2. congruence.
  - intros H. injection H as -> ->. rewrite N.eqb_refl. simpl.
    apply IH. reflexivity.
Qed.

Lemma str_eqb_refl (a : pystr) : str_eqb a a = true.
Proof. apply str_eqb_eq. reflexivity. Qed.

Lemma str_eqb_neq (a b : pystr) : str_eqb a b = false <-> a <> b.
Proof.
  split.
  - intros H E. apply str_eqb_eq in E. congruence.
  - intros H. destruct (str_eqb a b) eqn:E; [|reflexivity].
    apply str_eqb_eq in E. contradiction.
Qed.

Lemma is_empty_true {A} (l : list A) : is_empty l = true <-> l = [].
Proof. destruct l; simpl; split; congruence. Qed.

Lemma is_empty_false {A} (l : list A) : is_empty l = false <-> l <> [].
Proof. destruct l; simpl; split; congruence. Qed.

Lemma dropwhile_nil {A} (p : A -> bool) (l : list A) :
  dropwhile p l = [] <-> Forall (fun x => p x = true) l.
Proof.
  induction l as [|x l IH]; simpl.
  - split; auto.
  - destruct (p x) eqn:E.
    + rewrite IH. split; intros H.
      * constructor; assumption.
      * inversion H; assumption.
    + split; intros H; [discriminate|].
      inversion H; congruence.
Qed.

Lemma dropwhile_head {A} (p : A -> bool) (l : list A) x r :
  dropwhile p l = x :: r -> p x = false.
Proof.
  induction l as [|y l IH]; simpl; [discriminate|].
  destruct (p y) eqn:E; [exact IH|].
  intros H. injection H as <- _. exact E.
Qed.

(** [s.strip()] is empty exactly when [s] holds white space only. *)
Lemma strip_nil (s : pystr) :
  strip s = [] <-> Forall (fun c => isspace c = true) s.
Proof.
  unfold strip. split.
  - intros H.
    assert (H1 : dropwhile isspace (rev (dropwhile isspace s)) = []).
    { apply (f_equal (@rev N)) in H. rewrite rev_involutive in H. exact H. }
    apply dropwhile_nil in H1.
    destruct (dropwhile isspace s) as [|x r] eqn:E.
    + apply dropwhile_nil. exact E.
    + apply dropwhile_head in E.
      apply Forall_rev in H1. rewrite rev_involutive in H1.
      inversion H1; congruence.
  - intros H. apply dropwhile_nil in H. rewrite H. reflexivity.
Qed.

Lemma contains_In (c : N) (s : pystr) : contains c s = true <-> In c s.
Proof.
  unfold contains. rewrite existsb_exists. split.
  - intros (x & Hx & E). apply N.eqb_eq in E. congruence.
  - intros H. exists c. split; [exact H | apply N.eqb_refl].
Qed.

(** [find]: the index of the first occurrence. *)
Lemma find_from_first (c : N) (s : pystr) (i : Z) pre post :
  s = pre ++ c :: post -> ~ In c pre ->
  find_from c s i = i + Z.of_nat (length pre).
Proof.
  revert s i; induction pre as [|x pre IH]; intros s i -> Hn; simpl.
  - rewrite N.eqb_refl. lia.
  - destruct (N.eqb x c) eqn:E.
    + apply N.eqb_eq in E. subst. exfalso. apply Hn. left. reflexivity.
    + rewrite (IH _ (i + 1) eq_refl); [lia|].
      intros H. apply Hn. right. exact H.
Qed.

Lemma rfind_from_app (c : N) (s t : pystr) (i last : Z) :
  rfind_from c (s ++ t) i last =
  rfind_from c t (i + Z.of_nat (length s)) (rfind_from c s i last).
Proof.
  revert i last; induction s as [|x s IH]; intros i last; simpl.
  - f_equal. lia.
  - rewrite IH. f_equal. lia.
Qed.

Lemma rfind_from_absent (c : N) (s : pystr) (i last : Z) :
  ~ In c s -> rfind_from c s i last = last.
Proof.
  revert i last; induction s as [|x s IH]; intros i last Hn; simpl; [reflexivity|].
  destruct (N.eqb x c) eqn:E.
  - apply N.eqb_eq in E. subst. exfalso. apply Hn. left. reflexivity.
  - apply IH. intros H. apply Hn. right. exact H.
Qed.

(** [rfind]: the index of the last occurrence. *)
Lemma rfind_last (c : N) (s : pystr) pre post :
  s = pre ++ c :: post -> ~ In c post ->
  rfind c s = Z.of_nat (length pre).
Proof.
  intros -> Hn. unfold rfind. rewrite rfind_from_app. simpl.
  rewrite N.eqb_refl. rewrite rfind_from_absent by exact Hn. lia.
Qed.

Lemma find_first (c : N) (s : pystr) pre post :
  s = pre ++ c :: post -> ~ In c pre -> find c s = Z.of_nat (length pre).
Proof. intros H Hn. unfold find. rewrite (find_from_first c s 0 pre post H Hn). lia. Qed.

(** A text that holds [c] splits at its first and at its last [c]. *)
Lemma split_first (c : N) (s : pystr) :
  In c s -> exists pre post, s = pre ++ c :: post /\ ~ In c pre.
Proof.
  induction s as [|x s IH]; simpl; [tauto|].
  intros H. destruct (N.eq_dec x c) as [->|Hx].
  - exists [], s. split; [reflexivity | simpl; tauto].
  - destruct IH as (pre & post & -> & Hn); [destruct H; [contradiction|assumption]|].
    exists (x :: pre), post. split; [reflexivity|].
    simpl. intros [E|E]; [contradiction | exact (Hn E)].
Qed.

Lemma split_last (c : N) (s : pystr) :
  In c s -> exists pre post, s = pre ++ c :: post /\ ~ In c post.
Proof.
  intros H. apply in_rev in H. apply split_first in H as (pre & post & E & Hn).
  exists (rev post), (rev pre). split.
  - rewrite <- (rev_involutive s), E, rev_app_distr. simpl.
    rewrite <- app_assoc. reflexivity.
  - intros Hin. apply Hn. apply in_rev. exact Hin.
Qed.

(** [l[a:b]] cuts the middle out of [pre ++ mid ++ post]. *)
Lemma slice_middle {A} (pre mid post : list A) :
  slice (pre ++ mid ++ post) (Z.of_nat (length pre))
        (Z.of_nat (length pre + length mid)) = mid.
Proof.
  unfold slice. rewrite !length_app.
  assert (Hs : (Z.of_nat (length pre) <? 0) = false) by (apply Z.ltb_ge; lia).
  assert (He : (Z.of_nat (length pre + length mid) <? 0) = false)
    by (apply Z.ltb_ge; lia).
  rewrite Hs, He.
  rewrite !Z.min_l by lia.
  replace (Z.to_nat (Z.of_nat (length pre + length mid) - Z.of_nat (length pre)))
    with (length mid) by lia.
  rewrite Nat2Z.id.
  rewrite skipn_app, skipn_all, Nat.sub_diag. simpl.
  rewrite firstn_app, firstn_all, Nat.sub_diag. simpl.
  apply app_nil_r.
Qed.

(** [l[a:b]] is empty when [b] is not past [a]. *)
Lemma slice_backwards {A} (l : list A) (a b : Z) :
  0 <= b <= a -> slice l a b = [].
Proof.
  intros H. unfold slice.
  assert (Ha : (a <? 0) = false) by (apply Z.ltb_ge; lia).
  assert (Hb : (b <? 0) = false) by (apply Z.ltb_ge; lia).
  rewrite Ha, Hb.
  replace (Z.to_nat (Z.min b (Z.of_nat (length l)) - Z.min a (Z.of_nat (length l))))
    with O by lia.
  reflexivity.
Qed.

End PyFacts.

(** ** The classifier's decision tree *)

Module ClassifierTree.
Import PrepareAndIngest Claims PyFacts.

Section Tree.
Context {lib : PyLib}.

(** The bracket substring is the slice the classifier takes. *)
Lemma bracket_substring_slice (txt sub : pystr) :
  bracket_substring txt sub ->
  In lbracket txt /\ In rbracket txt /\
  find lbracket txt < rfind rbracket txt /\
  sub = slice txt (find lbracket txt) (rfind rbracket txt + 1).
Proof.
  intros [pre mid post E Hl Hr].
  assert (Hf : find lbracket txt = Z.of_nat (length pre)).
  { apply (find_first lbracket txt pre (mid ++ rbracket :: post)); assumption. }
  assert (Hrf : rfind rbracket txt = Z.of_nat (length (pre ++ lbracket :: mid))).
  { apply (rfind_last rbracket txt (pre ++ lbracket :: mid) post); [|assumption].
    rewrite E, <- app_assoc. reflexivity. }
  rewrite length_app in Hrf. simpl in Hrf.
  repeat split.
  - rewrite E. apply in_or_app. right. left. reflexivity.
  - rewrite E. apply in_or_app. right. right. apply in_or_app. right. left. reflexivity.
  - lia.
  - rewrite Hf, Hrf.
    replace (Z.of_nat (length pre + S (length mid)) + 1)
      with (Z.of_nat (length pre + length (lbracket :: mid ++ [rbracket])))
      by (simpl; rewrite length_app; simpl; lia).
    rewrite E.
    replace (pre ++ lbracket :: mid ++ rbracket :: post)
      with (pre ++ (lbracket :: mid ++ [rbracket]) ++ post)
      by (simpl; rewrite <- app_assoc; reflexivity).
    symmetry. apply slice_middle.
Qed.

(** Conversely, when the first [[] stands before the last []], the slice is
    the bracket substring. *)
Lemma slice_bracket_substring (txt : pystr) :
  In lbracket txt -> In rbracket txt ->
  find lbracket txt < rfind rbracket txt ->
  bracket_substring txt (slice txt (find lbracket txt) (rfind rbracket txt + 1)).
Proof.
  intros Hl Hr Hlt.
  destruct (split_first _ _ Hl) as (p1 & q1 & E1 & Hn1).
  destruct (split_last _ _ Hr) as (p2 & q2 & E2 & Hn2).
  rewrite (find_first _ _ _ _ E1 Hn1) in *. rewrite (rfind_last _ _ _ _ E2 Hn2) in *.
  assert (E : p1 ++ lbracket :: q1 = p2 ++ rbracket :: q2) by congruence.
  apply app_eq_app in E as (l & [[Ea Eb] | [Ea Eb]]).
  - (* p1 = p2 ++ l: the first bracket is not before the last one *)
    exfalso. subst p1. rewrite length_app in Hlt.
    destruct l as [|x l]; simpl in *.
    + unfold lbracket, rbracket in Eb. discriminate Eb.
    + lia.
  - destruct l as [|x l]; simpl in Eb.
    + unfold lbracket, rbracket in Eb. discriminate Eb.
    + injection Eb as <- Eb. subst p2 q1.
      assert (Es : slice txt (Z.of_nat (length p1))
                     (Z.of_nat (length (p1 ++ lbracket :: l)) + 1)
                   = lbracket :: l ++ [rbracket]).
      { replace (Z.of_nat (length (p1 ++ lbracket :: l)) + 1)
          with (Z.of_nat (length p1 + length (lbracket :: l ++ [rbracket])))
          by (rewrite length_app; simpl; rewrite length_app; simpl; lia).
        rewrite E1.
        replace (p1 ++ lbracket :: l ++ rbracket :: q2)
          with (p1 ++ (lbracket :: l ++ [rbracket]) ++ q2)
          by (simpl; rewrite <- app_assoc; reflexivity).
        apply slice_middle. }
      rewrite Es.
      apply (bracket_substring_intro txt p1 l q2); assumption.
Qed.

Lemma parse_or_salvage_parses (txt : pystr) (j : value) :
  parses txt j -> parse_or_salvage txt = j.
Proof.
  intros [j' H | sub j' H Hb Hs]; unfold parse_or_salvage; rewrite H.
  - reflexivity.
  - apply bracket_substring_slice in Hb as (Hl & Hr & _ & ->).
    apply contains_In in Hl, Hr. rewrite Hl, Hr. simpl.
    rewrite Hs. reflexivity.
Qed.

Lemma parse_or_salvage_unparsed (txt : pystr) :
  (forall j, ~ parses txt j) -> parse_or_salvage txt = VNone.
Proof.
  intros Hno. unfold parse_or_salvage.
  destruct (json_loads txt) as [j|] eqn:Hd.
  - exfalso. exact (Hno j (parses_directly _ _ Hd)).
  - destruct (contains lbracket txt) eqn:Hl; simpl; [|reflexivity].
    destruct (contains rbracket txt) eqn:Hr; simpl; [|reflexivity].
    destruct (json_loads (slice txt (find lbracket txt) (rfind rbracket txt + 1)))
      as [j|] eqn:Hs; [|reflexivity].
    exfalso. apply contains_In in Hl, Hr.
    destruct (Z_lt_le_dec (find lbracket txt) (rfind rbracket txt)) as [Hlt|Hge].
    + exact (Hno j (parses_bracket_substring _ _ _ Hd (slice_bracket_substring _ Hl Hr Hlt) Hs)).
    + destruct (split_last _ _ Hr) as (p2 & q2 & E2 & Hn2).
      rewrite slice_backwards in Hs.
      * rewrite json_loads_empty in Hs. discriminate.
      * rewrite (rfind_last _ _ _ _ E2 Hn2) in *. 
        destruct (split_first _ _ Hl) as (p1 & q1 & E1 & Hn1).
        rewrite (find_first _ _ _ _ E1 Hn1) in *.
        assert (length p1 <> length p2).
        { intros El.
          assert (E : p1 ++ lbracket :: q1 = p2 ++ rbracket :: q2) by congruence.
          assert (Ef : firstn (length p1) (p1 ++ lbracket :: q1) = p1)
            by (rewrite firstn_app, firstn_all, Nat.sub_diag; simpl; apply app_nil_r).
          assert (Es : skipn (length p1) (p1 ++ lbracket :: q1) = lbracket :: q1)
            by (rewrite skipn_app, skipn_all, Nat.sub_diag; reflexivity).
          rewrite E, El in Es.
          rewrite skipn_app, skipn_all, Nat.sub_diag in Es. simpl in Es.
          unfold lbracket, rbracket in Es. discriminate Es. }
        lia.
Qed.

(** Every text either parses (in the sense above) or does not. *)
Lemma parses_or_not (txt : pystr) :
  parses txt (parse_or_salvage txt) \/ (forall j, ~ parses txt j).
Proof.
  unfold parse_or_salvage.
  destruct (json_loads txt) as [j|] eqn:Hd.
  - left. apply parses_directly. exact Hd.
  - assert (Hnone : forall sub j, bracket_substring txt sub ->
                      json_loads sub = Some j ->
                      json_loads (slice txt (find lbracket txt) (rfind rbracket txt + 1))
                        = Some j).
    { intros sub j Hb Hs. apply bracket_substring_slice in Hb as (_ & _ & _ & <-).
      exact Hs. }
    destruct (contains lbracket txt) eqn:Hl; simpl.
    2:{ right. intros j [j' H | sub j' H Hb Hs]; [congruence|].
        apply bracket_substring_slice in Hb as (Hin & _).
        apply contains_In in Hin. congruence. }
    destruct (contains rbracket txt) eqn:Hr; simpl.
    2:{ right. intros j [j' H | sub j' H Hb Hs]; [congruence|].
        apply bracket_substring_slice in Hb as (_ & Hin & _).
        apply contains_In in Hin. congruence. }
    destruct (json_loads (slice txt (find lbracket txt) (rfind rbracket txt + 1)))
      as [j|] eqn:Hs.
    + apply contains_In in Hl, Hr.
      destruct (Z_lt_le_dec (find lbracket txt) (rfind rbracket txt)) as [Hlt|Hge].
      * left. exact (parses_bracket_substring _ _ _ Hd (slice_bracket_substring _ Hl Hr Hlt) Hs).
      * right. intros j' [j'' H | sub j'' H Hb Hs']; [congruence|].
        apply bracket_substring_slice in Hb as (_ & _ & Hlt & _). lia.
    + right. intros j [j' H | sub j' H Hb Hs']; [congruence|].
      specialize (Hnone _ _ Hb Hs'). congruence.
Qed.

(** *** Shape analysis *)

Lemma summarize_list_recs (l : list value) :
  s_recs (summarize_list l) = Z.of_nat (length l).
Proof.
  unfold summarize_list.
  destruct (Z.of_nat (length l) =? 0); [reflexivity|].
  destruct (collect_dates l []); reflexivity.
Qed.

Lemma summarize_list_status (l : list value) :
  s_status (summarize_list l) = match l with [] => empty_array | _ :: _ => has_data end.
Proof.
  unfold summarize_list. destruct l as [|x l].
  - reflexivity.
  - replace (Z.of_nat (length (x :: l)) =? 0) with false
      by (symmetry; apply Z.eqb_neq; simpl length; lia).
    destruct (collect_dates (x :: l) []); reflexivity.
Qed.

Lemma list_status_summarize (l : list value) (st : status) :
  list_status l st <-> s_status (summarize_list l) = st.
Proof.
  rewrite summarize_list_status. split.
  - intros []; reflexivity.
  - intros <-. destruct l; constructor.
Qed.

Lemma scan_values_first (d : list (pystr * value)) (l : list value) :
  first_list_field d l ->
  scan_values (dict_values d) = Some (summarize_list l).
Proof.
  intros [pre k l' post -> Hpre].
  induction pre as [|[k' v] pre IH]; simpl.
  - reflexivity.
  - inversion Hpre as [|? ? Hv Hrest]; subst.
    destruct v; try (apply IH; assumption).
    exfalso. apply Hv. eexists. reflexivity.
Qed.

Lemma scan_values_without (d : list (pystr * value)) :
  Forall (fun kv => ~ is_list (snd kv)) d ->
  scan_values (dict_values d) = None.
Proof.
  induction d as [|[k v] d IH]; simpl; intros H; [reflexivity|].
  inversion H as [|? ? Hv Hrest]; subst.
  destruct v; try (apply IH; assumption).
  exfalso. apply Hv. eexists. reflexivity.
Qed.

Lemma first_list_or_none (d : list (pystr * value)) :
  (exists l, first_list_field d l) \/ Forall (fun kv => ~ is_list (snd kv)) d.
Proof.
  induction d as [|[k v] d IH].
  - right. constructor.
  - assert (Hdec : is_list v \/ ~ is_list v).
    { destruct v; try (right; intros [l Hl]; discriminate).
      left. eexists. reflexivity. }
    destruct Hdec as [[l ->] | Hv].
    + left. exists l. apply (first_list_field_intro _ [] k l d); [reflexivity|constructor].
    + destruct IH as [[l [pre k' l' post -> Hpre]] | Hnone].
      * left. exists l'.
        apply (first_list_field_intro _ ((k, v) :: pre) k' l' post);
          [reflexivity | constructor; assumption].
      * right. constructor; assumption.
Qed.

Lemma shape_sound (j : value) (st : status) :
  shape_status j st -> s_status (analyse j) = st.
Proof.
  intros [l st' Hl | d l st' Hf Hl | d Hd | j' Hnl Hnd]; simpl.
  - apply list_status_summarize. exact Hl.
  - rewrite (scan_values_first d l Hf). apply list_status_summarize. exact Hl.
  - rewrite (scan_values_without d Hd). reflexivity.
  - destruct j'; try reflexivity.
    + exfalso. exact (Hnl _ eq_refl).
    + exfalso. exact (Hnd _ eq_refl).
Qed.

Lemma shape_complete (j : value) : shape_status j (s_status (analyse j)).
Proof.
  destruct j; simpl;
    try (apply shape_other; intros; discriminate).
  - apply shape_list. apply list_status_summarize. reflexivity.
  - destruct (first_list_or_none fields) as [[l Hf] | Hnone].
    + rewrite (scan_values_first _ _ Hf).
      apply (shape_dict_with_list _ l); [exact Hf|].
      apply list_status_summarize. reflexivity.
    + rewrite (scan_values_without _ Hnone).
      apply shape_dict_without_list. exact Hnone.
Qed.

Lemma analyse_not_empty_file (j : value) : s_status (analyse j) <> empty_file.
Proof.
  pose proof (shape_complete j) as H.
  intros E. rewrite E in H.
  inversion H as [l st Hl | d l st Hf Hl | |]; subst; inversion Hl.
Qed.

(** *** The tree, on the text of a file *)

Lemma classify_content_tree (size : Z) (content : pystr) (s : status) :
  decision_tree size content s <->
  s_status (classify_content size (Some content)) = s.
Proof.
  unfold classify_content, classify_body.
  destruct (size =? 0) eqn:Hsz.
  { apply Z.eqb_eq in Hsz. simpl. split.
    - intros [_ | j st Hne | Hne]; [reflexivity | contradiction | contradiction].
    - intros <-. apply tree_empty_file. left. exact Hsz. }
  apply Z.eqb_neq in Hsz.
  destruct (is_empty (strip content)) eqn:He.
  { apply is_empty_true, strip_nil in He. simpl. split.
    - intros [_ | j st _ Hws | _ Hws]; [reflexivity | contradiction | contradiction].
    - intros <-. apply tree_empty_file. right. exact He. }
  assert (Hws : ~ whitespace_only content).
  { intros H. apply strip_nil, is_empty_true in H. congruence. }
  split.
  - intros [[Hz | Hw] | j st _ _ Hp Hs | _ _ Hno].
    + contradiction.
    + contradiction.
    + rewrite (parse_or_salvage_parses _ _ Hp). apply shape_sound. exact Hs.
    + rewrite (parse_or_salvage_unparsed _ Hno). reflexivity.
  - intros <-. destruct (parses_or_not (strip content)) as [Hp | Hno].
    + apply (tree_parsed size content (parse_or_salvage (strip content)));
        try assumption.
      apply shape_complete.
    + rewrite (parse_or_salvage_unparsed _ Hno). simpl.
      apply tree_unparsed; assumption.
Qed.

Lemma classify_content_empty_file_rows (size : Z) (content : option pystr) :
  s_status (classify_content size content) = empty_file ->
  s_recs (classify_content size content) = 0.
Proof.
  unfold classify_content, classify_body.
  destruct (size =? 0); [reflexivity|].
  destruct content as [raw|]; [|reflexivity].
  destruct (is_empty (strip raw)); [reflexivity|].
  intros H. exfalso. exact (analyse_not_empty_file _ H).
Qed.

(** C2.  The status the classifier gives a file follows the decision tree:
    for a file whose size is [size] and (when the size is not 0) whose
    text reads as [content], a row is produced, and its status is [s]
    exactly when the tree assigns [s]; the tree is therefore a function of
    the file.  The row count is 0 for [empty_file]. *)
Theorem C2_decision_tree (st : raw_store) (dirpath fn : pystr)
    (size : Z) (content : pystr) :
  getsize st (path_join dirpath fn) = Some size ->
  (size <> 0 -> read_text st (path_join dirpath fn) = Some content) ->
  exists r, classify_file st dirpath fn = Ok r /\
    (forall s, decision_tree size content s <-> row_status r = s) /\
    (row_status r = empty_file -> rows r = 0).
Proof.
  intros Hsize Hread. unfold classify_file. rewrite Hsize.
  eexists. split; [reflexivity|]. simpl.
  assert (E : classify_content size (read_text st (path_join dirpath fn))
              = classify_content size (Some content)).
  { destruct (Z.eq_dec size 0) as [-> | Hnz].
    - unfold classify_content, classify_body. reflexivity.
    - rewrite (Hread Hnz). reflexivity. }
  rewrite E. split.
  - intros s. apply classify_content_tree.
  - apply classify_content_empty_file_rows.
Qed.

End Tree.

(** [page.txt] of the demo store: markup around an empty array. *)
Lemma C2_decision_tree_witness :
  exists r,
    @classify_file Ref.ref_lib Ref.demo_store (py "") (py "page.txt") = Ok r /\
    (forall s, @decision_tree Ref.ref_lib 15 Ref.doc_html_text s <-> row_status r = s) /\
    (row_status r = empty_file -> rows r = 0).
Proof.
  apply (@C2_decision_tree Ref.ref_lib Ref.demo_store (py "") (py "page.txt")
           15 Ref.doc_html_text).
  - reflexivity.
  - intros _. reflexivity.
Defined.

End ClassifierTree.

(** ** Sorting *)

Module SortFacts.

Section Insertion.
Variable A : Type.
Variable leb : A -> A -> bool.
Hypothesis leb_total : forall a b, leb a b = true \/ leb b a = true.
Hypothesis leb_trans : forall a b c, leb a b = true -> leb b c = true -> leb a c = true.

Let le (a b : A) : Prop := leb a b = true.

Lemma insert_perm (x : A) (l : list A) : Permutation (insert leb x l) (x :: l).
Proof.
  induction l as [|y l IH]; simpl.
  - apply Permutation_refl.
  - destruct (leb y x).
    + apply Permutation_trans with (y :: x :: l).
      * apply perm_skip. exact IH.
      * apply perm_swap.
    + apply Permutation_refl.
Qed.

Lemma fold_insert_perm (l acc : list A) :
  Permutation (fold_left (fun acc x => insert leb x acc) l acc) (acc ++ l).
Proof.
  revert acc; induction l as [|x l IH]; intros acc; simpl.
  - rewrite app_nil_r. apply Permutation_refl.
  - apply Permutation_trans with (insert leb x acc ++ l); [apply IH|].
    apply Permutation_trans with ((x :: acc) ++ l).
    + apply Permutation_app_tail. apply insert_perm.
    + simpl. apply Permutation_middle.
Qed.

(** [sorted] rearranges its argument. *)
Lemma sorted_perm (l : list A) : Permutation (sorted leb l) l.
Proof. unfold sorted. apply (fold_insert_perm l []). Qed.

Lemma insert_sorted (x : A) (l : list A) :
  StronglySorted le l -> StronglySorted le (insert leb x l).
Proof.
  induction l as [|y l IH]; simpl; intros Hs.
  - constructor; constructor.
  - inversion Hs as [|? ? Hl Hy]; subst.
    destruct (leb y x) eqn:E.
    + constructor; [apply IH; exact Hl|].
      apply (Permutation_Forall (Permutation_sym (insert_perm x l))).
      constructor; assumption.
    + assert (Hxy : le x y) by (destruct (leb_total x y); [assumption | congruence]).
      constructor; [exact Hs|].
      constructor; [exact Hxy|].
      eapply Forall_impl; [|exact Hy].
      intros z Hz. exact (leb_trans x y z Hxy Hz).
Qed.

Lemma fold_insert_sorted (l acc : list A) :
  StronglySorted le acc ->
  StronglySorted le (fold_left (fun acc x => insert leb x acc) l acc).
Proof.
  revert acc; induction l as [|x l IH]; intros acc Hs; simpl.
  - exact Hs.
  - apply IH. apply insert_sorted. exact Hs.
Qed.

(** [sorted] returns a sorted list. *)
Lemma sorted_sorted (l : list A) : StronglySorted le (sorted leb l).
Proof. unfold sorted. apply fold_insert_sorted. constructor. Qed.

Hypothesis leb_antisym : forall a b, leb a b = true -> leb b a = true -> a = b.

(** Under an order that tells its elements apart, a list has one sorted
    rearrangement. *)
Lemma sorted_unique (l1 l2 : list A) :
  StronglySorted le l1 -> StronglySorted le l2 -> Permutation l1 l2 -> l1 = l2.
Proof.
  revert l2; induction l1 as [|a l1 IH]; intros l2 H1 H2 Hp.
  - apply Permutation_nil in Hp. congruence.
  - destruct l2 as [|b l2].
    + apply Permutation_sym, Permutation_nil in Hp. discriminate.
    + inversion H1 as [|? ? Hs1 Ha]; subst.
      inversion H2 as [|? ? Hs2 Hb]; subst.
      assert (Eab : a = b).
      { assert (Hin1 : In a (b :: l2))
          by (apply (Permutation_in _ Hp); left; reflexivity).
        assert (Hin2 : In b (a :: l1))
          by (apply (Permutation_in _ (Permutation_sym Hp)); left; reflexivity).
        destruct Hin1 as [E | Hin1]; [congruence|].
        destruct Hin2 as [E | Hin2]; [congruence|].
        rewrite Forall_forall in Ha, Hb.
        apply leb_antisym; [apply Ha | apply Hb]; assumption. }
      subst b. f_equal. apply IH; try assumption.
      apply Permutation_cons_inv with a. exact Hp.
Qed.

Lemma sorted_of_permutation (l1 l2 : list A) :
  Permutation l1 l2 -> sorted leb l1 = sorted leb l2.
Proof.
  intros Hp. apply sorted_unique; try apply sorted_sorted.
  apply Permutation_trans with l1; [apply sorted_perm|].
  apply Permutation_trans with l2; [exact Hp|].
  apply Permutation_sym, sorted_perm.
Qed.

End Insertion.

(** *** The order of [str] *)

Lemma str_leb_total (a b : pystr) : str_leb a b = true \/ str_leb b a = true.
Proof.
  revert b; induction a as [|x a IH]; intros [|y b]; simpl; auto.
  destruct (N.ltb_spec x y), (N.ltb_spec y x); auto; lia.
Qed.


Lemma str_leb_trans (a b c : pystr) :
  str_leb a b = true -> str_leb b c = true -> str_leb a c = true.
Proof.
  revert b c; induction a as [|x a IH]; intros [|y b] [|z c]; simpl;
    try discriminate; try reflexivity.
  destruct (N.ltb_spec x y), (N.ltb_spec y x), (N.ltb_spec y z), (N.ltb_spec z y),
    (N.ltb_spec x z), (N.ltb_spec z x); try discriminate; try reflexivity; try lia.
  apply IH.
Qed.

End SortFacts.

(** ** The dates of the manifest *)

Module ClassifierDates.
Import PrepareAndIngest Claims PyFacts.

Section Dates.
Context {lib : PyLib}.

Lemma scan_values_first_list (vs : list value) :
  scan_values vs =
  match first_list vs with Some l => Some (summarize_list l) | None => None end.
Proof.
  induction vs as [|v vs IH]; simpl; [reflexivity|].
  destruct v; try exact IH. reflexivity.
Qed.

(** A file with status [has_data] has a record list, not empty, and its
    summary is the summary of that list. *)
Lemma has_data_records (size : Z) (content : pystr) :
  s_status (classify_content size (Some content)) = has_data ->
  exists records,
    records_of (parse_or_salvage (strip content)) = Some records /\
    records <> [] /\
    classify_content size (Some content) = summarize_list records.
Proof.
  unfold classify_content, classify_body.
  destruct (size =? 0); [discriminate|].
  destruct (is_empty (strip content)); [discriminate|].
  destruct (parse_or_salvage (strip content)) as [| | | | |l|d]; simpl;
    try discriminate.
  - intros H. exists l. repeat split.
    rewrite ClassifierTree.summarize_list_status in H.
    destruct l; [discriminate | discriminate].
  - rewrite scan_values_first_list.
    destruct (first_list (dict_values d)) as [l|]; [|discriminate].
    intros H. exists l. repeat split.
    rewrite ClassifierTree.summarize_list_status in H.
    destruct l; [discriminate | discriminate].
Qed.

(** What the [or] chain returns is what [field_read] describes. *)
Lemma field_read_iff (it : list (pystr * value)) (v : value) :
  field_read it v <-> v = trade_date_field it.
Proof.
  unfold trade_date_field, py_or. split.
  - intros [H1 | H1 H2 | H1 H2]; rewrite H1; cbv beta iota;
      first [rewrite H1 | rewrite H2]; reflexivity.
  - intros ->.
    destruct (truthy (dict_get it (py "tradeDate"))) eqn:H1; cbv beta iota.
    + rewrite H1. apply read_tradeDate. exact H1.
    + destruct (truthy (dict_get it (py "d"))) eqn:H2.
      * apply read_d; assumption.
      * apply read_date; assumption.
Qed.

Lemma record_date_iff (it : list (pystr * value)) (d : date) :
  record_date (VDict it) d <-> date_of_value (trade_date_field it) = Some d.
Proof.
  unfold record_date. split.
  - intros (it' & v & E & Hr & Hd). injection E as <-.
    apply field_read_iff in Hr. congruence.
  - intros H. exists it, (trade_date_field it). repeat split; [|exact H].
    apply field_read_iff. reflexivity.
Qed.

Lemma record_date_dict (r : value) (d : date) :
  record_date r d -> exists it, r = VDict it.
Proof. intros (it & v & -> & _). exists it. reflexivity. Qed.

(** One turn of the loop that fills [dates]. *)
Lemma collect_dates_dict (it : list (pystr * value)) (rest : list value)
    (dates : list date) :
  collect_dates (VDict it :: rest) dates =
  collect_dates rest
    (match date_of_value (trade_date_field it) with
     | Some d => dates ++ [d]
     | None => dates
     end).
Proof.
  simpl. destruct (trade_date_field it) as [| | | | | |] eqn:E;
    try reflexivity;
    match goal with
    | |- context [date_of_value ?v] => destruct (date_of_value v); reflexivity
    end.
Qed.

(** [dates] holds the dates of the records, and nothing else. *)
Lemma collect_dates_spec (items : list value) (dates : list date) (d : date) :
  In d (collect_dates items dates) <->
  In d dates \/ exists r, In r items /\ record_date r d.
Proof.
  revert dates; induction items as [|r items IH]; intros dates.
  - simpl. split; [auto | intros [H | (r & [] & _)]; exact H].
  - assert (Hskip : (forall it, r <> VDict it) ->
                    collect_dates (r :: items) dates = collect_dates items dates).
    { intros Hn. destruct r; try reflexivity. exfalso. exact (Hn _ eq_refl). }
    assert (Hother : (forall it, r <> VDict it) ->
                     (In d (collect_dates (r :: items) dates) <->
                      In d dates \/ exists r', In r' (r :: items) /\ record_date r' d)).
    { intros Hn. rewrite (Hskip Hn), IH. split.
      - intros [H | (r' & Hin & Hd)]; [left; exact H|].
        right. exists r'. split; [right; exact Hin | exact Hd].
      - intros [H | (r' & [E | Hin] & Hd)]; [left; exact H | |].
        + subst r'. destruct (record_date_dict _ _ Hd) as (it & E).
          exfalso. exact (Hn it E).
        + right. exists r'. split; assumption. }
    destruct r as [| | | | | |it]; try (apply Hother; intros; discriminate).
    rewrite collect_dates_dict, IH. split.
    + intros [H | (r' & Hin & Hd)].
      * destruct (date_of_value (trade_date_field it)) as [d'|] eqn:E;
          [|left; exact H].
        apply in_app_or in H as [H | [<- | []]]; [left; exact H|].
        right. exists (VDict it). split; [left; reflexivity|].
        apply record_date_iff. exact E.
      * right. exists r'. split; [right; exact Hin | exact Hd].
    + intros [H | (r' & [E | Hin] & Hd)].
      * left. destruct (date_of_value (trade_date_field it));
          [apply in_or_app; left|]; exact H.
      * subst r'. apply record_date_iff in Hd. rewrite Hd.
        left. apply in_or_app. right. left. reflexivity.
      * right. exists r'. split; assumption.
Qed.

(** [min] and [max] of a non-empty list. *)
Lemma py_min_spec (ds : list date) (d0 : date) :
  In (py_min d0 ds) (d0 :: ds) /\ forall x, In x (d0 :: ds) -> py_min d0 ds <= x.
Proof.
  unfold py_min. revert d0; induction ds as [|d ds IH]; intros d0; simpl.
  - split; [left; reflexivity | intros x [E | []]; lia].
  - destruct (IH (Z.min d0 d)) as [Hin Hle]. split.
    + destruct Hin as [E | Hin]; [|right; right; exact Hin].
      rewrite <- E. destruct (Z.min_spec d0 d) as [[_ ->] | [_ ->]]; auto.
    + intros x [E | [E | Hx]].
      * pose proof (Hle (Z.min d0 d) (or_introl eq_refl)). lia.
      * pose proof (Hle (Z.min d0 d) (or_introl eq_refl)). lia.
      * apply Hle. right. exact Hx.
Qed.

Lemma py_max_spec (ds : list date) (d0 : date) :
  In (py_max d0 ds) (d0 :: ds) /\ forall x, In x (d0 :: ds) -> x <= py_max d0 ds.
Proof.
  unfold py_max. revert d0; induction ds as [|d ds IH]; intros d0; simpl.
  - split; [left; reflexivity | intros x [E | []]; lia].
  - destruct (IH (Z.max d0 d)) as [Hin Hle]. split.
    + destruct Hin as [E | Hin]; [|right; right; exact Hin].
      rewrite <- E. destruct (Z.max_spec d0 d) as [[_ ->] | [_ ->]]; auto.
    + intros x [E | [E | Hx]].
      * pose proof (Hle (Z.max d0 d) (or_introl eq_refl)). lia.
      * pose proof (Hle (Z.max d0 d) (or_introl eq_refl)). lia.
      * apply Hle. right. exact Hx.
Qed.

(** C3, amended.  For a file classified [has_data]: it has a non-empty
    record list, whose length is the row count; the date of a record is
    the one [record_date] describes (the first true value among
    [tradeDate] and [d], else the value of [date], read as epoch
    milliseconds; a record that is no mapping, or whose value is missing
    or unparseable, has none, and the status stays [has_data]); the
    manifest's start and end dates are empty when no record has a date,
    and otherwise the ISO texts of the least and the greatest date of a
    record. *)
Theorem C3_manifest_dates (size : Z) (content : pystr) :
  s_status (classify_content size (Some content)) = has_data ->
  exists records,
    records_of (parse_or_salvage (strip content)) = Some records /\
    records <> [] /\
    s_recs (classify_content size (Some content)) = Z.of_nat (length records) /\
    ((forall r d, In r records -> ~ record_date r d) ->
       s_start_date (classify_content size (Some content)) = py "" /\
       s_end_date (classify_content size (Some content)) = py "") /\
    ((exists r d, In r records /\ record_date r d) ->
       exists lo hi,
         s_start_date (classify_content size (Some content)) = isoformat lo /\
         s_end_date (classify_content size (Some content)) = isoformat hi /\
         (exists r, In r records /\ record_date r lo) /\
         (exists r, In r records /\ record_date r hi) /\
         (forall r d, In r records -> record_date r d -> lo <= d <= hi)).
Proof.
  intros Hs. destruct (has_data_records size content Hs) as (records & Hr & Hne & E).
  exists records. rewrite E. split; [exact Hr|]. split; [exact Hne|].
  split; [apply ClassifierTree.summarize_list_recs|].
  assert (Hz : (Z.of_nat (length records) =? 0) = false).
  { apply Z.eqb_neq. destruct records; [congruence | simpl length; lia]. }
  assert (Hspec : forall d, In d (collect_dates records []) <->
                            exists r, In r records /\ record_date r d).
  { intros d. rewrite collect_dates_spec. simpl. tauto. }
  unfold summarize_list. rewrite Hz.
  destruct (collect_dates records []) as [|d0 ds] eqn:Ec; simpl.
  - split; [auto|].
    intros (r & d & Hin & Hd). exfalso.
    apply (proj2 (Hspec d)). exists r. split; assumption.
  - split.
    + intros Hnone. exfalso.
      destruct (proj1 (Hspec d0) (or_introl eq_refl)) as (r & Hin & Hd).
      exact (Hnone r d0 Hin Hd).
    + intros _. exists (py_min d0 ds), (py_max d0 ds).
      destruct (py_min_spec ds d0) as [Hmin_in Hmin].
      destruct (py_max_spec ds d0) as [Hmax_in Hmax].
      repeat split.
      * apply Hspec. exact Hmin_in.
      * apply Hspec. exact Hmax_in.
      * apply Hmin. apply Hspec. exists r. split; assumption.
      * apply Hmax. apply Hspec. exists r. split; assumption.
Qed.

End Dates.

(** [epoch.json] of the demo store: [has_data], from 1970-01-01 to
    1970-01-02. *)
Lemma C3_manifest_dates_witness :
  exists records,
    records_of (@parse_or_salvage Ref.ref_lib (strip Ref.doc_epoch_text)) = Some records /\
    records <> [] /\
    s_recs (@classify_content Ref.ref_lib 46 (Some Ref.doc_epoch_text))
      = Z.of_nat (length records) /\
    ((forall r d, In r records -> ~ @record_date Ref.ref_lib r d) ->
       s_start_date (@classify_content Ref.ref_lib 46 (Some Ref.doc_epoch_text)) = py "" /\
       s_end_date (@classify_content Ref.ref_lib 46 (Some Ref.doc_epoch_text)) = py "") /\
    ((exists r d, In r records /\ @record_date Ref.ref_lib r d) ->
       exists lo hi,
         s_start_date (@classify_content Ref.ref_lib 46 (Some Ref.doc_epoch_text))
           = isoformat lo /\
         s_end_date (@classify_content Ref.ref_lib 46 (Some Ref.doc_epoch_text))
           = isoformat hi /\
         (exists r, In r records /\ @record_date Ref.ref_lib r lo) /\
         (exists r, In r records /\ @record_date Ref.ref_lib r hi) /\
         (forall r d, In r records -> @record_date Ref.ref_lib r d -> lo <= d <= hi)).
Proof.
  apply (@C3_manifest_dates Ref.ref_lib 46 Ref.doc_epoch_text).
  vm_compute. reflexivity.
Defined.

(** The specification's reading of the aliases fails on [epoch.json]: its
    first record has [tradeDate] 0 (1970-01-01) and [d] one day later; the
    classifier passes over the 0 and writes 1970-01-02 as the end date,
    where the first alias present gives 1970-01-01. *)
Lemma C3_counterexample :
  ~ @C3_as_stated Ref.ref_lib 46 Ref.doc_epoch_text.
Proof.
  unfold C3_as_stated. intros H.
  destruct H as (records & Hr & _ & He); [vm_compute; reflexivity|].
  vm_compute in Hr. injection Hr as <-.
  vm_compute in He. discriminate He.
Qed.

End ClassifierDates.

(** ** A run of the classifier *)

Module ClassifierRun.
Import PrepareAndIngest Claims PyFacts.

Section Run.
Context {lib : PyLib}.

(** *** Exceptions *)

Lemma classify_file_sized (st : raw_store) (dirpath fn : pystr) :
  getsize st (path_join dirpath fn) <> None ->
  exists r, classify_file st dirpath fn = Ok r /\ row_for st (dirpath, fn) r.
Proof.
  intros Hsz. unfold classify_file.
  destruct (getsize st (path_join dirpath fn)) as [size|] eqn:E; [|congruence].
  eexists. split; [reflexivity|]. split; [reflexivity|].
  simpl. intros size' Hs Hnz Hread. rewrite E in Hs. injection Hs as <-.
  rewrite Hread. unfold classify_content, classify_body.
  apply Z.eqb_neq in Hnz. rewrite Hnz. reflexivity.
Qed.

Lemma classify_files_total (st : raw_store) (dirpath : pystr)
    (files : list pystr) (acc : list manifest_row) :
  (forall fn, In fn files -> wanted fn = true ->
              getsize st (path_join dirpath fn) <> None) ->
  exists rows',
    classify_files st dirpath files acc = Ok (acc ++ rows') /\
    Forall2 (row_for st) (map (fun fn => (dirpath, fn)) (filter wanted files)) rows'.
Proof.
  revert acc; induction files as [|fn files IH]; intros acc Hsz; simpl.
  - exists []. rewrite app_nil_r. split; [reflexivity | constructor].
  - destruct (wanted fn) eqn:Hw.
    + destruct (classify_file_sized st dirpath fn) as (r & Hr & Hrow).
      { apply Hsz; [left; reflexivity | exact Hw]. }
      rewrite Hr. simpl.
      destruct (IH (acc ++ [r])) as (rows' & Hrun & Hall).
      { intros fn' Hin. apply Hsz. right. exact Hin. }
      exists (r :: rows'). split.
      * rewrite Hrun, <- app_assoc. reflexivity.
      * constructor; assumption.
    + apply IH. intros fn' Hin. apply Hsz. right. exact Hin.
Qed.

Lemma classify_dirs_total (st : raw_store) (dirs : list (pystr * list pystr))
    (acc : list manifest_row) :
  (forall dirpath fn, In (dirpath, fn) (flat_map files_of_dir dirs) ->
                      getsize st (path_join dirpath fn) <> None) ->
  exists rows',
    classify_dirs st dirs acc = Ok (acc ++ rows') /\
    Forall2 (row_for st) (flat_map files_of_dir dirs) rows'.
Proof.
  revert acc; induction dirs as [|[dirpath files] dirs IH]; intros acc Hsz; simpl.
  - exists []. rewrite app_nil_r. split; [reflexivity | constructor].
  - destruct (classify_files_total st dirpath (sorted str_leb files) acc)
      as (rows1 & Hrun1 & Hall1).
    { intros fn Hin Hw. apply Hsz. apply in_or_app. left.
      unfold files_of_dir. simpl. apply in_map. apply filter_In. split; assumption. }
    rewrite Hrun1. simpl.
    destruct (IH (acc ++ rows1)) as (rows2 & Hrun2 & Hall2).
    { intros d fn Hin. apply Hsz. apply in_or_app. right. exact Hin. }
    exists (rows1 ++ rows2). split.
    + rewrite Hrun2, <- app_assoc. reflexivity.
    + apply Forall2_app; assumption.
Qed.

(** C4, amended.  When the size of every processed file can be asked for,
    the run is not aborted: the manifest is written with one row for each
    processed file, in order, and the row of a file whose reading raised
    has status [error]. *)
Theorem C4_read_errors (st : raw_store) :
  (forall dirpath fn, In (dirpath, fn) (scanned st) ->
                      getsize st (path_join dirpath fn) <> None) ->
  exists rows,
    classify_and_summarize st = Ok (rows, manifest_text rows) /\
    Forall2 (row_for st) (scanned st) rows.
Proof.
  intros Hsz. unfold classify_and_summarize.
  destruct (classify_dirs_total st (walk st) [] Hsz) as (rows & Hrun & Hall).
  exists rows. rewrite Hrun. simpl. split; [reflexivity | exact Hall].
Qed.

(** *** Two runs on one store *)









End Run.

(** The demo store: every size can be asked for; [locked.json] cannot be
    read. *)
Lemma C4_read_errors_witness :
  exists rows,
    @classify_and_summarize Ref.ref_lib Ref.demo_store
      = Ok (rows, manifest_text rows) /\
    Forall2 (row_for Ref.demo_store) (scanned Ref.demo_store) rows.
Proof.
  apply (@C4_read_errors Ref.ref_lib Ref.demo_store).
  intros dirpath fn H. vm_compute in H.
  repeat (destruct H as [H | H];
          [injection H as <- <-; vm_compute; discriminate|]).
  contradiction.
Defined.

(** In [broken_store] the size of [gone.json] cannot be asked for: the
    exception leaves the loop, and no manifest is written. *)
Lemma C4_counterexample : ~ @C4_as_stated Ref.ref_lib Ref.broken_store.
Proof.
  unfold C4_as_stated. intros H.
  destruct (H (py "") (py "gone.json")) as (rows & text & Hrun & _).
  - vm_compute. left. reflexivity.
  - left. vm_compute. reflexivity.
  - vm_compute in Hrun. discriminate Hrun.
Qed.


End ClassifierRun.

(** ** The normalizer *)

Module NormalizerRows.
Import PrepareAndIngest Claims PyFacts.

Section Rows.
Context {lib : PyLib}.


(** *** The rows of a written file *)

Lemma replace_same (a : N) (s : pystr) : replace a a s = s.
Proof.
  unfold replace. induction s as [|c s IH]; simpl; [reflexivity|].
  rewrite IH. destruct (N.eqb c a) eqn:E; [|reflexivity].
  apply N.eqb_eq in E. congruence.
Qed.

Lemma build_rows_In (ticker : pystr) (records : list value) (row : raw_row) :
  In row (build_rows ticker records) <->
  exists it, In (VDict it) records /\ row = build_row ticker it.
Proof.
  induction records as [|r records IH]; simpl.
  - split; [tauto | intros (it & [] & _)].
  - assert (Hskip : (forall it, r <> VDict it) ->
                    (In row (build_rows ticker records) <->
                     exists it, (r = VDict it \/ In (VDict it) records) /\
                                row = build_row ticker it)).
    { intros Hn. rewrite IH. split.
      - intros (it & Hin & E). exists it. split; [right; exact Hin | exact E].
      - intros (it & [E' | Hin] & E); [exfalso; exact (Hn it E')|].
        exists it. split; assumption. }
    destruct r as [| | | | | |it0]; try (apply Hskip; intros; discriminate).
    simpl. rewrite IH. split.
    + intros [E | (it & Hin & E)].
      * exists it0. split; [left; reflexivity | congruence].
      * exists it. split; [right; exact Hin | exact E].
    + intros (it & [E' | Hin] & E).
      * left. congruence.
      * right. exists it. split; assumption.
Qed.

(** No row is built exactly when no record is a mapping. *)
Lemma build_rows_nil (ticker : pystr) (records : list value) :
  build_rows ticker records = [] <-> forall it, ~ In (VDict it) records.
Proof.
  split.
  - intros E it Hin.
    assert (H : In (build_row ticker it) (build_rows ticker records)).
    { apply build_rows_In. exists it. split; [exact Hin | reflexivity]. }
    rewrite E in H. exact H.
  - intros Hn. destruct (build_rows ticker records) as [|row rows] eqn:E;
      [reflexivity|].
    assert (H : In row (build_rows ticker records)) by (rewrite E; left; reflexivity).
    apply build_rows_In in H as (it & Hin & _). exfalso. exact (Hn it Hin).
Qed.

Lemma coerce_rows_In (df : list raw_row) (out : list price_row) (p : price_row) :
  coerce_rows df = Ok out -> In p out ->
  exists row, In row df /\ coerce_row row = Ok p.
Proof.
  revert out; induction df as [|row df IH]; intros out; simpl.
  - intros E. injection E as <-. intros [].
  - destruct (coerce_row row) as [p0|] eqn:Er; simpl; [|discriminate].
    destruct (coerce_rows df) as [ps|] eqn:Es; simpl; [|discriminate].
    intros E. injection E as <-. intros [<- | Hin].
    + exists row. split; [left; reflexivity | exact Er].
    + destruct (IH ps eq_refl Hin) as (row' & Hin' & E').
      exists row'. split; [right; exact Hin' | exact E'].
Qed.

Lemma coerce_row_fields (row : raw_row) (p : price_row) :
  coerce_row row = Ok p ->
  p_trade_date p = r_trade_date row /\ p_close p = to_numeric (r_close row).
Proof.
  unfold coerce_row.
  destruct (to_Int64 (r_share_volume row)); simpl; [|discriminate].
  destruct (to_Int64 (r_trade_volume row)); simpl; [|discriminate].
  intros E. injection E as <-. split; reflexivity.
Qed.

Lemma to_numeric_number (v : value) : is_number v -> to_numeric v <> None.
Proof.
  intros [[n ->] | [f [-> Hf]]]; simpl; [discriminate|].
  destruct f; try discriminate. congruence.
Qed.

(** A row with a date comes from a record the classifier dates alike. *)
Lemma trade_date_collected (it : list (pystr * value)) (records : list value) :
  In (VDict it) records ->
  trade_date_of it <> py "" ->
  In (trade_date_of it) (map isoformat (collect_dates records [])).
Proof.
  intros Hin Hne. unfold trade_date_of in *.
  destruct (truthy (trade_date_field it)); [|congruence].
  destruct (date_of_value (trade_date_field it)) as [d|] eqn:Ed; [|congruence].
  apply in_map. apply ClassifierDates.collect_dates_spec. right.
  exists (VDict it). split; [exact Hin|].
  apply ClassifierDates.record_date_iff. exact Ed.
Qed.

Lemma normalize_records_rows (ticker : pystr) (records : list value)
    (df : list price_row) :
  normalize_records ticker records = Ok (Some df) ->
  Forall (survivor records) df.
Proof.
  unfold normalize_records.
  destruct (is_empty (build_rows ticker records)); [discriminate|].
  destruct (coerce_rows (drop_invalid (build_rows ticker records)))
    as [out|] eqn:Ec; simpl; [|discriminate].
  intros E. injection E as <-. apply Forall_forall. intros p Hin.
  assert (Hin' : In p out).
  { unfold sort_by_trade_date in Hin.
    exact (Permutation_in _ (SortFacts.sorted_perm _ _ out) Hin). }
  destruct (coerce_rows_In _ _ _ Ec Hin') as (row & Hrow & Hco).
  unfold drop_invalid in Hrow.
  apply filter_In in Hrow as [Hrow Hclose].
  apply filter_In in Hrow as [Hrow Hdate].
  apply build_rows_In in Hrow as (it & Hit & ->).
  apply coerce_row_fields in Hco as [Etd Ecl]. simpl in Etd, Ecl, Hclose, Hdate.
  apply negb_true_iff in Hclose, Hdate. apply str_eqb_neq in Hdate.
  unfold survivor. rewrite Etd. split; [exact Hdate|].
  split; [apply trade_date_collected; assumption|].
  exists it. repeat split; try assumption.
  intros Hn. rewrite Ecl. apply to_numeric_number. exact Hn.
Qed.

(** One turn of the loop on a file that can be read. *)
Lemma normalize_entry_source (read_text : pystr -> option pystr)
    (st : norm_state) (r : manifest_entry) (records : list value) :
  m_status r = py "has_data" ->
  source_records read_text r = Some records ->
  normalize_entry read_text st r =
  match normalize_records (m_ticker r) records with
  | Ok None =>
      (say (NO_ROWS (m_ticker r)) st (read_text (m_relative_path r)), None)
  | Ok (Some df) =>
      ({| content := read_text (m_relative_path r);
          written := (outpath_of (m_ticker r), df) :: written st;
          printed := WROTE_normalized (outpath_of (m_ticker r)) (length df)
                     :: printed st |}, None)
  | Raise e =>
      ({| content := read_text (m_relative_path r);
          written := written st; printed := printed st |}, Some e)
  end.
Proof.
  intros Hs Hsrc. unfold normalize_entry, source_records in *.
  rewrite Hs, str_eqb_refl, replace_same. cbn [negb].
  destruct (read_text (m_relative_path r)) as [c|]; [|discriminate].
  unfold load_document.
  destruct (parse_content c) as [j|]; [|discriminate].
  rewrite Hsrc. reflexivity.
Qed.

Lemma not_cons_self {A} (x : A) (l : list A) : l <> x :: l.
Proof.
  intros E. apply (f_equal (@length A)) in E. simpl in E. lia.
Qed.

(** C1, amended.  Every row of a file the normalizer writes for a
    [has_data] entry has a trade date that is not empty and is the ISO
    text of a date the classifier extracts from the records of the source
    file; it comes from a record whose close (the [close] field, or the
    [v] fallback) is not null, and its close cell is what numeric coercion
    makes of that value: not null when the value is a number. *)
Theorem C1_written_rows (read_text : pystr -> option pystr)
    (st : norm_state) (r : manifest_entry)
    (records : list value) (df : list price_row) :
  m_status r = py "has_data" ->
  source_records read_text r = Some records ->
  written (fst (normalize_entry read_text st r))
    = (outpath_of (m_ticker r), df) :: written st ->
  Forall (survivor records) df.
Proof.
  intros Hs Hsrc. rewrite (normalize_entry_source read_text st r records Hs Hsrc).
  destruct (normalize_records (m_ticker r) records) as [[df'|]|e] eqn:En; simpl.
  - intros E. injection E as <-. exact (normalize_records_rows _ _ _ En).
  - intros E. exfalso. exact (not_cons_self _ _ E).
  - intros E. exfalso. exact (not_cons_self _ _ E).
Qed.

Lemma drop_invalid_all (rows : list raw_row) :
  Forall fails_filtering rows -> drop_invalid rows = [].
Proof.
  unfold drop_invalid. induction 1 as [|row rows Hrow _ IH]; simpl; [reflexivity|].
  destruct Hrow as [Hd | Hc].
  - rewrite Hd. simpl. exact IH.
  - destruct (str_eqb (r_trade_date row) (py "")); simpl; [exact IH|].
    rewrite Hc. simpl. exact IH.
Qed.

(** C5, amended.  For a [has_data] entry whose rows all fail the filters,
    the turn raises nothing and the loop goes on with the next entry.  When
    no record is a mapping, no row is built: nothing is written and the
    condition is printed.  When rows were built, the ticker's file is
    written with no data row in it. *)
Theorem C5_no_survivor (read_text : pystr -> option pystr)
    (st : norm_state) (r : manifest_entry) (records : list value) :
  m_status r = py "has_data" ->
  source_records read_text r = Some records ->
  Forall fails_filtering (build_rows (m_ticker r) records) ->
  snd (normalize_entry read_text st r) = None /\
  (forall rest, normalize_loop read_text st (r :: rest)
                = normalize_loop read_text (fst (normalize_entry read_text st r)) rest) /\
  ((forall it, ~ In (VDict it) records) ->
     written (fst (normalize_entry read_text st r)) = written st /\
     printed (fst (normalize_entry read_text st r))
       = NO_ROWS (m_ticker r) :: printed st) /\
  ((exists it, In (VDict it) records) ->
     written (fst (normalize_entry read_text st r))
       = (outpath_of (m_ticker r), []) :: written st).
Proof.
  intros Hs Hsrc Hall.
  assert (En : normalize_records (m_ticker r) records =
               if is_empty (build_rows (m_ticker r) records)
               then Ok None else Ok (Some [])).
  { unfold normalize_records. rewrite (drop_invalid_all _ Hall). reflexivity. }
  assert (Hnone : snd (normalize_entry read_text st r) = None).
  { rewrite (normalize_entry_source read_text st r records Hs Hsrc), En.
    destruct (is_empty (build_rows (m_ticker r) records)); reflexivity. }
  split; [exact Hnone|]. split; [|split].
  - intros rest. simpl.
    destruct (normalize_entry read_text st r) as [st' [e|]]; simpl in *;
      [discriminate | reflexivity].
  - intros Hno. apply build_rows_nil with (ticker := m_ticker r) in Hno.
    rewrite (normalize_entry_source read_text st r records Hs Hsrc), En, Hno.
    simpl. split; reflexivity.
  - intros (it & Hin).
    assert (Hne : is_empty (build_rows (m_ticker r) records) = false).
    { apply is_empty_false. intros E.
      exact (proj1 (build_rows_nil (m_ticker r) records) E it Hin). }
    rewrite (normalize_entry_source read_text st r records Hs Hsrc), En, Hne.
    reflexivity.
Qed.

End Rows.


(** The entry of [prices.json] in the demo store: two rows are written. *)
Lemma C1_written_rows_witness :
  exists records df,
    @source_records Ref.ref_lib (read_text Ref.demo_store)
      (Ref.entry "prices" "prices.json" "has_data" "3" "2018-01-01" "2018-01-02")
      = Some records /\
    length df = 2%nat /\
    Forall (@survivor Ref.ref_lib records) df.
Proof.
  eexists. eexists. split; [vm_compute; reflexivity|]. split; cycle 1.
  - apply (@C1_written_rows Ref.ref_lib (read_text Ref.demo_store) initial_state
             (Ref.entry "prices" "prices.json" "has_data" "3" "2018-01-01" "2018-01-02")).
    + reflexivity.
    + vm_compute. reflexivity.
    + vm_compute. reflexivity.
  - reflexivity.
Defined.

(** [old/close.json] of the demo store: its one record has the text N/A as
    close.  The text is not null, so the row survives the filters; the
    coercion then makes the cell null, and the row is written so. *)
Lemma C1_counterexample :
  ~ @C1_as_stated Ref.ref_lib (read_text Ref.demo_store) initial_state
      (Ref.entry "close" "old/close.json" "has_data" "1" "1970-01-02" "1970-01-02").
Proof.
  unfold C1_as_stated. intros H.
  pose proof (H eq_refl _ _ eq_refl eq_refl) as Hf.
  inversion Hf as [|p l Hp Hl]. destruct Hp as (_ & Hc & _).
  apply Hc. reflexivity.
Qed.

(** The entry of [old/undated.json]: its one record is a mapping with no
    date; a row is built and discarded. *)
Lemma C5_no_survivor_witness :
  snd (@normalize_entry Ref.ref_lib (read_text Ref.demo_store) initial_state
         (Ref.entry "undated" "old/undated.json" "has_data" "1" "" "")) = None /\
  written (fst (@normalize_entry Ref.ref_lib (read_text Ref.demo_store) initial_state
         (Ref.entry "undated" "old/undated.json" "has_data" "1" "" "")))
    = [(py "undated.csv", [])].
Proof.
  destruct (@C5_no_survivor Ref.ref_lib (read_text Ref.demo_store) initial_state
              (Ref.entry "undated" "old/undated.json" "has_data" "1" "" "")
              [VDict [(py "close", VInt 5)]])
    as (H1 & _ & _ & H2).
  - reflexivity.
  - vm_compute. reflexivity.
  - constructor; [left; reflexivity | constructor].
  - split; [exact H1|]. apply H2. eexists. left. reflexivity.
Defined.

(** For that entry a file is written, where the specification has none. *)
Lemma C5_counterexample :
  ~ @C5_as_stated Ref.ref_lib (read_text Ref.demo_store) initial_state
      (Ref.entry "undated" "old/undated.json" "has_data" "1" "" "").
Proof.
  unfold C5_as_stated. intros H.
  destruct (H eq_refl [VDict [(py "close", VInt 5)]]) as (Hw & _).
  - vm_compute. reflexivity.
  - constructor; [left; reflexivity | constructor].
  - vm_compute in Hw. discriminate Hw.
Qed.

End NormalizerRows.

(** ** The ticker selector *)

Module SelectorRules.
Import PrepareAndIngest SelectTickers Claims PyFacts.

Section Rules.
Context {lib : PyLib}.

(** [include], as a condition on the row count and the two dates. *)
Lemma decide_include_true (min_rows : Z) (min_start : option date)
    (max_missing_days : option Z) (n : Z) (sd ed : option date) :
  decide_include min_rows min_start max_missing_days n sd ed = true <->
  min_rows <= n /\
  (forall ms, min_start = Some ms -> exists d, sd = Some d /\ d <= ms) /\
  (forall th, max_missing_days = Some th -> th <> 0 ->
     forall s e, sd = Some s -> ed = Some e -> th <= e - s).
Proof.
  assert (E : decide_include min_rows min_start max_missing_days n sd ed =
              negb (n <? min_rows)
              && match min_start with
                 | Some ms => match sd with
                              | Some d => negb (ms <? d)
                              | None => false
                              end
                 | None => true
                 end
              && match max_missing_days, sd, ed with
                 | Some th, Some s, Some e => (th =? 0) || negb (e - s <? th)
                 | _, _, _ => true
                 end).
  { unfold decide_include.
    destruct (n <? min_rows), min_start as [ms|], sd as [s|], ed as [e|],
      max_missing_days as [th|];
      try destruct (ms <? s); try destruct (th =? 0); try destruct (e - s <? th);
      reflexivity. }
  rewrite E, !andb_true_iff, negb_true_iff, Z.ltb_ge.
  assert (E2 : match min_start with
               | Some ms => match sd with
                            | Some d => negb (ms <? d)
                            | None => false
                            end
               | None => true
               end = true <->
               forall ms, min_start = Some ms -> exists d, sd = Some d /\ d <= ms).
  { destruct min_start as [ms|].
    - destruct sd as [d|].
      + rewrite negb_true_iff, Z.ltb_ge. split.
        * intros H ms' Hms. injection Hms as <-. exists d. split; [reflexivity | exact H].
        * intros H. destruct (H ms eq_refl) as (d' & Hd & Hle).
          injection Hd as <-. exact Hle.
      + split; [discriminate|].
        intros H. destruct (H ms eq_refl) as (d' & Hd & _). discriminate Hd.
    - split; [intros _ ms Hms; discriminate Hms | reflexivity]. }
  assert (E3 : match max_missing_days, sd, ed with
               | Some th, Some s, Some e => (th =? 0) || negb (e - s <? th)
               | _, _, _ => true
               end = true <->
               forall th, max_missing_days = Some th -> th <> 0 ->
                 forall s e, sd = Some s -> ed = Some e -> th <= e - s).
  { destruct max_missing_days as [th|];
      [|split; [intros _ th Hth; discriminate Hth | reflexivity]].
    destruct sd as [s|];
      [|split; [intros _ th' _ _ s' e' Hs; discriminate Hs | reflexivity]].
    destruct ed as [e|];
      [|split; [intros _ th' _ _ s' e' _ He; discriminate He | reflexivity]].
    rewrite orb_true_iff, negb_true_iff, Z.ltb_ge, Z.eqb_eq. split.
    - intros H th' Hth Hnz s' e' Hs He.
      injection Hth as <-. injection Hs as <-. injection He as <-.
      destruct H as [H | H]; [contradiction | exact H].
    - intros H. destruct (Z.eq_dec th 0) as [Hz | Hnz]; [left; exact Hz|].
      right. exact (H th eq_refl Hnz s e eq_refl eq_refl). }
  rewrite E2, E3. tauto.
Qed.




(** *** The order of the output *)






End Rules.


End SelectorRules.

(** ** The assembler *)

Module AssemblerExit.
Import AssemblePrices Claims PyFacts.

Section Exit.
Context {lib : PyLib}.

(** When every file is missing, the loop leaves [parts] as it is and
    prints one warning for each ticker. *)
Lemma collect_parts_missing (normal : pystr -> csv_file) (tickers : list pystr)
    (parts : list frame) (ws : list warning) :
  (forall t, In t tickers -> is_missing normal t = true) ->
  collect_parts normal tickers parts ws
  = (Ok parts, ws ++ map file_not_found tickers).
Proof.
  revert ws; induction tickers as [|t tickers IH]; intros ws Hall; simpl.
  - rewrite app_nil_r. reflexivity.
  - pose proof (Hall t (or_introl eq_refl)) as Ht. unfold is_missing in Ht.
    destruct (normal (t ++ py ".csv")); try discriminate.
    rewrite IH by (intros t' Hin; apply Hall; right; exact Hin).
    rewrite <- app_assoc. reflexivity.
Qed.

(** The loop only adds parts, and the one exception that stops it is that
    of [read_csv]. *)
Lemma collect_parts_grows (normal : pystr -> csv_file) (tickers : list pystr)
    (parts : list frame) (ws : list warning) :
  fst (collect_parts normal tickers parts ws) = Raise ValueError \/
  exists more, fst (collect_parts normal tickers parts ws) = Ok (parts ++ more).
Proof.
  revert parts ws; induction tickers as [|t tickers IH]; intros parts ws; simpl.
  - right. exists []. rewrite app_nil_r. reflexivity.
  - destruct (normal (t ++ py ".csv")) as [| |f] eqn:Hfile.
    + apply IH.
    + left. reflexivity.
    + unfold read_csv. destruct (has_column (py "trade_date") f).
      * destruct (IH (parts ++ [part_of t f]) ws) as [Hr | (more & Hrun)];
          [left; exact Hr|].
        right. exists (part_of t f :: more).
        rewrite Hrun, <- app_assoc. reflexivity.
      * left. reflexivity.
Qed.

(** When some file is there, the loop ends with a part or with the
    exception of [read_csv]. *)
Lemma collect_parts_present (normal : pystr -> csv_file) (tickers : list pystr)
    (parts : list frame) (ws : list warning) :
  (exists t, In t tickers /\ is_missing normal t = false) ->
  fst (collect_parts normal tickers parts ws) = Raise ValueError \/
  exists more, more <> [] /\
    fst (collect_parts normal tickers parts ws) = Ok (parts ++ more).
Proof.
  revert parts ws; induction tickers as [|t tickers IH]; intros parts ws;
    intros (t0 & Hin & Hpresent); simpl; [destruct Hin|].
  destruct (normal (t ++ py ".csv")) as [| |f] eqn:Hfile.
  - apply IH. exists t0. split; [|exact Hpresent].
    destruct Hin as [<- | Hin]; [|exact Hin].
    unfold is_missing in Hpresent. rewrite Hfile in Hpresent. discriminate.
  - left. reflexivity.
  - unfold read_csv. destruct (has_column (py "trade_date") f).
    + destruct (collect_parts_grows normal tickers (parts ++ [part_of t f]) ws)
        as [Hr | (more & Hrun)]; [left; exact Hr|].
      right. exists (part_of t f :: more). split; [discriminate|].
      rewrite Hrun, <- app_assoc. reflexivity.
    + left. reflexivity.
Qed.

Lemma all_or_some {A} (p : A -> bool) (l : list A) :
  (forall x, In x l -> p x = true) \/ (exists x, In x l /\ p x = false).
Proof.
  induction l as [|a l IH].
  - left. intros x [].
  - destruct (p a) eqn:Ea.
    + destruct IH as [Hall | (x & Hin & Hx)].
      * left. intros x [<- | Hin]; [exact Ea | apply Hall; exact Hin].
      * right. exists x. split; [right; exact Hin | exact Hx].
    + right. exists a. split; [left; reflexivity | exact Ea].
Qed.

Lemma map_exc_raises {A B} (f : A -> exc B) (l : list A) (e : exn) :
  (forall x e', f x = Raise e' -> e' = ValueError) ->
  map_exc f l = Raise e -> e = ValueError.
Proof.
  intros Hf. induction l as [|x l IH]; simpl; [discriminate|].
  destruct (f x) as [y|e'] eqn:Ex; simpl.
  - destruct (map_exc f l) as [ys|e'']; simpl; [discriminate|].
    intros H. injection H as <-. apply IH. reflexivity.
  - intros H. injection H as <-. exact (Hf x e' Ex).
Qed.

Lemma normalize_trade_date_raises (f : frame) (e : exn) :
  normalize_trade_date f = Raise e -> e = ValueError.
Proof.
  unfold normalize_trade_date.
  destruct (index_of (py "trade_date") (columns f)) as [i|];
    [|intros H; injection H as <-; reflexivity].
  assert (Hcell : forall (x : list pystr) e',
            bind (to_date_cell (nth i x (py ""))) (fun d => Ok (set_nth i d x))
              = Raise e' -> e' = ValueError).
  { intros x e'. unfold to_date_cell.
    destruct (is_empty (nth i x (py ""))); simpl; [discriminate|].
    destruct (date_fromisoformat (nth i x (py ""))); simpl; [discriminate|].
    intros H. injection H as <-. reflexivity. }
  destruct (map_exc _ (data f)) as [rows|e'] eqn:Em; simpl; [discriminate|].
  intros H. injection H as <-.
  exact (map_exc_raises _ _ _ Hcell Em).
Qed.

Lemma assemble_from_parts (normal : pystr -> csv_file) (tickers : list pystr) :
  fst (assemble normal tickers) =
  match fst (collect_parts normal tickers [] []) with
  | Raise e => Raise e
  | Ok parts =>
      if is_empty parts then Raise (SystemExit (py "No data assembled"))
      else bind (normalize_trade_date (concat parts))
                (fun all_df => Ok (sort_panel all_df))
  end.
Proof.
  unfold assemble.
  destruct (collect_parts normal tickers [] []) as [[parts|e] ws]; simpl;
    [|reflexivity].
  destruct (is_empty parts); reflexivity.
Qed.

Lemma assemble_warnings (normal : pystr -> csv_file) (tickers : list pystr) :
  snd (assemble normal tickers) = snd (collect_parts normal tickers [] []).
Proof.
  unfold assemble.
  destruct (collect_parts normal tickers [] []) as [[parts|e] ws]; simpl;
    [|reflexivity].
  destruct (is_empty parts); reflexivity.
Qed.

(** The run ends with [SystemExit] exactly when every selected ticker's
    file is missing. *)
Lemma assemble_exit (normal : pystr -> csv_file) (tickers : list pystr) :
  fst (assemble normal tickers) = Raise (SystemExit (py "No data assembled")) <->
  forall t, In t tickers -> is_missing normal t = true.
Proof.
  rewrite assemble_from_parts. split.
  - intros Hexit.
    destruct (all_or_some (is_missing normal) tickers) as [Hall | Hsome];
      [exact Hall|].
    exfalso.
    destruct (collect_parts_present normal tickers [] [] Hsome)
      as [Hr | (more & Hne & Hrun)].
    + rewrite Hr in Hexit. discriminate Hexit.
    + rewrite Hrun in Hexit. simpl in Hexit.
      destruct more as [|part more]; [congruence|]. simpl in Hexit.
      destruct (normalize_trade_date (concat (part :: more))) as [df|e] eqn:En;
        simpl in Hexit; [discriminate Hexit|].
      apply normalize_trade_date_raises in En. subst e. discriminate Hexit.
  - intros Hall. rewrite (collect_parts_missing normal tickers [] [] Hall).
    reflexivity.
Qed.

(** Leaving the tickers with no file out of the list changes nothing in
    what the loop collects. *)
Lemma collect_parts_skip (normal : pystr -> csv_file) (tickers : list pystr)
    (parts : list frame) (ws ws' : list warning) :
  fst (collect_parts normal tickers parts ws) =
  fst (collect_parts normal
         (filter (fun t => negb (is_missing normal t)) tickers) parts ws').
Proof.
  revert parts ws ws'; induction tickers as [|t tickers IH]; intros parts ws ws';
    simpl; [reflexivity|].
  unfold is_missing at 1.
  destruct (normal (t ++ py ".csv")) as [| |f] eqn:Hfile; simpl.
  - apply IH.
  - rewrite Hfile. reflexivity.
  - rewrite Hfile. unfold read_csv.
    destruct (has_column (py "trade_date") f); [apply IH | reflexivity].
Qed.

(** The warnings of a run in which every file that is there can be read. *)
Lemma collect_parts_warnings (normal : pystr -> csv_file) (tickers : list pystr)
    (parts : list frame) (ws : list warning) :
  (forall t, In t tickers -> is_missing normal t = false ->
             exists df, read_csv (normal (t ++ py ".csv")) = Ok df) ->
  snd (collect_parts normal tickers parts ws)
  = ws ++ map file_not_found (filter (is_missing normal) tickers).
Proof.
  revert parts ws; induction tickers as [|t tickers IH]; intros parts ws Hread; simpl.
  - rewrite app_nil_r. reflexivity.
  - assert (Hrest : forall t', In t' tickers -> is_missing normal t' = false ->
                      exists df, read_csv (normal (t' ++ py ".csv")) = Ok df).
    { intros t' Hin. apply Hread. right. exact Hin. }
    pose proof (Hread t (or_introl eq_refl)) as Ht.
    unfold is_missing in *.
    destruct (normal (t ++ py ".csv")) as [| |f] eqn:Hfile.
    + rewrite (IH parts _ Hrest). simpl. rewrite <- app_assoc. reflexivity.
    + destruct (Ht eq_refl) as (df & Hdf). discriminate Hdf.
    + destruct (Ht eq_refl) as (df & Hdf). unfold read_csv in *.
      destruct (has_column (py "trade_date") f); [|discriminate Hdf].
      apply IH. exact Hrest.
Qed.

(** C7, amended.  The run ends with [SystemExit] ("No data assembled")
    exactly when none of the selected tickers has a canonical CSV file,
    and then no ticker yielded a row.  A ticker whose file is missing is
    skipped: the run ends as the run without it does, and, when the files
    that are there can be read, the warnings printed are those of the
    missing files, one each. *)
Theorem C7_exit_and_warnings (normal : pystr -> csv_file) (tickers : list pystr) :
  (fst (assemble normal tickers) = Raise (SystemExit (py "No data assembled")) <->
   forall t, In t tickers -> normal (t ++ py ".csv") = Missing) /\
  (fst (assemble normal tickers) = Raise (SystemExit (py "No data assembled")) ->
   forall t, In t tickers -> rows_yielded normal t = O) /\
  fst (assemble normal tickers)
    = fst (assemble normal (filter (fun t => negb (is_missing normal t)) tickers)) /\
  ((forall t, In t tickers -> is_missing normal t = false ->
              exists df, read_csv (normal (t ++ py ".csv")) = Ok df) ->
   snd (assemble normal tickers)
     = map file_not_found (filter (is_missing normal) tickers)).
Proof.
  assert (Hmiss : forall t, is_missing normal t = true <->
                            normal (t ++ py ".csv") = Missing).
  { intros t. unfold is_missing.
    destruct (normal (t ++ py ".csv")); split; congruence. }
  split; [|split; [|split]].
  - rewrite assemble_exit. split; intros H t Hin; apply Hmiss; apply H; exact Hin.
  - intros Hexit t Hin.
    pose proof (proj1 (assemble_exit normal tickers) Hexit t Hin) as Ht.
    apply Hmiss in Ht. unfold rows_yielded. rewrite Ht. reflexivity.
  - rewrite !assemble_from_parts.
    rewrite (collect_parts_skip normal tickers [] [] []). reflexivity.
  - intros Hread. rewrite assemble_warnings.
    rewrite (collect_parts_warnings normal tickers [] [] Hread). reflexivity.
Qed.

End Exit.

(** [ZZZ] has no file, [AAA] has one: one warning, and the run goes on. *)
Lemma C7_exit_and_warnings_witness :
  snd (@assemble Ref.ref_lib Ref.normal_header_only [py "ZZZ"; py "AAA"])
    = [file_not_found (py "ZZZ")] /\
  fst (@assemble Ref.ref_lib Ref.normal_header_only [py "ZZZ"; py "AAA"])
    = fst (@assemble Ref.ref_lib Ref.normal_header_only [py "AAA"]).
Proof.
  destruct (@C7_exit_and_warnings Ref.ref_lib Ref.normal_header_only
              [py "ZZZ"; py "AAA"]) as (_ & _ & Hskip & Hwarn).
  split.
  - apply Hwarn. intros t [<- | [<- | []]] Hm.
    + discriminate Hm.
    + eexists. reflexivity.
  - exact Hskip.
Defined.

(** [AAA.csv] holds its header line and no row: no ticker yielded a row,
    and the run ends well, with an empty table. *)
Lemma C7_counterexample :
  ~ @C7_as_stated Ref.ref_lib Ref.normal_header_only [py "AAA"].
Proof.
  unfold C7_as_stated. intros [_ H].
  destruct H as [e He].
  - intros t [<- | []]. reflexivity.
  - vm_compute in He. discriminate He.
Qed.

End AssemblerExit.

(** ** The rows of the manifest *)

Module ManifestRows.
Import PrepareAndIngest Claims Properties PyFacts.

Section Rows.
Context {lib : PyLib}.

Lemma isoformat_not_empty (d : date) : isoformat d <> py "".
Proof.
  unfold isoformat. destruct (civil_of_days d) as [[y m] day].
  unfold pad4, pad2. simpl. discriminate.
Qed.

Lemma no_data_invariant (st : status) :
  st <> unknown -> st <> has_data ->
  summary_invariant st 0 (py "") (py "").
Proof.
  intros Hu Hd. unfold summary_invariant.
  split; [exact Hu|]. split; [intros _; repeat split|].
  split; [intros E; contradiction | split; reflexivity].
Qed.

Lemma summarize_list_invariant (l : list value) :
  summary_invariant (s_status (summarize_list l)) (s_recs (summarize_list l))
                    (s_start_date (summarize_list l)) (s_end_date (summarize_list l)).
Proof.
  unfold summarize_list. destruct l as [|x l].
  - simpl. apply no_data_invariant; discriminate.
  - replace (Z.of_nat (length (x :: l)) =? 0) with false
      by (symmetry; apply Z.eqb_neq; simpl length; lia).
    destruct (collect_dates (x :: l) []) as [|d ds]; simpl;
      (split; [discriminate|]); (split; [intros H; exfalso; apply H; reflexivity|]);
      (split; [intros _; lia|]).
    + split; reflexivity.
    + split; intros H; exfalso; exact (isoformat_not_empty _ H).
Qed.

Lemma analyse_invariant (j : value) :
  summary_invariant (s_status (analyse j)) (s_recs (analyse j))
                    (s_start_date (analyse j)) (s_end_date (analyse j)).
Proof.
  destruct j; simpl; try (apply no_data_invariant; discriminate).
  - apply summarize_list_invariant.
  - rewrite ClassifierDates.scan_values_first_list.
    destruct (first_list (dict_values fields)) as [l|].
    + apply summarize_list_invariant.
    + apply no_data_invariant; discriminate.
Qed.

Lemma classify_content_invariant (size : Z) (content : option pystr) :
  summary_invariant (s_status (classify_content size content))
                    (s_recs (classify_content size content))
                    (s_start_date (classify_content size content))
                    (s_end_date (classify_content size content)).
Proof.
  unfold classify_content, classify_body.
  destruct (size =? 0); [apply no_data_invariant; discriminate|].
  destruct content as [raw|]; [|apply no_data_invariant; discriminate].
  destruct (is_empty (strip raw)); [apply no_data_invariant; discriminate|].
  apply analyse_invariant.
Qed.

Lemma classify_file_invariant (st : raw_store) (dirpath fn : pystr) (r : manifest_row) :
  classify_file st dirpath fn = Ok r ->
  row_invariant r /\ ticker r = splitext_root fn /\
  getsize st (path_join dirpath fn) = Some (filesize_bytes r).
Proof.
  unfold classify_file.
  destruct (getsize st (path_join dirpath fn)) as [size|]; [|discriminate].
  intros E. injection E as <-. unfold row_invariant. simpl.
  split; [apply classify_content_invariant | split; reflexivity].
Qed.

Lemma classify_files_invariant (st : raw_store) (dirpath : pystr)
    (files : list pystr) (acc out : list manifest_row) :
  Forall row_invariant acc ->
  classify_files st dirpath files acc = Ok out ->
  Forall row_invariant out.
Proof.
  revert acc; induction files as [|fn files IH]; intros acc Hacc; simpl.
  - intros E. injection E as <-. exact Hacc.
  - destruct (wanted fn); [|apply IH; exact Hacc].
    destruct (classify_file st dirpath fn) as [r|] eqn:Er; simpl; [|discriminate].
    apply IH. apply Forall_app. split; [exact Hacc|].
    constructor; [|constructor].
    exact (proj1 (classify_file_invariant _ _ _ _ Er)).
Qed.

Lemma classify_dirs_invariant (st : raw_store) (dirs : list (pystr * list pystr))
    (acc out : list manifest_row) :
  Forall row_invariant acc ->
  classify_dirs st dirs acc = Ok out ->
  Forall row_invariant out.
Proof.
  revert acc; induction dirs as [|[dirpath files] dirs IH]; intros acc Hacc; simpl.
  - intros E. injection E as <-. exact Hacc.
  - destruct (classify_files st dirpath (sorted str_leb files) acc) as [acc'|] eqn:Ef;
      simpl; [|discriminate].
    apply IH. exact (classify_files_invariant _ _ _ _ _ Hacc Ef).
Qed.

(** X1.  Every row of a manifest the classifier writes keeps the invariant of
    the rows: its status is never [unknown]; a row that is not [has_data]
    has row count 0 and empty dates; a [has_data] row has a positive row
    count; the start date is empty exactly when the end date is. *)
Theorem manifest_rows_invariant (st : raw_store)
    (rows : list manifest_row) (text : pystr) :
  classify_and_summarize st = Ok (rows, text) ->
  Forall row_invariant rows.
Proof.
  unfold classify_and_summarize.
  destruct (classify_dirs st (walk st) []) as [rs|] eqn:E; simpl; [|discriminate].
  intros H. injection H as <- _.
  exact (classify_dirs_invariant _ _ _ _ (Forall_nil _) E).
Qed.

(** *** The order of the records *)

Lemma collect_dates_perm (l1 l2 : list value) (d : date) :
  Permutation l1 l2 ->
  In d (collect_dates l1 []) -> In d (collect_dates l2 []).
Proof.
  intros Hp H. apply ClassifierDates.collect_dates_spec in H as [[] | (r & Hin & Hd)].
  apply ClassifierDates.collect_dates_spec. right. exists r.
  split; [exact (Permutation_in _ Hp Hin) | exact Hd].
Qed.

(** X2.  The row count and the dates of a record list do not depend on the
    order of its records. *)
Theorem summarize_list_any_order (l1 l2 : list value) :
  Permutation l1 l2 -> summarize_list l1 = summarize_list l2.
Proof.
  intros Hp.
  assert (H12 : forall d, In d (collect_dates l1 []) -> In d (collect_dates l2 []))
    by (intros d; apply collect_dates_perm; exact Hp).
  assert (H21 : forall d, In d (collect_dates l2 []) -> In d (collect_dates l1 []))
    by (intros d; apply collect_dates_perm; apply Permutation_sym; exact Hp).
  unfold summarize_list. rewrite (Permutation_length Hp).
  destruct (Z.of_nat (length l2) =? 0); [reflexivity|].
  destruct (collect_dates l1 []) as [|d1 ds1], (collect_dates l2 []) as [|d2 ds2].
  - reflexivity.
  - exfalso. exact (H21 d2 (or_introl eq_refl)).
  - exfalso. exact (H12 d1 (or_introl eq_refl)).
  - destruct (ClassifierDates.py_min_spec ds1 d1) as [Hmin1 Hle1].
    destruct (ClassifierDates.py_min_spec ds2 d2) as [Hmin2 Hle2].
    destruct (ClassifierDates.py_max_spec ds1 d1) as [Hmax1 Hge1].
    destruct (ClassifierDates.py_max_spec ds2 d2) as [Hmax2 Hge2].
    assert (Emin : py_min d1 ds1 = py_min d2 ds2).
    { pose proof (Hle1 _ (H21 _ Hmin2)). pose proof (Hle2 _ (H12 _ Hmin1)). lia. }
    assert (Emax : py_max d1 ds1 = py_max d2 ds2).
    { pose proof (Hge1 _ (H21 _ Hmax2)). pose proof (Hge2 _ (H12 _ Hmax1)). lia. }
    rewrite Emin, Emax. reflexivity.
Qed.

End Rows.

(** The manifest of the demo store. *)
Lemma manifest_rows_invariant_witness :
  exists rows text,
    @classify_and_summarize Ref.ref_lib Ref.demo_store = Ok (rows, text) /\
    length rows = 8%nat /\ Forall row_invariant rows.
Proof.
  eexists. eexists. split; [vm_compute; reflexivity|].
  split; [reflexivity|].
  eapply (@manifest_rows_invariant Ref.ref_lib Ref.demo_store).
  vm_compute. reflexivity.
Defined.

(** The two records of [epoch.json], in either order. *)
Lemma summarize_list_any_order_witness :
  @summarize_list Ref.ref_lib
    [VDict [(py "tradeDate", VInt 0); (py "d", VInt 86400000)];
     VDict [(py "date", VInt 0)]]
  = @summarize_list Ref.ref_lib
    [VDict [(py "date", VInt 0)];
     VDict [(py "tradeDate", VInt 0); (py "d", VInt 86400000)]].
Proof.
  apply (@summarize_list_any_order Ref.ref_lib). apply perm_swap.
Defined.

End ManifestRows.

(** ** The ticker of a file name *)

Module TickerNames.
Import PrepareAndIngest Properties PyFacts.

(** X4.  The ticker of a file, [os.path.splitext(fn)[0]], is the name without
    its last extension when something other than dots stands before that
    extension; a name that is an extension after dots only ([.json]) is
    its own ticker. *)
Theorem ticker_of_name (stem ext : pystr) :
  ~ In dot ext ->
  (has_other_than_dot stem -> splitext_root (stem ++ dot :: ext) = stem) /\
  (Forall (fun c => c = dot) stem ->
     splitext_root (stem ++ dot :: ext) = stem ++ dot :: ext).
Proof.
  intros Hext.
  assert (Hi : rfind dot (stem ++ dot :: ext) = Z.of_nat (length stem)).
  { apply (rfind_last dot _ stem ext); [reflexivity | exact Hext]. }
  assert (Hs : slice (stem ++ dot :: ext) 0 (Z.of_nat (length stem)) = stem).
  { exact (slice_middle [] stem (dot :: ext)). }
  assert (Hneg : (Z.of_nat (length stem) <? 0) = false) by (apply Z.ltb_ge; lia).
  unfold splitext_root. rewrite Hi, Hneg, Hs. split.
  - intros (c & Hin & Hc).
    destruct (is_empty (dropwhile (N.eqb dot) stem)) eqn:E; [|reflexivity].
    exfalso. apply is_empty_true, dropwhile_nil in E.
    rewrite Forall_forall in E. specialize (E c Hin).
    apply N.eqb_eq in E. congruence.
  - intros Hall.
    assert (E : dropwhile (N.eqb dot) stem = []).
    { apply dropwhile_nil. eapply Forall_impl; [|exact Hall].
      intros c ->. apply N.eqb_refl. }
    rewrite E. reflexivity.
Qed.

(** [ABAN.N0000.json] is the file of ticker [ABAN.N0000]; [.json] is the
    file of ticker [.json]. *)
Lemma ticker_of_name_witness :
  splitext_root (py "ABAN.N0000.json") = py "ABAN.N0000" /\
  splitext_root (py ".json") = py ".json".
Proof.
  split.
  - apply (proj1 (ticker_of_name (py "ABAN.N0000") (py "json")
                    ltac:(vm_compute; intuition discriminate))).
    exists 65%N. split; [left; reflexivity | discriminate].
  - apply (proj2 (ticker_of_name [] (py "json")
                    ltac:(vm_compute; intuition discriminate))).
    constructor.
Defined.

End TickerNames.

(** ** More on the normalizer *)

Module NormalizerFacts.
Import PrepareAndIngest Claims Properties PyFacts.

Section Facts.
Context {lib : PyLib}.

Lemma coerce_row_ticker (row : raw_row) (p : price_row) :
  coerce_row row = Ok p -> p_ticker p = r_ticker row.
Proof.
  unfold coerce_row.
  destruct (to_Int64 (r_share_volume row)); simpl; [|discriminate].
  destruct (to_Int64 (r_trade_volume row)); simpl; [|discriminate].
  intros E. injection E as <-. reflexivity.
Qed.

Lemma coerce_rows_length (df : list raw_row) (out : list price_row) :
  coerce_rows df = Ok out -> length out = length df.
Proof.
  revert out; induction df as [|row df IH]; intros out; simpl.
  - intros E. injection E as <-. reflexivity.
  - destruct (coerce_row row); simpl; [|discriminate].
    destruct (coerce_rows df) as [ps|]; simpl; [|discriminate].
    intros E. injection E as <-. simpl. f_equal. apply IH. reflexivity.
Qed.

Lemma build_rows_length (ticker : pystr) (records : list value) :
  (length (build_rows ticker records) <= length records)%nat.
Proof.
  induction records as [|r records IH]; simpl; [lia|].
  destruct r; simpl; lia.
Qed.

Lemma drop_invalid_length (df : list raw_row) :
  (length (drop_invalid df) <= length df)%nat.
Proof.
  unfold drop_invalid.
  eapply Nat.le_trans; [apply filter_length_le|]. apply filter_length_le.
Qed.

Lemma trade_date_leb_total (a b : price_row) :
  str_leb (p_trade_date a) (p_trade_date b) = true \/
  str_leb (p_trade_date b) (p_trade_date a) = true.
Proof. apply SortFacts.str_leb_total. Qed.

Lemma trade_date_leb_trans (a b c : price_row) :
  str_leb (p_trade_date a) (p_trade_date b) = true ->
  str_leb (p_trade_date b) (p_trade_date c) = true ->
  str_leb (p_trade_date a) (p_trade_date c) = true.
Proof. apply SortFacts.str_leb_trans. Qed.

Lemma normalize_records_tickers (ticker : pystr) (records : list value)
    (df : list price_row) :
  normalize_records ticker records = Ok (Some df) ->
  Forall (fun p => p_ticker p = ticker) df.
Proof.
  unfold normalize_records.
  destruct (is_empty (build_rows ticker records)); [discriminate|].
  destruct (coerce_rows (drop_invalid (build_rows ticker records)))
    as [out|] eqn:Ec; simpl; [|discriminate].
  intros E. injection E as <-. apply Forall_forall. intros p Hin.
  unfold sort_by_trade_date in Hin.
  pose proof (Permutation_in _ (SortFacts.sorted_perm _ _ out) Hin) as Hin'.
  destruct (NormalizerRows.coerce_rows_In _ _ _ Ec Hin') as (row & Hrow & Hco).
  rewrite (coerce_row_ticker _ _ Hco).
  unfold drop_invalid in Hrow.
  apply filter_In in Hrow as [Hrow _]. apply filter_In in Hrow as [Hrow _].
  apply NormalizerRows.build_rows_In in Hrow as (it & _ & ->). reflexivity.
Qed.

Lemma normalize_records_length (ticker : pystr) (records : list value)
    (df : list price_row) :
  normalize_records ticker records = Ok (Some df) ->
  (length df <= length records)%nat.
Proof.
  unfold normalize_records.
  destruct (is_empty (build_rows ticker records)); [discriminate|].
  destruct (coerce_rows (drop_invalid (build_rows ticker records)))
    as [out|] eqn:Ec; simpl; [|discriminate].
  intros E. injection E as <-. unfold sort_by_trade_date.
  rewrite (Permutation_length (SortFacts.sorted_perm _ _ out)).
  rewrite (coerce_rows_length _ _ Ec).
  eapply Nat.le_trans; [apply drop_invalid_length | apply build_rows_length].
Qed.

(** X5.  The rows of a canonical CSV stand in ascending order of trade date,
    all carry the ticker of the manifest entry, and are no more than the
    records of the source. *)
Theorem normalized_rows_shape (ticker : pystr) (records : list value)
    (df : list price_row) :
  normalize_records ticker records = Ok (Some df) ->
  StronglySorted by_trade_date df /\
  Forall (fun p => p_ticker p = ticker) df /\
  (length df <= length records)%nat.
Proof.
  intros H. split; [|split].
  - unfold normalize_records in H.
    destruct (is_empty (build_rows ticker records)); [discriminate|].
    destruct (coerce_rows (drop_invalid (build_rows ticker records)))
      as [out|]; simpl in H; [|discriminate].
    injection H as <-. unfold sort_by_trade_date, by_trade_date.
    apply (SortFacts.sorted_sorted _
             (fun a b => str_leb (p_trade_date a) (p_trade_date b))).
    + exact trade_date_leb_total.
    + exact trade_date_leb_trans.
  - exact (normalize_records_tickers _ _ _ H).
  - exact (normalize_records_length _ _ _ H).
Qed.

(** *** What a run writes *)

(** One turn writes nothing, or one file for its [has_data] entry. *)
Lemma normalize_entry_writes (read_text : pystr -> option pystr)
    (st : norm_state) (r : manifest_entry) :
  written (fst (normalize_entry read_text st r)) = written st \/
  (m_status r = py "has_data" /\
   exists df,
     written (fst (normalize_entry read_text st r))
       = (outpath_of (m_ticker r), df) :: written st /\
     Forall (fun p => p_ticker p = m_ticker r) df).
Proof.
  unfold normalize_entry.
  destruct (str_eqb (m_status r) (py "has_data")) eqn:Es; simpl; [|left; reflexivity].
  apply str_eqb_eq in Es.
  destruct (load_document st (read_text (replace slash slash (m_relative_path r))))
    as [[j|] c]; [|left; reflexivity].
  destruct (records_of j) as [records|]; [|left; reflexivity].
  destruct (normalize_records (m_ticker r) records) as [[df|]|e] eqn:En;
    simpl; try (left; reflexivity).
  right. split; [exact Es|]. exists df. split; [reflexivity|].
  exact (normalize_records_tickers _ _ _ En).
Qed.

Lemma normalize_loop_written (read_text : pystr -> option pystr)
    (all : list manifest_entry) (st : norm_state) (m : list manifest_entry) :
  (forall r, In r m -> In r all) ->
  Forall (written_for all) (written st) ->
  Forall (written_for all) (written (fst (normalize_loop read_text st m))).
Proof.
  revert st; induction m as [|r m IH]; intros st Hsub Hst; simpl; [exact Hst|].
  assert (Hst' : Forall (written_for all)
                        (written (fst (normalize_entry read_text st r)))).
  { destruct (normalize_entry_writes read_text st r) as [E | (Hs & df & E & Hdf)].
    - rewrite E. exact Hst.
    - rewrite E. constructor; [|exact Hst].
      exists r. split; [apply Hsub; left; reflexivity|].
      split; [exact Hs|]. split; [reflexivity | exact Hdf]. }
  destruct (normalize_entry read_text st r) as [st' [e|]]; simpl in *.
  - exact Hst'.
  - apply IH; [|exact Hst'].
    intros r' Hin. apply Hsub. right. exact Hin.
Qed.

(** X6.  Whatever the raw store holds, and whether or not the run ends with an
    exception, every file the normalizer has written is named after the
    ticker of a [has_data] entry of the manifest, and all its rows carry
    that ticker: entries of another status never get a file. *)
Theorem normalizer_writes_for_has_data (read_text : pystr -> option pystr)
    (manifest : list manifest_entry) :
  Forall (written_for manifest)
         (written (fst (normalize_has_data read_text manifest))).
Proof.
  unfold normalize_has_data.
  apply normalize_loop_written; [auto | constructor].
Qed.

(** *** A raw file that cannot be opened *)

Lemma normalize_entry_reads (read_text : pystr -> option pystr)
    (st : norm_state) (r : manifest_entry) (c : pystr) :
  m_status r = py "has_data" ->
  read_text (m_relative_path r) = Some c ->
  content (fst (normalize_entry read_text st r)) = Some c /\
  (written (fst (normalize_entry read_text st r)) = written st \/
   exists w, written (fst (normalize_entry read_text st r)) = w :: written st).
Proof.
  intros Hs Hr. unfold normalize_entry.
  rewrite Hs, str_eqb_refl, NormalizerRows.replace_same, Hr. cbn [negb load_document].
  destruct (parse_content c) as [j|]; [|split; [reflexivity | left; reflexivity]].
  destruct (records_of j) as [records|]; [|split; [reflexivity | left; reflexivity]].
  destruct (normalize_records (m_ticker r) records) as [[df|]|e];
    (split; [reflexivity|]); try (left; reflexivity).
  right. eexists. reflexivity.
Qed.

(** X7.  When the raw file of a [has_data] entry cannot be opened, the handler
    of the turn works on the variable [content] as the turns before left
    it.  Unbound (no file was read yet), the entry is skipped with a
    message.  After a turn that read a text [c] and raised nothing, the
    bracket slice of [c] is parsed again, and the rows of that other file
    are written under the ticker of the entry whose file is missing. *)
Theorem unopened_file_uses_earlier_text (read_text : pystr -> option pystr)
    (st : norm_state) (r1 r2 : manifest_entry) :
  m_status r2 = py "has_data" ->
  read_text (m_relative_path r2) = None ->
  (content st = None ->
     normalize_entry read_text st r2
     = (say (SKIP_could_not_parse (m_relative_path r2)) st None, None)) /\
  (forall c j records df,
     m_status r1 = py "has_data" ->
     read_text (m_relative_path r1) = Some c ->
     snd (normalize_entry read_text st r1) = None ->
     salvage c = Some j ->
     records_of j = Some records ->
     normalize_records (m_ticker r2) records = Ok (Some df) ->
     normalize_loop read_text st [r1; r2]
     = ({| content := Some c;
           written := (outpath_of (m_ticker r2), df)
                      :: written (fst (normalize_entry read_text st r1));
           printed := WROTE_normalized (outpath_of (m_ticker r2)) (length df)
                      :: printed (fst (normalize_entry read_text st r1)) |},
        None)).
Proof.
  intros Hs2 Hr2. split.
  - intros Hc. unfold normalize_entry.
    rewrite Hs2, str_eqb_refl, NormalizerRows.replace_same, Hr2.
    cbn [negb load_document]. rewrite Hc. reflexivity.
  - intros c j records df Hs1 Hr1 Hok Hsal Hrec Hnorm.
    destruct (normalize_entry_reads read_text st r1 c Hs1 Hr1) as [Hc _].
    cbn [normalize_loop].
    destruct (normalize_entry read_text st r1) as [st1 o]. simpl in Hok, Hc |- *.
    subst o. unfold normalize_entry.
    rewrite Hs2, str_eqb_refl, NormalizerRows.replace_same, Hr2.
    cbn [negb load_document]. rewrite Hc, Hsal, Hrec, Hnorm. reflexivity.
Qed.

(** *** The classifier and the normalizer on one file *)

Lemma status_str_has_data (s : status) :
  status_str s = py "has_data" -> s = has_data.
Proof. destruct s; simpl; intros H; try discriminate H; reflexivity. Qed.

(** X8.  For a file the classifier gives [has_data], whose path has no
    backslash and whose text [json.loads] accepts as it stands, and
    stripped, with the same value: the normalizer works on the very record
    list the classifier counted, so the row count of the manifest is the
    length of that list, and the file the normalizer writes for the entry
    has at most that many rows. *)
Theorem manifest_rows_bound_written_rows (st : raw_store) (dirpath fn : pystr)
    (row : manifest_row) (c : pystr) (j : value) :
  classify_file st dirpath fn = Ok row ->
  row_status row = has_data ->
  manifest_path dirpath fn = path_join dirpath fn ->
  read_text st (path_join dirpath fn) = Some c ->
  json_loads c = Some j ->
  json_loads (strip c) = Some j ->
  exists records,
    source_records (read_text st) (entry_of_row row) = Some records /\
    rows row = Z.of_nat (length records) /\
    (forall stn df,
       written (fst (normalize_entry (read_text st) stn (entry_of_row row)))
         = (outpath_of (ticker row), df) :: written stn ->
       Z.of_nat (length df) <= rows row).
Proof.
  intros Hfile Hstatus Hpath Hread Hdirect Hstripped.
  unfold classify_file in Hfile.
  destruct (getsize st (path_join dirpath fn)) as [size|]; [|discriminate].
  injection Hfile as <-. simpl in *. rewrite Hread in *.
  destruct (ClassifierDates.has_data_records size c Hstatus)
    as (records & Hrec & _ & Hsum).
  assert (Ej : parse_or_salvage (strip c) = j).
  { unfold parse_or_salvage. rewrite Hstripped. reflexivity. }
  rewrite Ej in Hrec.
  assert (Hsrc : source_records (read_text st)
                   (entry_of_row
                      {| ticker := splitext_root fn;
                         relative_path := replace backslash slash (path_join dirpath fn);
                         row_status := s_status (classify_content size (Some c));
                         rows := s_recs (classify_content size (Some c));
                         start_date := s_start_date (classify_content size (Some c));
                         end_date := s_end_date (classify_content size (Some c));
                         filesize_bytes := size |}) = Some records).
  { unfold source_records, entry_of_row. simpl.
    unfold manifest_path in Hpath. rewrite Hpath, Hread.
    unfold parse_content. rewrite Hdirect. exact Hrec. }
  exists records. split; [exact Hsrc|].
  assert (Hn : s_recs (classify_content size (Some c)) = Z.of_nat (length records)).
  { rewrite Hsum. apply ClassifierTree.summarize_list_recs. }
  split; [exact Hn|].
  intros stn df.
  rewrite (NormalizerRows.normalize_entry_source (read_text st) stn _ records);
    [|simpl; rewrite Hstatus; reflexivity | exact Hsrc].
  simpl.
  destruct (normalize_records (splitext_root fn) records) as [[df'|]|e] eqn:En; simpl.
  - intros E. injection E as <-.
    pose proof (normalize_records_length _ _ _ En). lia.
  - intros E. exfalso. exact (NormalizerRows.not_cons_self _ _ E).
  - intros E. exfalso. exact (NormalizerRows.not_cons_self _ _ E).
Qed.

(** *** The script as a whole *)

(** X9.  Run as a script, the normalizer works on the manifest the classifier
    has just written: every file it writes is named after the ticker of a
    manifest row of this run whose status is [has_data] and whose row count
    is positive, and all its rows carry that ticker. *)
Theorem script_writes_for_counted_rows (st : raw_store)
    (manifest : list manifest_row) (final : norm_state) (e : option exn) :
  run_script st = Ok (manifest, (final, e)) ->
  Forall (fun w => exists row,
            In row manifest /\ row_status row = has_data /\ 0 < rows row /\
            fst w = outpath_of (ticker row) /\
            Forall (fun p => p_ticker p = ticker row) (snd w))
         (written final).
Proof.
  unfold run_script, classify_and_summarize.
  destruct (classify_dirs st (walk st) []) as [rs|] eqn:Ec; simpl; [|discriminate].
  intros E. injection E as <- Hrun.
  pose proof (ManifestRows.classify_dirs_invariant _ _ _ _ (Forall_nil _) Ec) as Hinv.
  pose proof (normalize_loop_written (read_text st) (map entry_of_row rs)
                initial_state (map entry_of_row rs) (fun r H => H) (Forall_nil _)) as Hw.
  unfold normalize_has_data in Hrun. rewrite Hrun in Hw. simpl in Hw.
  eapply Forall_impl; [|exact Hw].
  intros w (r & Hin & Hs & Hpath & Hrows).
  apply in_map_iff in Hin as (row & <- & Hrow).
  simpl in Hs, Hpath, Hrows. apply status_str_has_data in Hs.
  exists row. split; [exact Hrow|]. split; [exact Hs|].
  rewrite Forall_forall in Hinv.
  destruct (Hinv row Hrow) as (_ & _ & Hpos & _).
  split; [exact (Hpos Hs)|]. split; assumption.
Qed.

End Facts.

(** The records of [prices.json]: two rows, 2018-01-01 then 2018-01-02. *)
Lemma normalized_rows_shape_witness :
  exists df,
    @normalize_records Ref.ref_lib (py "prices")
      [VDict [(py "tradeDate", VInt 1514764800000);
              (py "close", VFloat Ref.twelve_and_a_half)];
       VDict [(py "d", VInt 1514851200000); (py "close", VInt 0)];
       VDict [(py "date", VStr (py "n/a")); (py "close", VInt 3)]]
      = Ok (Some df) /\
    length df = 2%nat /\
    StronglySorted by_trade_date df /\
    Forall (fun p => p_ticker p = py "prices") df.
Proof.
  eexists. split; [vm_compute; reflexivity|]. split; [reflexivity|].
  match goal with
  | |- StronglySorted _ ?df /\ _ =>
      destruct (@normalized_rows_shape Ref.ref_lib (py "prices")
                  [VDict [(py "tradeDate", VInt 1514764800000);
                          (py "close", VFloat Ref.twelve_and_a_half)];
                   VDict [(py "d", VInt 1514851200000); (py "close", VInt 0)];
                   VDict [(py "date", VStr (py "n/a")); (py "close", VInt 3)]]
                  df) as (H1 & H2 & _)
  end.
  - vm_compute. reflexivity.
  - split; assumption.
Defined.

(** [ghost.json] is not in the demo store.  Asked for first, the entry is
    skipped; asked for after the turn of [prices.json], the two rows of
    that file are written to [ghost.csv]. *)
Lemma unopened_file_uses_earlier_text_witness :
  @normalize_entry Ref.ref_lib (read_text Ref.demo_store) initial_state
    (Ref.entry "ghost" "ghost.json" "has_data" "7" "" "")
  = (say (SKIP_could_not_parse (py "ghost.json")) initial_state None, None) /\
  exists df1 df2,
    length df2 = 2%nat /\
    written (fst (@normalize_has_data Ref.ref_lib (read_text Ref.demo_store)
                    Ref.manifest_with_ghost))
    = [(py "ghost.csv", df2); (py "prices.csv", df1)].
Proof.
  destruct (@unopened_file_uses_earlier_text Ref.ref_lib
              (read_text Ref.demo_store) initial_state
              (Ref.entry "prices" "prices.json" "has_data" "3"
                         "2018-01-01" "2018-01-02")
              (Ref.entry "ghost" "ghost.json" "has_data" "7" "" "")
              eq_refl eq_refl) as [Hskip Hstale].
  split; [exact (Hskip eq_refl)|].
  assert (Hn : exists df,
            @normalize_records Ref.ref_lib (py "ghost")
              [VDict [(py "tradeDate", VInt 1514764800000);
                      (py "close", VFloat Ref.twelve_and_a_half)];
               VDict [(py "d", VInt 1514851200000); (py "close", VInt 0)];
               VDict [(py "date", VStr (py "n/a")); (py "close", VInt 3)]]
            = Ok (Some df) /\ length df = 2%nat)
    by (eexists; split; vm_compute; reflexivity).
  destruct Hn as (df & Hn & Hlen).
  assert (Hok : snd (@normalize_entry Ref.ref_lib (read_text Ref.demo_store)
                       initial_state
                       (Ref.entry "prices" "prices.json" "has_data" "3"
                                  "2018-01-01" "2018-01-02")) = None)
    by (vm_compute; reflexivity).
  assert (Hsal : @salvage Ref.ref_lib Ref.doc_prices_text = Some Ref.doc_prices)
    by (vm_compute; reflexivity).
  eexists. exists df. split; [exact Hlen|].
  unfold normalize_has_data, Ref.manifest_with_ghost.
  rewrite (Hstale Ref.doc_prices_text Ref.doc_prices _ df
             eq_refl eq_refl Hok Hsal eq_refl Hn).
  cbn [written fst]. f_equal. vm_compute. reflexivity.
Defined.

(** [prices.json] of the demo store: three records, a row count of 3. *)
Lemma manifest_rows_bound_written_rows_witness :
  exists row,
    @classify_file Ref.ref_lib Ref.demo_store (py "") (py "prices.json") = Ok row /\
    rows row = 3 /\
    exists records,
      @source_records Ref.ref_lib (read_text Ref.demo_store) (entry_of_row row)
        = Some records /\
      rows row = Z.of_nat (length records) /\
      (forall stn df,
         written (fst (@normalize_entry Ref.ref_lib (read_text Ref.demo_store)
                         stn (entry_of_row row)))
           = (outpath_of (ticker row), df) :: written stn ->
         Z.of_nat (length df) <= rows row).
Proof.
  eexists. split; [vm_compute; reflexivity|]. split; [reflexivity|].
  apply (@manifest_rows_bound_written_rows Ref.ref_lib Ref.demo_store
           (py "") (py "prices.json") _ Ref.doc_prices_text Ref.doc_prices);
    vm_compute; reflexivity.
Defined.

(** The demo store, classified and normalized in one run. *)
Lemma script_writes_for_counted_rows_witness :
  exists manifest final e,
    @run_script Ref.ref_lib Ref.demo_store = Ok (manifest, (final, e)) /\
    length (written final) = 4%nat /\
    Forall (fun w => exists row,
              In row manifest /\ row_status row = has_data /\ 0 < rows row /\
              fst w = outpath_of (ticker row) /\
              Forall (fun p => p_ticker p = ticker row) (snd w))
           (written final).
Proof.
  eexists. eexists. eexists. split; [vm_compute; reflexivity|].
  split; [reflexivity|].
  eapply (@script_writes_for_counted_rows Ref.ref_lib Ref.demo_store).
  vm_compute. reflexivity.
Defined.

End NormalizerFacts.

(** ** More on the selector *)

Module SelectorFacts.
Import PrepareAndIngest SelectTickers AssemblePrices Properties PyFacts.

Section Facts.
Context {lib : PyLib}.

Lemma rows_count_of_raises (r : manifest_entry) (e : exn) :
  rows_count_of r = Raise e <->
  e = ValueError /\ is_empty (m_rows r) = false /\ int_of_str (m_rows r) = None.
Proof.
  unfold rows_count_of.
  destruct (is_empty (m_rows r)); [split; [discriminate | intros (_ & H & _); discriminate]|].
  destruct (int_of_str (m_rows r)).
  - split; [discriminate | intros (_ & _ & H); discriminate].
  - split.
    + intros H. injection H as <-. repeat split.
    + intros (-> & _). reflexivity.
Qed.

Lemma select_entry_raises (min_rows : Z) (min_start : option date)
    (max_missing_days : option Z) (r : manifest_entry) (e : exn) :
  select_entry min_rows min_start max_missing_days r = Raise e <->
  rows_count_of r = Raise e.
Proof.
  unfold select_entry. destruct (rows_count_of r); simpl; split; congruence.
Qed.

Lemma select_entries_raises (min_rows : Z) (min_start : option date)
    (max_missing_days : option Z) (entries : list manifest_entry) (e : exn) :
  select_entries min_rows min_start max_missing_days entries = Raise e <->
  e = ValueError /\ exists r, In r entries /\ unreadable_rows r.
Proof.
  revert e; induction entries as [|r entries IH]; intros e; simpl.
  - split; [discriminate | intros (_ & r & [] & _)].
  - destruct (str_eqb (m_status r) (py "has_data")) eqn:Es; simpl.
    + apply str_eqb_eq in Es.
      destruct (select_entry min_rows min_start max_missing_days r) as [x|e'] eqn:Ex;
        simpl.
      * destruct (select_entries min_rows min_start max_missing_days entries)
          as [xs|e'']; simpl.
        -- split; [discriminate|].
           intros (He & r' & [<- | Hin] & Hr').
           ++ destruct Hr' as (_ & Hr').
              assert (Hx : select_entry min_rows min_start max_missing_days r
                           = Raise ValueError).
              { apply select_entry_raises, rows_count_of_raises.
                split; [reflexivity | exact Hr']. }
              rewrite Hx in Ex. discriminate Ex.
           ++ assert (H : Ok xs = Raise e) by (apply IH; split; [exact He|];
                exists r'; split; assumption).
              discriminate H.
        -- split.
           ++ intros H. injection H as <-.
              destruct (proj1 (IH e'') eq_refl) as (He & r' & Hin & Hr').
              split; [exact He|]. exists r'. split; [right; exact Hin | exact Hr'].
           ++ intros (-> & _).
              destruct (proj1 (IH e'') eq_refl) as (-> & _). reflexivity.
      * apply select_entry_raises, rows_count_of_raises in Ex as (-> & Hne & Hint).
        split.
        -- intros H. injection H as <-. split; [reflexivity|].
           exists r. split; [left; reflexivity|].
           split; [exact Es | split; assumption].
        -- intros (-> & _). reflexivity.
    + rewrite IH. apply str_eqb_neq in Es. split.
      * intros (He & r' & Hin & Hr'). split; [exact He|].
        exists r'. split; [right; exact Hin | exact Hr'].
      * intros (He & r' & [<- | Hin] & Hr').
        -- destruct Hr' as (Hs & _). contradiction.
        -- split; [exact He|]. exists r'. split; assumption.
Qed.

(** X11.  With a manifest to read, the selector ends with an exception exactly
    when a [has_data] entry has a row count that is not empty and that
    [int] refuses; the exception is [ValueError], nothing is written, and
    the thresholds play no part in it.  The row counts of entries of
    another status are never read. *)
Theorem selector_raises_on_unreadable_rows (min_rows : Z) (min_start : option date)
    (max_missing_days : option Z) (entries : list manifest_entry) (e : exn) :
  main min_rows min_start max_missing_days (Some entries) = Raise e <->
  e = ValueError /\ exists r, In r entries /\ unreadable_rows r.
Proof.
  rewrite <- (select_entries_raises min_rows min_start max_missing_days).
  unfold main.
  destruct (select_entries min_rows min_start max_missing_days entries);
    simpl; split; congruence.
Qed.

(** X12.  Asking for less never excludes: an entry included under some
    thresholds is included under looser ones, and with more rows. *)
Theorem looser_thresholds_keep_inclusion (min_rows min_rows' : Z)
    (min_start min_start' : option date) (max_missing_days max_missing_days' : option Z)
    (n n' : Z) (sd ed : option date) :
  min_rows' <= min_rows -> n <= n' ->
  looser_start min_start' min_start ->
  looser_span max_missing_days' max_missing_days ->
  decide_include min_rows min_start max_missing_days n sd ed = true ->
  decide_include min_rows' min_start' max_missing_days' n' sd ed = true.
Proof.
  intros Hmr Hn Hstart Hspan H.
  apply SelectorRules.decide_include_true in H as (Hrows & Hms & Hmm).
  apply SelectorRules.decide_include_true. split; [lia|]. split.
  - intros ms' Ems'. destruct Hstart as [E | (a & b & Ea & Eb & Hab)].
    + congruence.
    + destruct (Hms a Ea) as (d & Hd & Hle). exists d. split; [exact Hd|].
      assert (b = ms') by congruence. lia.
  - intros th' Eth' Hnz s e' Hs He.
    destruct Hspan as [E | (a & b & Ea & Eb & Hab)]; [congruence|].
    assert (b = th') by congruence. subst b.
    assert (Ha : a <> 0) by lia.
    pose proof (Hmm a Ea Ha s e' Hs He). lia.
Qed.

(** *** From the manifest to the list of tickers *)

Lemma select_entries_In (min_rows : Z) (min_start : option date)
    (max_missing_days : option Z) (entries : list manifest_entry)
    (sels : list selection) (x : selection) :
  select_entries min_rows min_start max_missing_days entries = Ok sels ->
  (In x sels <->
   exists r, In r entries /\ m_status r = py "has_data" /\
             select_entry min_rows min_start max_missing_days r = Ok x).
Proof.
  revert sels; induction entries as [|r entries IH]; intros sels; simpl.
  - intros E. injection E as <-. split; [intros [] | intros (r & [] & _)].
  - destruct (str_eqb (m_status r) (py "has_data")) eqn:Es; simpl.
    + apply str_eqb_eq in Es.
      destruct (select_entry min_rows min_start max_missing_days r) as [y|] eqn:Ey;
        simpl; [|discriminate].
      destruct (select_entries min_rows min_start max_missing_days entries)
        as [ys|]; simpl; [|discriminate].
      intros E. injection E as <-. specialize (IH ys eq_refl). split.
      * intros [<- | Hin].
        -- exists r. split; [left; reflexivity | split; assumption].
        -- apply IH in Hin as (r' & Hin & Hr'). exists r'.
           split; [right; exact Hin | exact Hr'].
      * intros (r' & [<- | Hin] & Hs & Hx).
        -- left. congruence.
        -- right. apply IH. exists r'. split; [exact Hin | split; assumption].
    + apply str_eqb_neq in Es. intros E. specialize (IH sels E). rewrite IH. split.
      * intros (r' & Hin & Hr'). exists r'. split; [right; exact Hin | exact Hr'].
      * intros (r' & [<- | Hin] & Hs & Hx); [contradiction|].
        exists r'. split; [exact Hin | split; assumption].
Qed.

Lemma select_entry_yes (min_rows : Z) (min_start : option date)
    (max_missing_days : option Z) (r : manifest_entry) (x : selection) :
  select_entry min_rows min_start max_missing_days r = Ok x ->
  sel_ticker x = m_ticker r /\
  (str_eqb (lower (sel_include x)) (py "yes") = true <->
   exists n, rows_count_of r = Ok n /\
     decide_include min_rows min_start max_missing_days n
       (parse_date (m_start_date r)) (parse_date (m_end_date r)) = true).
Proof.
  unfold select_entry. destruct (rows_count_of r) as [n|]; simpl; [|discriminate].
  intros E. injection E as <-. simpl. split; [reflexivity|].
  destruct (decide_include min_rows min_start max_missing_days n
              (parse_date (m_start_date r)) (parse_date (m_end_date r))) eqn:Ed.
  - split; [|intros _; reflexivity].
    intros _. exists n. split; [reflexivity | exact Ed].
  - split; [intros H; vm_compute in H; discriminate H|].
    intros (n' & En & Hd). injection En as <-. congruence.
Qed.

(** X13.  The tickers the assembler loads from the file the selector wrote are
    those of the [has_data] entries of the manifest that pass the
    thresholds, and no others. *)
Theorem loaded_tickers_pass_thresholds (min_rows : Z) (min_start : option date)
    (max_missing_days : option Z) (entries : list manifest_entry)
    (out : list selection) (t : pystr) :
  main min_rows min_start max_missing_days (Some entries) = Ok out ->
  (In t (load_selected_tickers out) <->
   exists r, In r entries /\ m_ticker r = t /\
             passes min_rows min_start max_missing_days r).
Proof.
  unfold main.
  destruct (select_entries min_rows min_start max_missing_days entries)
    as [sels|] eqn:Es; simpl; [|discriminate].
  intros E. injection E as <-.
  unfold load_selected_tickers. rewrite in_map_iff. split.
  - intros (x & Ht & Hx). apply filter_In in Hx as [Hx Hyes].
    apply (Permutation_in _ (SortFacts.sorted_perm _ key_leb sels)) in Hx.
    apply (select_entries_In _ _ _ _ _ x Es) in Hx as (r & Hin & Hs & Hsel).
    destruct (select_entry_yes _ _ _ _ _ Hsel) as [Hticker Hinc].
    exists r. split; [exact Hin|]. split; [congruence|].
    split; [exact Hs | apply Hinc; exact Hyes].
  - intros (r & Hin & Ht & Hs & Hpass).
    destruct (select_entry min_rows min_start max_missing_days r) as [x|e] eqn:Ex.
    + destruct (select_entry_yes _ _ _ _ _ Ex) as [Hticker Hinc].
      exists x. split; [congruence|]. apply filter_In. split.
      * apply (Permutation_in _
                 (Permutation_sym (SortFacts.sorted_perm _ key_leb sels))).
        apply (select_entries_In _ _ _ _ _ x Es).
        exists r. split; [exact Hin | split; [exact Hs | exact Ex]].
      * apply Hinc. exact Hpass.
    + exfalso. destruct Hpass as (n & Hn & _).
      apply select_entry_raises in Ex. congruence.
Qed.

End Facts.

(** [BBB] of this manifest has the row count [many]. *)
Lemma selector_raises_on_unreadable_rows_witness :
  @main Ref.ref_lib 50 None None (Some Ref.manifest_bad_rows) = Raise ValueError.
Proof.
  apply (proj2 (@selector_raises_on_unreadable_rows Ref.ref_lib 50 None None
                  Ref.manifest_bad_rows ValueError)).
  split; [reflexivity|].
  exists (Ref.entry "BBB" "BBB.json" "has_data" "many" "2016-01-04" "2020-01-31").
  split; [right; left; reflexivity|].
  split; [reflexivity|]. split; reflexivity.
Defined.

(** 150 rows from 2017-05-01 to 2020-01-31 pass 100 rows, a start by
    2018-01-01 and a span of 365 days; so do 151 rows under 50 rows, no
    start threshold and a span of 0. *)
Lemma looser_thresholds_keep_inclusion_witness :
  @decide_include 100 (Some 17532) (Some 365) 150 (Some 17287) (Some 18292) = true /\
  @decide_include 50 None (Some 0) 151 (Some 17287) (Some 18292) = true.
Proof.
  split; [reflexivity|].
  apply (looser_thresholds_keep_inclusion 100 50 (Some 17532) None
           (Some 365) (Some 0) 150 151 (Some 17287) (Some 18292)).
  - lia.
  - lia.
  - left. reflexivity.
  - right. exists 365, 0. split; [reflexivity|]. split; [reflexivity | lia].
  - reflexivity.
Defined.

(** The demo manifest under the thresholds 100 rows, start by 2018-01-01:
    [AAA] is loaded, [BBB] (99 rows) is not. *)
Lemma loaded_tickers_pass_thresholds_witness :
  exists out,
    @main Ref.ref_lib 100 (Some 17532) None (Some Ref.demo_manifest) = Ok out /\
    In (py "AAA") (load_selected_tickers out) /\
    ~ In (py "BBB") (load_selected_tickers out).
Proof.
  eexists. split; [vm_compute; reflexivity|].
  split.
  - apply (proj2 (@loaded_tickers_pass_thresholds Ref.ref_lib 100 (Some 17532) None
                    Ref.demo_manifest _ (py "AAA") ltac:(vm_compute; reflexivity))).
    exists (Ref.entry "AAA" "AAA.json" "has_data" "150" "2017-05-01" "2020-01-31").
    split; [left; reflexivity|]. split; [reflexivity|].
    split; [reflexivity|]. exists 150. split; vm_compute; reflexivity.
  - vm_compute. intuition discriminate.
Defined.

End SelectorFacts.

(** ** More on the assembler *)

Module AssemblerPanel.
Import AssemblePrices Properties PyFacts.

Lemma index_of_lt (c : pystr) (cols : list pystr) (i : nat) :
  index_of c cols = Some i -> (i < length cols)%nat.
Proof.
  revert i; induction cols as [|x cols IH]; intros i; simpl; [discriminate|].
  destruct (str_eqb x c).
  - intros E. injection E as <-. lia.
  - destruct (index_of c cols) as [j|]; [|discriminate].
    intros E. injection E as <-. specialize (IH j eq_refl). lia.
Qed.

Lemma index_of_app_new (c : pystr) (cols : list pystr) :
  index_of c cols = None -> index_of c (cols ++ [c]) = Some (length cols).
Proof.
  induction cols as [|x cols IH]; simpl.
  - intros _. rewrite str_eqb_refl. reflexivity.
  - destruct (str_eqb x c); [discriminate|].
    destruct (index_of c cols); [discriminate|].
    intros _. rewrite IH by reflexivity. reflexivity.
Qed.

Lemma index_of_head (c : pystr) (cols : list pystr) :
  index_of c (c :: cols) = Some O.
Proof. simpl. rewrite str_eqb_refl. reflexivity. Qed.

Lemma nth_set_nth (i : nat) (v d : pystr) (row : list pystr) :
  (i < length row)%nat -> nth i (set_nth i v row) d = v.
Proof.
  revert row; induction i as [|i IH]; intros [|x row]; simpl; try lia.
  - reflexivity.
  - intros H. apply IH. lia.
Qed.

Lemma nth_set_nth_other (i : nat) (v d : pystr) (row : list pystr) :
  nth O (set_nth (S i) v row) d = nth O row d.
Proof. destruct row; reflexivity. Qed.

Lemma set_column_has (c v : pystr) (f : frame) :
  has_column c (set_column c v f) = true.
Proof.
  unfold set_column, has_column.
  destruct (index_of c (columns f)) eqn:E; simpl.
  - rewrite E. reflexivity.
  - rewrite (index_of_app_new _ _ E). reflexivity.
Qed.

Lemma set_column_rows (c v : pystr) (f : frame) :
  length (data (set_column c v f)) = length (data f).
Proof.
  unfold set_column. destruct (index_of c (columns f)); simpl; apply length_map.
Qed.

(** After [df[c] = v], every row reads [v] under [c]. *)
Lemma set_column_cell (c v : pystr) (f : frame) (row : list pystr) :
  rectangular f ->
  In row (data (set_column c v f)) ->
  cell (set_column c v f) row c = v.
Proof.
  unfold rectangular, set_column, cell. rewrite Forall_forall. intros Hrect.
  destruct (index_of c (columns f)) as [i|] eqn:E; simpl.
  - rewrite E. intros Hin. apply in_map_iff in Hin as (r & <- & Hr).
    apply nth_set_nth. rewrite (Hrect r Hr). exact (index_of_lt _ _ _ E).
  - rewrite (index_of_app_new _ _ E).
    intros Hin. apply in_map_iff in Hin as (r & <- & Hr).
    rewrite <- (Hrect r Hr), app_nth2, Nat.sub_diag by lia. reflexivity.
Qed.

Lemma filter_cons_true {A} (p : A -> bool) (x : A) (l : list A) :
  p x = true -> filter p (x :: l) = x :: filter p l.
Proof. intros H. simpl. rewrite H. reflexivity. Qed.

Lemma part_of_columns (ticker : pystr) (f : frame) :
  exists rest, columns (part_of ticker f) = py "ticker" :: rest /\
               Forall (fun c => In c canonical_columns) rest.
Proof.
  unfold part_of, select_columns, canonical_columns. cbn [columns].
  rewrite filter_cons_true by apply set_column_has.
  eexists. split; [reflexivity|].
  apply Forall_forall. intros c Hc. apply filter_In in Hc as [Hc _].
  right. exact Hc.
Qed.

Lemma part_of_rows (ticker : pystr) (f : frame) :
  length (data (part_of ticker f)) = length (data f).
Proof.
  unfold part_of, select_columns. cbn [data].
  rewrite length_map. apply set_column_rows.
Qed.

Lemma part_of_ticker_cell (ticker : pystr) (f : frame) (row : list pystr) :
  rectangular f ->
  In row (data (part_of ticker f)) ->
  cell (part_of ticker f) row (py "ticker") = ticker.
Proof.
  intros Hrect Hin.
  destruct (part_of_columns ticker f) as (rest & Hcols & _).
  unfold cell. rewrite Hcols, index_of_head.
  unfold part_of, select_columns in Hin, Hcols. cbn [data columns] in Hin, Hcols.
  apply in_map_iff in Hin as (r0 & <- & Hr0).
  rewrite Hcols. cbn [map nth].
  exact (set_column_cell _ _ _ _ Hrect Hr0).
Qed.

(** X14.  The part a ticker's file contributes: the rows of the file, one for
    one, in the canonical columns the file has, led by the ticker column;
    and whatever the file says under [ticker], every row of the part reads
    the ticker the file is named after. *)
Theorem part_of_names_the_ticker (ticker : pystr) (f : frame) :
  rectangular f ->
  rectangular (part_of ticker f) /\
  length (data (part_of ticker f)) = length (data f) /\
  (exists rest, columns (part_of ticker f) = py "ticker" :: rest /\
                Forall (fun c => In c canonical_columns) rest) /\
  Forall (fun row => cell (part_of ticker f) row (py "ticker") = ticker)
         (data (part_of ticker f)).
Proof.
  intros Hrect. split; [|split; [|split]].
  - unfold rectangular, part_of, select_columns. cbn [data columns].
    apply Forall_forall. intros row Hin.
    apply in_map_iff in Hin as (r0 & <- & _). apply length_map.
  - apply part_of_rows.
  - apply part_of_columns.
  - apply Forall_forall. intros row Hin.
    exact (part_of_ticker_cell _ _ _ Hrect Hin).
Qed.

(** *** The rows of the panel *)

Lemma rows_in_app (a b : list frame) :
  rows_in (a ++ b) = (rows_in a + rows_in b)%nat.
Proof. unfold rows_in. rewrite map_app, list_sum_app. reflexivity. Qed.

Lemma concat_rows (parts : list frame) :
  length (data (concat parts)) = rows_in parts.
Proof.
  unfold concat, rows_in. cbn [data].
  generalize (fold_left (fun seen f => union_columns seen (columns f)) parts []).
  intros cols. induction parts as [|f parts IH]; simpl; [reflexivity|].
  rewrite length_app, length_map, IH. reflexivity.
Qed.

Lemma collect_parts_rows (normal : pystr -> csv_file) (tickers : list pystr)
    (parts out : list frame) (ws : list warning) :
  fst (collect_parts normal tickers parts ws) = Ok out ->
  rows_in out = (rows_in parts + total_rows normal tickers)%nat.
Proof.
  revert parts ws; induction tickers as [|t tickers IH]; intros parts ws; simpl.
  - intros E. injection E as <-. lia.
  - unfold rows_yielded.
    destruct (normal (t ++ py ".csv")) as [| |f].
    + intros E. rewrite (IH _ _ E). lia.
    + simpl. discriminate.
    + unfold read_csv. destruct (has_column (py "trade_date") f); [|simpl; discriminate].
      intros E. rewrite (IH _ _ E), rows_in_app.
      assert (H1 : rows_in [part_of t f] = length (data f)).
      { unfold rows_in, list_sum. cbn [map fold_right]. rewrite part_of_rows. lia. }
      rewrite H1. lia.
Qed.

Section Panel.
Context {lib : PyLib}.

Lemma map_exc_length {A B} (f : A -> exc B) (l : list A) (out : list B) :
  map_exc f l = Ok out -> length out = length l.
Proof.
  revert out; induction l as [|x l IH]; intros out; simpl.
  - intros E. injection E as <-. reflexivity.
  - destruct (f x); simpl; [|discriminate].
    destruct (map_exc f l) as [ys|]; simpl; [|discriminate].
    intros E. injection E as <-. simpl. f_equal. apply IH. reflexivity.
Qed.

Lemma map_exc_In {A B} (f : A -> exc B) (l : list A) (out : list B) (y : B) :
  map_exc f l = Ok out -> In y out -> exists x, In x l /\ f x = Ok y.
Proof.
  revert out; induction l as [|x l IH]; intros out; simpl.
  - intros E. injection E as <-. intros [].
  - destruct (f x) as [y0|] eqn:Ex; simpl; [|discriminate].
    destruct (map_exc f l) as [ys|]; simpl; [|discriminate].
    intros E. injection E as <-. intros [<- | Hin].
    + exists x. split; [left; reflexivity | exact Ex].
    + destruct (IH ys eq_refl Hin) as (x' & Hx' & Hf).
      exists x'. split; [right; exact Hx' | exact Hf].
Qed.

Lemma normalize_trade_date_rows (f out : frame) :
  normalize_trade_date f = Ok out ->
  columns out = columns f /\ length (data out) = length (data f).
Proof.
  unfold normalize_trade_date.
  destruct (index_of (py "trade_date") (columns f)) as [i|]; [|discriminate].
  destruct (map_exc _ (data f)) as [rows|] eqn:Em; simpl; [|discriminate].
  intros E. injection E as <-. simpl. split; [reflexivity|].
  exact (map_exc_length _ _ _ Em).
Qed.

(** X15.  The panel has one row for each data row of the files of the tickers
    listed: no row is dropped or added on the way, a ticker listed twice
    gives its rows twice, and a ticker without a file gives none. *)
Theorem panel_row_count (normal : pystr -> csv_file) (tickers : list pystr)
    (panel : frame) :
  fst (assemble normal tickers) = Ok panel ->
  length (data panel) = total_rows normal tickers.
Proof.
  rewrite AssemblerExit.assemble_from_parts.
  destruct (fst (collect_parts normal tickers [] [])) as [parts|] eqn:Ec;
    [|discriminate].
  destruct (is_empty parts); [discriminate|].
  destruct (normalize_trade_date (concat parts)) as [all_df|] eqn:En;
    simpl; [|discriminate].
  intros E. injection E as <-. unfold sort_panel. cbn [data].
  rewrite (Permutation_length (SortFacts.sorted_perm _ _ (data all_df))).
  rewrite (proj2 (normalize_trade_date_rows _ _ En)), concat_rows.
  rewrite (collect_parts_rows _ _ _ _ _ Ec). reflexivity.
Qed.

(** *** A file that cannot be read *)

Lemma collect_parts_refused (normal : pystr -> csv_file) (tickers : list pystr)
    (parts : list frame) (ws : list warning) :
  (exists t, In t tickers /\ refused (normal (t ++ py ".csv"))) ->
  fst (collect_parts normal tickers parts ws) = Raise ValueError.
Proof.
  revert parts ws; induction tickers as [|t tickers IH]; intros parts ws;
    intros (t0 & Hin & Href); simpl; [destruct Hin|].
  destruct (normal (t ++ py ".csv")) as [| |f] eqn:Hfile.
  - apply IH. exists t0. split; [|exact Href].
    destruct Hin as [<- | Hin]; [|exact Hin].
    rewrite Hfile in Href. destruct Href as [H | (f & H & _)]; discriminate H.
  - reflexivity.
  - unfold read_csv. destruct (has_column (py "trade_date") f) eqn:Hcol;
      [|reflexivity].
    apply IH. exists t0. split; [|exact Href].
    destruct Hin as [<- | Hin]; [|exact Hin].
    rewrite Hfile in Href. destruct Href as [H | (f' & H & Hf')];
      [discriminate H|].
    injection H as <-. congruence.
Qed.

(** X16.  One file that is there and that [pd.read_csv] refuses (an empty file,
    or a table without a [trade_date] column) ends the run with
    [ValueError], whatever the files of the other tickers hold: no panel
    is written. *)
Theorem refused_file_ends_the_run (normal : pystr -> csv_file)
    (tickers : list pystr) (t : pystr) :
  In t tickers ->
  refused (normal (t ++ py ".csv")) ->
  fst (assemble normal tickers) = Raise ValueError.
Proof.
  intros Hin Href. rewrite AssemblerExit.assemble_from_parts.
  rewrite (collect_parts_refused normal tickers [] []); [reflexivity|].
  exists t. split; assumption.
Qed.

(** *** The ticker column of the panel *)

Lemma collect_parts_made (normal : pystr -> csv_file) (all tickers : list pystr)
    (parts out : list frame) (ws : list warning) :
  (forall t, In t tickers -> In t all) ->
  Forall (made_from normal all) parts ->
  fst (collect_parts normal tickers parts ws) = Ok out ->
  Forall (made_from normal all) out.
Proof.
  revert parts ws; induction tickers as [|t tickers IH]; intros parts ws Hsub Hparts;
    simpl.
  - intros E. injection E as <-. exact Hparts.
  - assert (Hrest : forall t', In t' tickers -> In t' all)
      by (intros t' Hin; apply Hsub; right; exact Hin).
    destruct (normal (t ++ py ".csv")) as [| |f] eqn:Hfile.
    + apply IH; assumption.
    + simpl. discriminate.
    + unfold read_csv. destruct (has_column (py "trade_date") f);
        [|simpl; discriminate].
      apply IH; [exact Hrest|].
      apply Forall_app. split; [exact Hparts|].
      constructor; [|constructor].
      exists t, f. split; [apply Hsub; left; reflexivity|].
      split; [exact Hfile | reflexivity].
Qed.

Lemma union_columns_prefix (seen cols : list pystr) :
  exists more, union_columns seen cols = seen ++ more.
Proof.
  revert seen; induction cols as [|c cols IH]; intros seen; simpl.
  - exists []. rewrite app_nil_r. reflexivity.
  - destruct (index_of c seen); [apply IH|].
    destruct (IH (seen ++ [c])) as (more & ->).
    exists (c :: more). rewrite <- app_assoc. reflexivity.
Qed.

Lemma fold_union_prefix (parts : list frame) (seen : list pystr) :
  exists more,
    fold_left (fun seen f => union_columns seen (columns f)) parts seen
    = seen ++ more.
Proof.
  revert seen; induction parts as [|f parts IH]; intros seen; simpl.
  - exists []. rewrite app_nil_r. reflexivity.
  - destruct (union_columns_prefix seen (columns f)) as (m1 & ->).
    destruct (IH (seen ++ m1)) as (m2 & ->).
    exists (m1 ++ m2). rewrite app_assoc. reflexivity.
Qed.

Lemma concat_columns_head (part : frame) (parts : list frame) (rest : list pystr) :
  columns part = py "ticker" :: rest ->
  exists tail, columns (concat (part :: parts)) = py "ticker" :: tail.
Proof.
  intros Hcols. unfold concat. cbn [columns fold_left]. rewrite Hcols.
  cbn [union_columns index_of].
  destruct (union_columns_prefix ([] ++ [py "ticker"]) rest) as (m1 & ->).
  destruct (fold_union_prefix parts (([] ++ [py "ticker"]) ++ m1)) as (m2 & ->).
  exists (m1 ++ m2). reflexivity.
Qed.

Lemma concat_row (parts : list frame) (row : list pystr) :
  In row (data (concat parts)) ->
  exists f r, In f parts /\ In r (data f) /\
              row = map (cell f r) (columns (concat parts)).
Proof.
  unfold concat. cbn [data columns]. intros Hin.
  apply in_flat_map in Hin as (f & Hf & Hrow).
  apply in_map_iff in Hrow as (r & <- & Hr).
  exists f, r. split; [exact Hf | split; [exact Hr | reflexivity]].
Qed.

Lemma normalize_trade_date_row (f out : frame) (tail row : list pystr) :
  columns f = py "ticker" :: tail ->
  normalize_trade_date f = Ok out ->
  In row (data out) ->
  exists row0, In row0 (data f) /\ nth O row (py "") = nth O row0 (py "").
Proof.
  intros Hcols. unfold normalize_trade_date. rewrite Hcols.
  assert (Ei : index_of (py "trade_date") (py "ticker" :: tail)
               = match index_of (py "trade_date") tail with
                 | Some i => Some (S i) | None => None end) by reflexivity.
  rewrite Ei. destruct (index_of (py "trade_date") tail) as [i|]; [|discriminate].
  destruct (map_exc _ (data f)) as [rows|] eqn:Em; simpl; [|discriminate].
  intros E. injection E as <-. simpl. intros Hin.
  destruct (map_exc_In _ _ _ _ Em Hin) as (row0 & Hrow0 & Hf).
  exists row0. split; [exact Hrow0|].
  destruct (to_date_cell (nth (S i) row0 (py ""))) as [d|]; simpl in Hf;
    [|discriminate Hf].
  injection Hf as <-. apply nth_set_nth_other.
Qed.

(** X17.  When the files are tables with one cell for each column, every row
    of the panel reads, under [ticker], one of the tickers listed: the
    ticker the row's file is named after, not what the file says. *)
Theorem panel_tickers_are_listed (normal : pystr -> csv_file)
    (tickers : list pystr) (panel : frame) :
  rectangular_files normal tickers ->
  fst (assemble normal tickers) = Ok panel ->
  Forall (fun row => In (cell panel row (py "ticker")) tickers) (data panel).
Proof.
  intros Hrect. rewrite AssemblerExit.assemble_from_parts.
  destruct (fst (collect_parts normal tickers [] [])) as [parts|] eqn:Ec;
    [|discriminate].
  pose proof (collect_parts_made normal tickers tickers [] parts []
                (fun t H => H) (Forall_nil _) Ec) as Hmade.
  destruct parts as [|part parts]; [discriminate|]. cbn [is_empty].
  destruct (normalize_trade_date (concat (part :: parts))) as [all_df|] eqn:En;
    simpl; [|discriminate].
  intros E. injection E as <-.
  assert (Hhead : exists tail, columns (concat (part :: parts)) = py "ticker" :: tail).
  { pose proof (Forall_inv Hmade) as (t & f & _ & _ & ->).
    destruct (part_of_columns t f) as (rest & Hcols & _).
    exact (concat_columns_head _ parts rest Hcols). }
  destruct Hhead as (tail & Hcols).
  pose proof (proj1 (normalize_trade_date_rows _ _ En)) as Hsame.
  apply Forall_forall. intros row Hin.
  unfold sort_panel in Hin. cbn [data] in Hin.
  apply (Permutation_in _ (SortFacts.sorted_perm _ _ (data all_df))) in Hin.
  destruct (normalize_trade_date_row _ _ tail row Hcols En Hin) as (row0 & Hrow0 & Hnth).
  destruct (concat_row _ _ Hrow0) as (f & r & Hf & Hr & Erow0).
  unfold cell, sort_panel. cbn [columns]. rewrite Hsame, Hcols, index_of_head, Hnth.
  rewrite Erow0, Hcols. cbn [map nth].
  rewrite Forall_forall in Hmade.
  destruct (Hmade f Hf) as (t & f0 & Ht & Hfile & ->).
  rewrite (part_of_ticker_cell t f0 r (Hrect t f0 Ht Hfile) Hr). exact Ht.
Qed.

End Panel.

(** [AAA.csv] says [XXX] under [ticker]; its part says [AAA]. *)
Lemma part_of_names_the_ticker_witness :
  Forall (fun row => cell (part_of (py "AAA") Ref.frame_AAA) row (py "ticker")
                     = py "AAA")
         (data (part_of (py "AAA") Ref.frame_AAA)) /\
  length (data (part_of (py "AAA") Ref.frame_AAA)) = 2%nat.
Proof.
  destruct (part_of_names_the_ticker (py "AAA") Ref.frame_AAA) as (_ & Hn & _ & Ht).
  - repeat constructor.
  - split; [exact Ht | exact Hn].
Defined.

(** [AAA] (two rows), [ZZZ] (no file), [BBB] (one row): three rows. *)
Lemma panel_row_count_witness :
  exists panel,
    fst (@assemble Ref.ref_lib Ref.normal_demo [py "AAA"; py "ZZZ"; py "BBB"])
      = Ok panel /\
    length (data panel) = 3%nat.
Proof.
  eexists. split; [vm_compute; reflexivity|].
  apply (@panel_row_count Ref.ref_lib Ref.normal_demo [py "AAA"; py "ZZZ"; py "BBB"]).
  vm_compute. reflexivity.
Defined.

(** [CCC.csv] has no [trade_date] column. *)
Lemma refused_file_ends_the_run_witness :
  fst (@assemble Ref.ref_lib Ref.normal_demo [py "AAA"; py "CCC"; py "BBB"])
    = Raise ValueError.
Proof.
  apply (@refused_file_ends_the_run Ref.ref_lib Ref.normal_demo
           [py "AAA"; py "CCC"; py "BBB"] (py "CCC")).
  - right. left. reflexivity.
  - right. exists Ref.frame_CCC. split; reflexivity.
Defined.

(** The panel of [AAA] and [BBB]: no row reads [XXX]. *)
Lemma panel_tickers_are_listed_witness :
  exists panel,
    fst (@assemble Ref.ref_lib Ref.normal_demo [py "AAA"; py "BBB"]) = Ok panel /\
    Forall (fun row => In (cell panel row (py "ticker")) [py "AAA"; py "BBB"])
           (data panel).
Proof.
  eexists. split; [vm_compute; reflexivity|].
  apply (@panel_tickers_are_listed Ref.ref_lib Ref.normal_demo [py "AAA"; py "BBB"]).
  - intros t f [<- | [<- | []]] Hfile; vm_compute in Hfile;
      injection Hfile as <-; repeat constructor.
  - vm_compute. reflexivity.
Defined.

End AssemblerPanel.

(** ** When the classifier stops *)

Module ClassifierAbort.
Import PrepareAndIngest Claims PyFacts.

Section Abort.
Context {lib : PyLib}.

Lemma classify_file_raises (st : raw_store) (dirpath fn : pystr) (e : exn) :
  classify_file st dirpath fn = Raise e <->
  e = OSError /\ getsize st (path_join dirpath fn) = None.
Proof.
  unfold classify_file.
  destruct (getsize st (path_join dirpath fn)).
  - split; [discriminate | intros [_ H]; discriminate H].
  - split.
    + intros H. injection H as <-. split; reflexivity.
    + intros [-> _]. reflexivity.
Qed.

Lemma classify_files_raises (st : raw_store) (dirpath : pystr)
    (files : list pystr) (acc : list manifest_row) (e : exn) :
  classify_files st dirpath files acc = Raise e <->
  e = OSError /\
  exists fn, In fn (filter wanted files) /\
             getsize st (path_join dirpath fn) = None.
Proof.
  revert acc; induction files as [|fn files IH]; intros acc; simpl.
  - split; [discriminate | intros (_ & fn & [] & _)].
  - destruct (wanted fn) eqn:Hw.
    + destruct (classify_file st dirpath fn) as [r|e'] eqn:Er; simpl.
      * rewrite IH. split.
        -- intros (He & fn' & Hin & Hsz). split; [exact He|].
           exists fn'. split; [right; exact Hin | exact Hsz].
        -- intros (He & fn' & [<- | Hin] & Hsz).
           ++ exfalso.
              assert (H : classify_file st dirpath fn = Raise OSError)
                by (apply classify_file_raises; split; [reflexivity | exact Hsz]).
              congruence.
           ++ split; [exact He|]. exists fn'. split; assumption.
      * apply classify_file_raises in Er as [-> Hsz]. split.
        -- intros H. injection H as <-. split; [reflexivity|].
           exists fn. split; [left; reflexivity | exact Hsz].
        -- intros (-> & _). reflexivity.
    + apply IH.
Qed.

Lemma classify_dirs_raises (st : raw_store) (dirs : list (pystr * list pystr))
    (acc : list manifest_row) (e : exn) :
  classify_dirs st dirs acc = Raise e <->
  e = OSError /\
  exists dirpath fn, In (dirpath, fn) (flat_map files_of_dir dirs) /\
                     getsize st (path_join dirpath fn) = None.
Proof.
  revert acc; induction dirs as [|[d files] dirs IH]; intros acc; simpl.
  - split; [discriminate | intros (_ & dp & fn & [] & _)].
  - destruct (classify_files st d (sorted str_leb files) acc) as [acc'|e'] eqn:Ef;
      simpl.
    + rewrite IH. split.
      * intros (He & dp & fn & Hin & Hsz). split; [exact He|].
        exists dp, fn. split; [apply in_or_app; right; exact Hin | exact Hsz].
      * intros (He & dp & fn & Hin & Hsz). split; [exact He|].
        apply in_app_or in Hin as [Hin | Hin].
        -- exfalso. unfold files_of_dir in Hin. simpl in Hin.
           apply in_map_iff in Hin as (fn' & E & Hfn'). injection E as <- <-.
           assert (H : classify_files st d (sorted str_leb files) acc = Raise OSError).
           { apply classify_files_raises. split; [reflexivity|].
             exists fn'. split; assumption. }
           congruence.
        -- exists dp, fn. split; assumption.
    + apply classify_files_raises in Ef as (-> & fn & Hin & Hsz). split.
      * intros H. injection H as <-. split; [reflexivity|].
        exists d, fn. split; [|exact Hsz].
        apply in_or_app. left. unfold files_of_dir. simpl.
        apply in_map_iff. exists fn. split; [reflexivity | exact Hin].
      * intros (-> & _). reflexivity.
Qed.

(** X3.  The classifier ends with an exception, and writes no manifest,
    exactly when the size of one of the files it processes cannot be asked
    for; the exception is then [OSError].  Nothing in the content of a
    file, and no failure to read one, stops the run. *)
Theorem classifier_stops_only_on_size (st : raw_store) (e : exn) :
  classify_and_summarize st = Raise e <->
  e = OSError /\
  exists dirpath fn, In (dirpath, fn) (scanned st) /\
                     getsize st (path_join dirpath fn) = None.
Proof.
  unfold scanned. rewrite <- (classify_dirs_raises st (walk st) []).
  unfold classify_and_summarize.
  destruct (classify_dirs st (walk st) []); simpl; split; congruence.
Qed.

End Abort.

(** [gone.json] of the broken store has no size. *)
Lemma classifier_stops_only_on_size_witness :
  @classify_and_summarize Ref.ref_lib Ref.broken_store = Raise OSError.
Proof.
  apply (proj2 (@classifier_stops_only_on_size Ref.ref_lib Ref.broken_store OSError)).
  split; [reflexivity|].
  exists (py ""), (py "gone.json"). split; [|reflexivity].
  vm_compute. left. reflexivity.
Defined.

End ClassifierAbort.

(** ** What the normalizer prints *)

Module NormalizerLog.
Import PrepareAndIngest PyFacts.

Section Log.
Context {lib : PyLib}.

Lemma normalize_entry_prints (read_text : pystr -> option pystr)
    (st st' : norm_state) (r : manifest_entry) :
  normalize_entry read_text st r = (st', None) ->
  let n := if str_eqb (m_status r) (py "has_data") then 1%nat else 0%nat in
  length (printed st') = (length (printed st) + n)%nat /\
  (length (written st') <= length (written st) + n)%nat.
Proof.
  unfold normalize_entry.
  destruct (str_eqb (m_status r) (py "has_data")); simpl.
  - destruct (load_document st (read_text (replace slash slash (m_relative_path r))))
      as [[j|] c].
    + destruct (records_of j) as [records|].
      * destruct (normalize_records (m_ticker r) records) as [[df|]|e];
          intros E; injection E as <-; try discriminate; simpl; lia.
      * intros E. injection E as <-. simpl. lia.
    + intros E. injection E as <-. simpl. lia.
  - intros E. injection E as <-. lia.
Qed.

Lemma normalize_loop_prints (read_text : pystr -> option pystr)
    (st final : norm_state) (manifest : list manifest_entry) :
  normalize_loop read_text st manifest = (final, None) ->
  let n := length (filter (fun r => str_eqb (m_status r) (py "has_data")) manifest) in
  length (printed final) = (length (printed st) + n)%nat /\
  (length (written final) <= length (written st) + n)%nat.
Proof.
  revert st; induction manifest as [|r manifest IH]; intros st; simpl.
  - intros E. injection E as <-. lia.
  - destruct (normalize_entry read_text st r) as [st' [e|]] eqn:En; [discriminate|].
    intros Hrun. specialize (IH st' Hrun). simpl in IH.
    pose proof (normalize_entry_prints read_text st st' r En) as Hone. simpl in Hone.
    destruct (str_eqb (m_status r) (py "has_data")); simpl; lia.
Qed.

(** X10.  A run of the normalizer that ends without an exception has printed
    one line for each [has_data] entry of the manifest, a skip, a
    no-rows or a wrote line, and none for the other entries; it has
    written at most one file for each of these entries. *)
Theorem normalizer_accounts_for_entries (read_text : pystr -> option pystr)
    (manifest : list manifest_entry) (final : norm_state) :
  normalize_has_data read_text manifest = (final, None) ->
  length (printed final)
    = length (filter (fun r => str_eqb (m_status r) (py "has_data")) manifest) /\
  (length (written final) <= length (printed final))%nat.
Proof.
  unfold normalize_has_data. intros Hrun.
  destruct (normalize_loop_prints read_text initial_state final manifest Hrun)
    as [Hp Hw].
  simpl in Hp, Hw. split; [exact Hp | lia].
Qed.

End Log.

(** The manifest with the ghost entry: two entries, two lines, two files. *)
Lemma normalizer_accounts_for_entries_witness :
  exists final,
    @normalize_has_data Ref.ref_lib (read_text Ref.demo_store) Ref.manifest_with_ghost
      = (final, None) /\
    length (printed final) = 2%nat /\
    (length (written final) <= length (printed final))%nat.
Proof.
  eexists. split; [vm_compute; reflexivity|].
  apply (@normalizer_accounts_for_entries Ref.ref_lib (read_text Ref.demo_store)
           Ref.manifest_with_ghost).
  vm_compute. reflexivity.
Defined.

End NormalizerLog.
